(** * Lung-ultrasound classification pipeline: training utilities,
      preprocessing, Grad-CAM post-processing and reporting.

    The Python sources are embedded function by function.  Numbers that the
    code holds in binary64 are handled through a small interface [Num] with
    two instances: primitive IEEE-754 floats (what the interpreter computes)
    and exact rationals (the arithmetic the formulas are written in). *)

From Stdlib Require Import ZArith QArith Qround Qabs Lia Lqa Floats Ascii String.
From Stdlib Require Import DecimalString.
From stdpp Require Import base option list gmap strings pretty sorting.

Set Default Proof Using "Type".
Set Warnings "-inexact-float".

(** ** Numeric interface *)

Class Num (R : Type) : Type := {
  num_of_Z : Z -> R;            (* int -> float promotion *)
  num_add : R -> R -> R;
  num_sub : R -> R -> R;
  num_mul : R -> R -> R;
  num_div : R -> R -> R;
  num_opp : R -> R;
  num_maximum : R -> R -> R;    (* np.maximum on two scalars *)
  num_neqb : R -> R -> bool;    (* the != comparison *)
  num_ltb : R -> R -> bool;
  num_sqrt : R -> R;
  num_eps : R;                  (* np.finfo('float').eps *)
}.

(** Promotion of a Python/NumPy integer to binary64: the nearest double,
    ties to even (exact up to 2^53 in magnitude). *)
Definition float_of_Z (z : Z) : float :=
  SF2Prim (binary_normalize prec emax z 0 false).

(** np.maximum propagates NaN and otherwise returns the larger argument. *)
Definition float_maximum (a b : float) : float :=
  if PrimFloat.is_nan a then a
  else if PrimFloat.is_nan b then b
  else if PrimFloat.ltb a b then b else a.

#[export] Instance float_Num : Num float := {
  num_of_Z := float_of_Z;
  num_add := PrimFloat.add;
  num_sub := PrimFloat.sub;
  num_mul := PrimFloat.mul;
  num_div := PrimFloat.div;
  num_opp := PrimFloat.opp;
  num_maximum := float_maximum;
  num_neqb := fun a b => negb (PrimFloat.eqb a b);
  num_ltb := PrimFloat.ltb;
  num_sqrt := PrimFloat.sqrt;
  num_eps := 0x1p-52%float;
}.

Definition Qmaximum (a b : Q) : Q := if Qle_bool a b then b else a.

(** The rationals have no square root; the exact instance uses the
    integer square roots of numerator and denominator of the reduced
    fraction, which is the root whenever the argument is the square of a
    rational. *)
Definition Qsqrt_floor (q : Q) : Q :=
  let r := Qred q in
  Z.sqrt (Qnum r) # Pos.sqrt (Qden r).

#[export] Instance Q_Num : Num Q := {
  num_of_Z := inject_Z;
  num_add := Qplus;
  num_sub := Qminus;
  num_mul := Qmult;
  num_div := Qdiv;
  num_opp := Qopp;
  num_maximum := Qmaximum;
  num_neqb := fun a b => negb (Qeq_bool a b);
  num_ltb := fun a b => negb (Qle_bool b a);
  num_sqrt := Qsqrt_floor;
  num_eps := 1 # (2 ^ 52);
}.

(** The rational denoted by a finite binary64 value. *)
Definition float_value (x : float) : option Q :=
  match Prim2SF x with
  | S754_zero _ => Some 0%Q
  | S754_finite sign m e =>
      Some ((if sign then -1 else 1) * inject_Z (Z.pos m) * Qpower 2 e)%Q
  | _ => None
  end.

(** ** NumPy / TensorFlow reductions used by the sources *)

Module Np.
Section reductions.
Context {R : Type} `{Num R}.

Definition sum (xs : list R) : R := foldl num_add (num_of_Z 0) xs.

Definition mean (xs : list R) : R :=
  num_div (sum xs) (num_of_Z (Z.of_nat (length xs))).

(** Two-pass variance with [ddof] delta degrees of freedom, the formula
    of [ndarray.std] on an array without NaN, summed from left to right
    (as NumPy adds fewer than eight elements). *)
Definition var (ddof : nat) (xs : list R) : R :=
  let avg := mean xs in
  num_div
    (sum ((fun x => let d := num_sub x avg in num_mul d d) <$> xs))
    (num_of_Z (Z.of_nat (length xs) - Z.of_nat ddof)).

Definition std (ddof : nat) (xs : list R) : R := num_sqrt (var ddof xs).

(** The elements of a three-dimensional array, in order. *)
Definition flatten (t : list (list (list R))) : list R :=
  concat (concat t).

(** [np.max] of the flattened array; an empty array raises. *)
Definition max (xs : list R) : option R :=
  match xs with
  | [] => None
  | x :: rest => Some (foldl num_maximum x rest)
  end.
End reductions.
End Np.

(** ** src/train.py *)

Module Train.

Section class_weights.
Context {R : Type} `{Num R}.

(** A NumPy [int64] holds the integers from -2^63 to 2^63 - 1, and its
    addition wraps around. *)
Definition int64_wrap (z : Z) : Z :=
  ((z + 2 ^ 63) mod 2 ^ 64 - 2 ^ 63)%Z.

(** Python's [sum] over the histogram: the entries are the [int64]
    counts of [np.bincount], so every partial sum is an [int64]. *)
Definition py_sum (l : list Z) : Z :=
  foldl (fun acc k => int64_wrap (acc + k)) 0%Z l.

(** The right-hand side of the assignment in the loop body:
    [(1.0 / len(histogram)) * sum(histogram) / histogram[i]]. *)
Definition class_weight_formula (num_classes total_count count_i : Z) : R :=
  num_div
    (num_mul (num_div (num_of_Z 1) (num_of_Z num_classes))
             (num_of_Z total_count))
    (num_of_Z count_i).

(** [weights], filled for i in range(len(histogram)). *)
Definition weights (histogram : list Z) : list R :=
  (fun count_i =>
     class_weight_formula (Z.of_nat (length histogram)) (py_sum histogram)
                          count_i) <$> histogram.

(** [{i: weights[i] for i in range(len(histogram))}].  The histogram
    comes from [np.bincount], so its entries are NumPy integers and the
    divisions are IEEE divisions. *)
Definition get_class_weights (histogram : list Z) : gmap nat R :=
  map_seq 0 (weights histogram).
End class_weights.

(** *** partition_dataset *)

(** One row of the frame table (the columns the pipeline reads). *)
Record frame : Type := Frame {
  Frame_Path : string;
  Class : Z;
  Class_Name : string;
  Patient : string;
}.

(** A row of a frame-level partition: the original row plus the derived
    [Clip] column. *)
Record clip_frame : Type := ClipFrame {
  row : frame;
  Clip : string;
}.

(** [Series.unique()]: distinct values in order of first appearance. *)
Definition unique {A : Type} `{EqDecision A} (l : list A) : list A :=
  reverse (remove_dups (reverse l)).

(** [s.rsplit('_', 1)[0]] on the characters of [s]: the text before the
    last underscore, [None] when there is no underscore. *)
Fixpoint rsplit_head (l : list ascii) : option (list ascii) :=
  match l with
  | [] => None
  | c :: l' =>
      match rsplit_head l' with
      | Some p => Some (c :: p)
      | None => if decide (c = "_"%char) then Some [] else None
      end
  end.

Definition clip_of (path : string) : string :=
  match rsplit_head (list_ascii_of_string path) with
  | Some p => string_of_list_ascii p
  | None => path
  end.

(** [df[df['Patient'].isin(pts)]] followed by the [Clip] assignment. *)
Definition select_frames (pts : list string) (frame_df : list frame)
    : list clip_frame :=
  (fun f => ClipFrame f (clip_of (Frame_Path f)))
    <$> filter (fun f => Patient f ∈ pts) frame_df.

(** The patient identifiers that occur in a partition. *)
Definition patients (part : list clip_frame) : list string :=
  (fun r => Patient (row r)) <$> part.

Section partition.
Context {R : Type} `{Num R}.

(** sklearn's [train_test_split(array, test_size=..., random_state=...)]:
    the pair (train, test), or [None] when it raises. *)
Variable train_test_split :
  list string -> R -> Z -> option (list string * list string).

Definition relative_val_split (val_split test_split : R) : R :=
  num_div val_split (num_sub (num_of_Z 1) test_split).

(** The patient-level part of [partition_dataset]: lines 76-81. *)
Definition partition_patients (all_pts : list string) (random_state : Z)
    (val_split test_split : R)
    : option (list string * list string * list string) :=
  (* a zero divisor raises ZeroDivisionError on Python floats *)
  if num_neqb (num_sub (num_of_Z 1) test_split) (num_of_Z 0) then
    '(trainval_pts, test_pts) ←
       train_test_split all_pts test_split random_state;
    '(train_pts, val_pts) ←
       train_test_split trainval_pts
         (relative_val_split val_split test_split) random_state;
    Some (train_pts, val_pts, test_pts)
  else None.

(** [partition_dataset]: the returned triple of frame-level tables.
    Printing and the optional CSV export do not feed the result. *)
Definition partition_dataset (frame_df : list frame) (random_state : Z)
    (val_split test_split : R)
    : option (list clip_frame * list clip_frame * list clip_frame) :=
  let all_pts := unique (Patient <$> frame_df) in
  '(train_pts, val_pts, test_pts) ←
     partition_patients all_pts random_state val_split test_split;
  Some (select_frames train_pts frame_df,
        select_frames val_pts frame_df,
        select_frames test_pts frame_df).
End partition.

(** A deterministic splitter with sklearn's size arithmetic
    ([n_test = ceil(test_size * n)], [n_train = n - n_test], both required
    positive) and the identity in place of the seeded shuffle. *)
Definition ordered_split (pts : list string) (test_size : Q) (seed : Z)
    : option (list string * list string) :=
  let n := length pts in
  let n_test := Z.to_nat (Qceiling (test_size * inject_Z (Z.of_nat n))) in
  if bool_decide (0 < n_test < n)%nat
  then Some (drop n_test pts, take n_test pts)
  else None.

(** The same splitter on binary64, where sklearn computes the sizes: the
    product [test_size * n_samples] is rounded to a double before the
    ceiling is taken. *)
Definition float_ordered_split (pts : list string) (test_size : float)
    (seed : Z) : option (list string * list string) :=
  let n := length pts in
  product ← float_value (PrimFloat.mul test_size (float_of_Z (Z.of_nat n)));
  let n_test := Z.to_nat (Qceiling product) in
  if bool_decide (0 < n_test < n)%nat
  then Some (drop n_test pts, take n_test pts)
  else None.

(** A small frame table: five patients, two frames each. *)
Definition sample_frames : list frame :=
  [ Frame "p1_clipA_0001.jpg" 0 "parenchymal" "p1";
    Frame "p1_clipA_0002.jpg" 0 "parenchymal" "p1";
    Frame "p2_clipB_0001.jpg" 1 "pleural" "p2";
    Frame "p3_clipC_0001.jpg" 0 "parenchymal" "p3";
    Frame "p2_clipB_0002.jpg" 1 "pleural" "p2";
    Frame "p4_clipD_0001.jpg" 1 "pleural" "p4";
    Frame "p5_clipE_0001.jpg" 0 "parenchymal" "p5";
    Frame "p3_clipC_0002.jpg" 0 "parenchymal" "p3";
    Frame "p4_clipD_0002.jpg" 1 "pleural" "p4";
    Frame "p5_clipE_0002.jpg" 0 "parenchymal" "p5" ].

Definition ten_patients : list string :=
  ["a"; "b"; "c"; "d"; "e"; "f"; "g"; "h"; "i"; "j"].

(** *** save_hparam_search_results *)

Section hparam_results.
Context {R : Type} `{Num R}.

(** Values held in the results dictionary. *)
Inductive pyval : Type :=
| PyInt (n : Z)
| PyFloat (x : R)
| PyStr (s : string).

(** [pd.read_csv(path)] applied to the column that [to_csv] wrote. *)
Variable reload_column : list pyval -> list pyval.

Definition results_path (experiments model_name cur_datetime : string)
    : string :=
  experiments +:+ "hparam_search_" +:+ model_name +:+ cur_datetime
    +:+ ".csv".

(** [results[name].append(v)]; a missing key raises KeyError. *)
Definition dict_append (results : gmap string (list pyval)) (name : string)
    (v : pyval) : option (gmap string (list pyval)) :=
  col ← results !! name;
  Some (<[name := col ++ [v]]> results).

(** The loop [for hparam_name in hparam_names]. *)
Fixpoint append_hparams (results : gmap string (list pyval))
    (hparam_names : list string) (hparams : gmap string pyval)
    : option (gmap string (list pyval)) :=
  match hparam_names with
  | [] => Some results
  | hparam_name :: rest =>
      v ← hparams !! hparam_name;
      results' ← dict_append results hparam_name v;
      append_hparams results' rest hparams
  end.

(** [pd.DataFrame(results)] needs all columns of one length. *)
Definition rectangular (results : gmap string (list pyval)) (n : nat)
    : Prop :=
  map_Forall (fun _ col => length col = n) results.

(** The dictionary a call starts from: the table read back from the
    results file when that exists, else the caller's [init_dict]. *)
Definition current_results (fs : gmap string (gmap string (list pyval)))
    (path : string) (init_dict : gmap string (list pyval))
    : gmap string (list pyval) :=
  match fs !! path with
  | Some table => reload_column <$> table
  | None => init_dict
  end.

(** The file system maps a path to the table last written there; the
    function returns the new file system and the [results] dictionary,
    or [None] when an exception is raised.  When the file is absent
    [results] is the caller's [init_dict] itself, mutated in place. *)
Definition save_hparam_search_results
    (experiments : string)
    (fs : gmap string (gmap string (list pyval)))
    (init_dict : gmap string (list pyval)) (score : R)
    (objective_metric : string) (hparam_names : list string)
    (hparams : gmap string pyval) (model_name cur_datetime : string)
    : option (gmap string (gmap string (list pyval))
              * gmap string (list pyval)) :=
  let path := results_path experiments model_name cur_datetime in
  let results := current_results fs path init_dict in
  trial_col ← results !! "Trial";
  let trial_idx := length trial_col in
  results ← dict_append results "Trial" (PyStr (pretty trial_idx));
  results ← dict_append results objective_metric
              (PyFloat (num_sub (num_of_Z 1) score));
  results ← append_hparams results hparam_names hparams;
  if decide (rectangular results (S trial_idx))
  then Some (<[path := results]> fs, results)
  else None.

(** The entry that one trial contributes to the column [name]. *)
Definition new_cell (trial_idx : nat) (objective_metric : string)
    (score : R) (hparams : gmap string pyval) (name : string)
    : option pyval :=
  if decide (name = "Trial") then Some (PyStr (pretty trial_idx))
  else if decide (name = objective_metric)
       then Some (PyFloat (num_sub (num_of_Z 1) score))
       else hparams !! name.

(** Type inference of [read_csv] on a column whose every entry is an
    integer literal: the column comes back as integers. *)
Definition cell_as_int (v : pyval) : option Z :=
  match v with
  | PyInt n => Some n
  | PyStr s => Z.of_int <$> NilZero.int_of_string s
  | PyFloat _ => None
  end.

Definition reload_int_columns (col : list pyval) : list pyval :=
  match mapM cell_as_int col with
  | Some ns => PyInt <$> ns
  | None => col
  end.
End hparam_results.

(** *** cross_validation: the results table *)

Section cross_validation.
Context {R : Type} `{Num R}.

(** A value that the evaluation reports for a metric, and an entry of
    a metric column: a number, or an array of numbers (one per class). *)
Inductive cell : Type :=
| Scalar (x : R)
| Vector (v : list R).

(** pandas on a column of numbers: [Series.mean()] and [Series.std()],
    the latter with pandas' default [ddof=1]. *)
Variable Series_mean : list R -> R.
Variable Series_std : list R -> R.

(** NumPy on the stacked rows: [rows.std(axis=0, ddof=1)], one
    deviation per column of the matrix. *)
Variable ndarray_std : list (list R) -> list R.

(** pandas' reductions on an [object] column that holds arrays. *)
Variable object_mean : list cell -> option cell.
Variable object_std : list cell -> option cell.

Definition metric_names (classes : list string) : list string :=
  ["accuracy"; "auc"; "f1score"]
    ++ ((fun c => "precision_" +:+ c) <$> classes)
    ++ ((fun c => "recall_" +:+ c) <$> classes).

(** The [Fold] column. *)
Definition fold_labels (n_folds : nat) : list string :=
  (pretty <$> seq 0 n_folds) ++ ["mean"; "std"].

(** A column of [np.zeros((n_folds + 2, ...))]. *)
Definition init_column (n_folds : nat) : list cell :=
  replicate (n_folds + 2) (Scalar (num_of_Z 0)).

(** What a float64 column stores for an assigned value: the number
    itself, or the element of a one-element array; any other array
    raises ValueError. *)
Definition float64_item (v : cell) : option cell :=
  match v with
  | Scalar x => Some (Scalar x)
  | Vector [x] => Some (Scalar x)
  | Vector _ => None
  end.

(** [metrics_df[metric][idx] = v].  The table is created from
    [np.zeros], so its metric columns are float64; the fold loop casts the
    'accuracy' column, and no other, to [object], which stores any value
    as it is. *)
Definition setitem (metric : string) (col : list cell) (idx : nat)
    (v : cell) : option (list cell) :=
  if decide (metric = "accuracy") then Some (<[idx := v]> col)
  else item ← float64_item v; Some (<[idx := item]> col).

(** [metrics_df[metric][row_idx] = test_metrics[metric]], done only for
    metrics that the evaluation reported. *)
Definition record_fold (metric : string) (col : list cell) (row_idx : nat)
    (test_metrics : gmap string cell) : option (list cell) :=
  match test_metrics !! metric with
  | Some v => setitem metric col row_idx v
  | None => Some col
  end.

Fixpoint record_folds (metric : string) (col : list cell) (row_idx : nat)
    (folds : list (gmap string cell)) : option (list cell) :=
  match folds with
  | [] => Some col
  | test_metrics :: rest =>
      col ← record_fold metric col row_idx test_metrics;
      record_folds metric col (S row_idx) rest
  end.


(** [np.vstack]: every entry becomes a row (a number is a row of one
    element); rows of different lengths, or no row at all, raise. *)
Definition as_row (c : cell) : list R :=
  match c with
  | Scalar x => [x]
  | Vector v => v
  end.

Definition np_vstack (col : list cell) : option (list (list R)) :=
  match col with
  | [] => None
  | c :: _ =>
      if decide (Forall (fun c' => length (as_row c') = length (as_row c)) col)
      then Some (as_row <$> col)
      else None
  end.

Definition scalars (col : list cell) : option (list R) :=
  mapM (fun c => match c with Scalar x => Some x | Vector _ => None end) col.

(** [Series.mean()] and [Series.std()] on the rows of a column. *)
Definition series_mean (col : list cell) : option cell :=
  match scalars col with
  | Some xs => Some (Scalar (Series_mean xs))
  | None => object_mean col
  end.

Definition series_std (col : list cell) : option cell :=
  match scalars col with
  | Some xs => Some (Scalar (Series_std xs))
  | None => object_std col
  end.

(** The slice [[0:-2]]. *)
Definition fold_rows (col : list cell) : list cell :=
  take (length col - 2) col.

(** One iteration of the loop at lines 419-427. *)
Definition summarise_column (metric : string) (n_folds : nat)
    (col : list cell) : option (list cell) :=
  m ← series_mean (fold_rows col);
  col ← setitem metric col n_folds m;
  s ← (if decide (metric = "f1score")
       then rows ← np_vstack (fold_rows col);
            Some (Vector (ndarray_std rows))
       else series_std (fold_rows col));
  setitem metric col (S n_folds) s.

(** A metric column of the table that [cross_validation] returns, from
    the per-fold [test_metrics] dictionaries. *)
Definition cross_validation_column (metric : string)
    (fold_metrics : list (gmap string cell)) : option (list cell) :=
  let n_folds := length fold_metrics in
  col ← record_folds metric (init_column n_folds) 0 fold_metrics;
  summarise_column metric n_folds col.

Definition cross_validation (classes : list string)
    (fold_metrics : list (gmap string cell))
    : option (gmap string (list cell)) :=
  foldr (fun metric acc =>
           df ← acc;
           col ← cross_validation_column metric fold_metrics;
           Some (<[metric := col]> df))
        (Some ∅) (metric_names classes).
End cross_validation.

(** Stand-ins for the library reductions on short NaN-free columns:
    the two-pass formulas of [Np], along the columns of a matrix for
    [ndarray_std]. *)
Section reductions_axis0.
Context {R : Type} `{Num R}.

(** The [j]-th column of a stacked matrix. *)
Definition column (rows : list (list R)) (j : nat) : list R :=
  (fun r => default (num_of_Z 0) (r !! j)) <$> rows.

Definition width (rows : list (list R)) : nat :=
  match rows with
  | [] => 0
  | r :: _ => length r
  end.

Definition std_axis0 (ddof : nat) (rows : list (list R)) : list R :=
  (fun j => Np.std ddof (column rows j)) <$> seq 0 (width rows).

Definition no_object_reduction (col : list (cell (R:=R)))
    : option (cell (R:=R)) := None.
End reductions_axis0.

(** *** Clip-level tables of [partition_dataset] *)

(** A row of a clip-level table: [Frame Path] dropped, [Clip] renamed
    to [filename]. *)
Record clip_row : Type := ClipRow {
  filename : string;
  clip_Class : Z;
  clip_Class_Name : string;
  clip_Patient : string;
}.

(** The order of Python strings, character code by character code. *)
Definition string_le (a b : string) : Prop := String.leb a b = true.

#[global] Instance string_le_dec : RelDecision string_le :=
  fun a b => decide (String.leb a b = true).

(** The group keys of [groupby('Clip')], which sorts them. *)
Definition clip_keys (frames : list clip_frame) : list string :=
  merge_sort string_le (remove_dups (Clip <$> frames)).

(** [.first()] of a group: its first row (no column is null here). *)
Definition first_of_clip (frames : list clip_frame) (key : string)
    : option clip_frame :=
  snd <$> list_find (fun f => Clip f = key) frames.

(** [df.groupby('Clip').first().reset_index().drop('Frame Path', axis=1)
       .rename(columns={'Clip': 'filename'})] *)
Definition clips_table (frames : list clip_frame) : list clip_row :=
  omap (fun key =>
          f ← first_of_clip frames key;
          Some (ClipRow key (Class (row f)) (Class_Name (row f))
                        (Patient (row f))))
       (clip_keys frames).

(** *** define_callbacks *)

Record early_stopping : Type := EarlyStopping {
  es_monitor : string;
  es_patience : Z;
  es_mode : string;
  es_restore_best_weights : bool;
}.

Record reduce_lr_on_plateau : Type := ReduceLROnPlateau {
  rl_monitor : string;
  rl_factor : Q;
  rl_patience : Z;
  rl_min_lr : Q;
  rl_min_delta : Q;
}.

(** [define_callbacks(cfg)] with [PATIENCE = cfg['TRAIN']['PATIENCE']];
    [//] is floor division, as [Z.div] is for a positive divisor. *)
Definition define_callbacks (PATIENCE : Z)
    : early_stopping * reduce_lr_on_plateau :=
  (EarlyStopping "val_loss" PATIENCE "min" true,
   ReduceLROnPlateau "val_loss" (1 # 2) (PATIENCE / 2 + 1)
                     (1 # 100000000) (1 # 10000)).

(** *** bayesian_hparam_optimization *)

Section hparam_search.
Context {R : Type} `{Num R}.

(** An entry of [cfg['HPARAM_SEARCH'][model_name]]. *)
Record search_entry : Type := SearchEntry {
  RANGE : option (list (pyval (R:=R)));
  TYPE : string;
}.

(** The skopt dimensions the search space is made of. *)
Inductive dimension : Type :=
| Categorical (categories : list (pyval (R:=R))) (name : string)
| Integer (low high : pyval (R:=R)) (prior : string) (name : string)
| Real (low high : pyval (R:=R)) (prior : string) (name : string).

Definition dimension_name (d : dimension) : string :=
  match d with
  | Categorical _ name => name
  | Integer _ _ _ name => name
  | Real _ _ _ name => name
  end.

(** The locals [dimensions], [default_params], [hparam_names] and
    [results] of [bayesian_hparam_optimization]. *)
Record search_setup : Type := SearchSetup {
  dimensions : list dimension;
  default_params : list (pyval (R:=R));
  hparam_names : list string;
  results : gmap string (list (pyval (R:=R)));
}.

(** The [if]/[elif] chain on [TYPE]; [RANGE[0]] and [RANGE[1]] raise on
    a shorter range; no branch is taken for any other type. *)
Definition add_dimension (dims : list dimension) (hparam_name : string)
    (range : list (pyval (R:=R))) (type : string) : option (list dimension) :=
  if decide (type = "set") then
    Some (dims ++ [Categorical range hparam_name])
  else if decide (type = "int_uniform") then
    low ← range !! 0; high ← range !! 1;
    Some (dims ++ [Integer low high "uniform" hparam_name])
  else if decide (type = "float_log") then
    low ← range !! 0; high ← range !! 1;
    Some (dims ++ [Real low high "log-uniform" hparam_name])
  else if decide (type = "float_uniform") then
    low ← range !! 0; high ← range !! 1;
    Some (dims ++ [Real low high "uniform" hparam_name])
  else Some dims.

(** One iteration of the loop over [cfg['HPARAM_SEARCH'][model_name]];
    [hparams_cfg] is [cfg['HPARAMS'][model_name]]. *)
Definition search_step (hparams_cfg : gmap string (pyval (R:=R)))
    (st : search_setup) (item : string * search_entry)
    : option search_setup :=
  match RANGE item.2 with
  | None => Some st
  | Some range =>
      dims ← add_dimension (dimensions st) item.1 range (TYPE item.2);
      default ← hparams_cfg !! item.1;
      Some (SearchSetup dims (default_params st ++ [default])
                        (hparam_names st ++ [item.1])
                        (<[item.1 := []]> (results st)))
  end.

Fixpoint search_steps (hparams_cfg : gmap string (pyval (R:=R)))
    (st : search_setup) (items : list (string * search_entry))
    : option search_setup :=
  match items with
  | [] => Some st
  | item :: rest =>
      st' ← search_step hparams_cfg st item;
      search_steps hparams_cfg st' rest
  end.

(** The set-up part of [bayesian_hparam_optimization]: the search
    configuration is read in the order of the YAML mapping. *)
Definition build_search_space (objective_metric : string)
    (search_cfg : list (string * search_entry))
    (hparams_cfg : gmap string (pyval (R:=R))) : option search_setup :=
  search_steps hparams_cfg
    (SearchSetup [] [] []
       (<[objective_metric := []]> (<["Trial" := []]> ∅)))
    search_cfg.

(** The types the [if]/[elif] chain knows. *)
Definition known_type (type : string) : Prop :=
  type ∈ ["set"; "int_uniform"; "float_log"; "float_uniform"].

(** The entries that the loop takes up, and those among them for which
    it makes a dimension. *)
Definition ranged (item : string * search_entry) : Prop :=
  is_Some (RANGE item.2).

Definition searchable (item : string * search_entry) : Prop :=
  is_Some (RANGE item.2) /\ known_type (TYPE item.2).

#[global] Instance ranged_dec (item : string * search_entry)
    : Decision (ranged item) :=
  decide (is_Some (RANGE item.2)).

#[global] Instance searchable_dec (item : string * search_entry)
    : Decision (searchable item) :=
  decide (is_Some (RANGE item.2)
          /\ TYPE item.2 ∈ ["set"; "int_uniform"; "float_log";
                             "float_uniform"]).

(** [dict(zip(hparam_names, vals))]: a later pair replaces an earlier
    one with the same key. *)
Definition dict_of_zip (names : list string) (vals : list (pyval (R:=R)))
    : gmap string (pyval (R:=R)) :=
  foldl (fun m kv => <[kv.1 := kv.2]> m) ∅ (zip names vals).

(** The loop that adds the hyperparameters held constant. *)
Definition fill_constants (hparams hparams_cfg : gmap string (pyval (R:=R)))
    : gmap string (pyval (R:=R)) :=
  foldl (fun m kv => if decide (is_Some (m !! kv.1)) then m
                     else <[kv.1 := kv.2]> m)
        hparams (map_to_list hparams_cfg).

Definition objective_hparams (names : list string)
    (vals : list (pyval (R:=R))) (hparams_cfg : gmap string (pyval (R:=R)))
    : gmap string (pyval (R:=R)) :=
  fill_constants (dict_of_zip names vals) hparams_cfg.

(** [objective(vals)]: [train_single] is the training run, giving the
    test accuracy for a hyperparameter mapping; the result is the score
    and the file system after logging the trial. *)
Definition objective
    (reload_column : list (pyval (R:=R)) -> list (pyval (R:=R)))
    (train_single : gmap string (pyval (R:=R)) -> R)
    (experiments : string) (init_results : gmap string (list (pyval (R:=R))))
    (objective_metric : string) (names : list string)
    (hparams_cfg : gmap string (pyval (R:=R)))
    (model_name cur_datetime : string)
    (fs : gmap string (gmap string (list (pyval (R:=R)))))
    (vals : list (pyval (R:=R)))
    : option (R * gmap string (gmap string (list (pyval (R:=R))))) :=
  let hparams := objective_hparams names vals hparams_cfg in
  let accuracy := train_single hparams in
  let score := num_sub (num_of_Z 1) accuracy in
  r ← save_hparam_search_results reload_column experiments fs init_results
        score objective_metric names hparams model_name cur_datetime;
  Some (score, r.1).

(** The successive evaluations that [gp_minimize] makes of [objective],
    one per candidate point. *)
Fixpoint run_trials
    (reload_column : list (pyval (R:=R)) -> list (pyval (R:=R)))
    (train_single : gmap string (pyval (R:=R)) -> R)
    (experiments : string) (init_results : gmap string (list (pyval (R:=R))))
    (objective_metric : string) (names : list string)
    (hparams_cfg : gmap string (pyval (R:=R)))
    (model_name cur_datetime : string)
    (fs : gmap string (gmap string (list (pyval (R:=R)))))
    (points : list (list (pyval (R:=R))))
    : option (list R * gmap string (gmap string (list (pyval (R:=R))))) :=
  match points with
  | [] => Some ([], fs)
  | vals :: rest =>
      r ← objective reload_column train_single experiments init_results
            objective_metric names hparams_cfg model_name cur_datetime fs vals;
      rs ← run_trials reload_column train_single experiments init_results
             objective_metric names hparams_cfg model_name cur_datetime
             r.2 rest;
      Some (r.1 :: rs.1, rs.2)
  end.
End hparam_search.

(** *** train_model: the metrics dictionary; cross_validation: folds *)

Section evaluation.
Context {R : Type} `{Num R}.

(** [for metric, value in zip(model.metrics_names, test_results):
       test_metrics[metric] = value] *)
Definition test_metrics_dict (metrics_names : list string)
    (test_results : list R) : gmap string (cell (R:=R)) :=
  foldl (fun m kv => <[kv.1 := Scalar kv.2]> m) ∅
        (zip metrics_names test_results).
End evaluation.

(** The names under which a model compiled with the metric list of
    [train_model] reports its evaluation. *)
Definition train_model_metrics_names : list string :=
  ["loss"; "accuracy"; "auc"; "precision"; "recall"].

(** [all_pts[index]] with an integer index array. *)
Definition take_indices (all_pts : list string) (index : list nat)
    : option (list string) :=
  mapM (fun i => all_pts !! i) index.

Section folds.
Context {R : Type} `{Num R}.
Variable train_test_split :
  list string -> R -> Z -> option (list string * list string).

(** The partition made for one fold [(train_index, test_index)] of
    [pt_k_fold.split(all_pts)]; [state] stands for the state of the
    global random generator that the unseeded split draws from. *)
Definition fold_partition (frame_df : list frame) (n_folds : Z)
    (train_index test_index : list nat) (state : Z)
    : option (list frame * list frame * list frame) :=
  let all_pts := unique (Patient <$> frame_df) in
  let val_split := num_div (num_of_Z 1) (num_of_Z n_folds) in
  trainval_pts ← take_indices all_pts train_index;
  '(train_pts, val_pts) ← train_test_split trainval_pts val_split state;
  test_pts ← take_indices all_pts test_index;
  Some (filter (fun f => Patient f ∈ train_pts) frame_df,
        filter (fun f => Patient f ∈ val_pts) frame_df,
        filter (fun f => Patient f ∈ test_pts) frame_df).

(** The fold loop: one partition per fold of [pt_k_fold.split(all_pts)],
    each fold given with the generator state its split meets. *)
Definition fold_loop (frame_df : list frame) (n_folds : Z)
    (folds : list (list nat * list nat * Z))
    : option (list (list frame * list frame * list frame)) :=
  mapM (fun fold => fold_partition frame_df n_folds fold.1.1 fold.1.2 fold.2)
       folds.
End folds.

(** Per-fold evaluation results of three folds, with and without a
    per-class F1 entry (the metric list of [train_model] has none). *)
Definition sample_fold_metrics : list (gmap string (cell (R:=Q))) :=
  [ {[ "loss" := Scalar (3 # 10); "accuracy" := Scalar (8 # 10);
       "f1score" := Vector [7 # 10; 9 # 10] ]};
    {[ "loss" := Scalar (2 # 10); "accuracy" := Scalar (9 # 10);
       "f1score" := Vector [8 # 10; 9 # 10] ]};
    {[ "loss" := Scalar (4 # 10); "accuracy" := Scalar (7 # 10);
       "f1score" := Vector [6 # 10; 6 # 10] ]} ].

Definition sample_fold_metrics_no_f1 : list (gmap string (cell (R:=Q))) :=
  [ {[ "loss" := Scalar (3 # 10); "accuracy" := Scalar (8 # 10) ]};
    {[ "loss" := Scalar (2 # 10); "accuracy" := Scalar (9 # 10) ]};
    {[ "loss" := Scalar (4 # 10); "accuracy" := Scalar (7 # 10) ]} ].

(** The evaluation results of three folds in binary64, in the order of
    [train_model_metrics_names]: accuracies 0.8, 0.9 and 0.7. *)
Definition sample_fold_results : list (list float) :=
  [ [0.3; 0.8; 0.9; 0.7; 0.6]; [0.2; 0.9; 0.9; 0.8; 0.7];
    [0.4; 0.7; 0.8; 0.6; 0.5] ]%float.

(** A search configuration with three searched hyperparameters and one
    held constant, the defaults of the model, and a stand-in for a
    training run whose accuracy depends on the learning rate only. *)
Definition sample_search_cfg : list (string * search_entry (R:=Q)) :=
  [ ("LR", SearchEntry (Some [PyFloat (1 # 100000); PyFloat (1 # 1000)])
                       "float_log");
    ("DROPOUT", SearchEntry (Some [PyFloat 0%Q; PyFloat (1 # 2)])
                            "float_uniform");
    ("NODES", SearchEntry None "int_uniform");
    ("OPTIMIZER", SearchEntry (Some [PyStr "adam"; PyStr "sgd"]) "set") ].

Definition sample_hparams_cfg : gmap string (pyval (R:=Q)) :=
  {[ "LR" := PyFloat (1 # 1000); "DROPOUT" := PyFloat (1 # 4);
     "NODES" := PyInt 128; "OPTIMIZER" := PyStr "adam" ]}.

Definition sample_accuracy (hparams : gmap string (pyval (R:=Q))) : Q :=
  match hparams !! "LR" with
  | Some (PyFloat lr) => (1 - 100 * lr)%Q
  | _ => 0%Q
  end.

(** The five folds of five patients, without shuffling. *)
Definition sample_folds : list (list nat * list nat * Z) :=
  [ ([1; 2; 3; 4], [0], 0%Z); ([0; 2; 3; 4], [1], 0%Z);
    ([0; 1; 3; 4], [2], 0%Z); ([0; 1; 2; 4], [3], 0%Z);
    ([0; 1; 2; 3], [4], 0%Z) ].

End Train.

(** ** src/explainability/gradcam.py *)

Module GradCAM.
Section gradcam.
Context {R : Type} `{Num R}.

Definition EPSILON : R := num_eps.

(** A differentiable two-output model on one input: [model(img)] gives
    the scores and the activations of the last convolutional layer
    (batch x height x width x channel); [gradient] is what
    [tape.gradient(class_out, last_conv_layer)] returns for that input,
    [class_out] being [max(1 - p, p)] for the top score [p].  TensorFlow
    computes these in float32; the definitions are generic in the
    arithmetic. *)
Record Model (Img : Type) : Type := {
  call : Img -> list (list R) * list (list (list (list R)));
  gradient : Img -> list (list (list (list R)));
}.
Arguments call {Img}.
Arguments gradient {Img}.

(** [mean(t, axis=(0, 1, 2))]: one number per channel. *)
Definition mean_axes012 (t : list (list (list (list R)))) : list R :=
  let vecs := concat (concat t) in
  let channels := match vecs with [] => 0 | v :: _ => length v end in
  (fun c => Np.mean ((fun v => default (num_of_Z 0) (v !! c)) <$> vecs))
    <$> seq 0 channels.

(** [tf.reduce_mean(tf.multiply(pooled_grads, last_conv_layer), axis=-1)] *)
Definition pooled_heatmap (pooled_grads : list R)
    (last_conv_layer : list (list (list (list R))))
    : list (list (list R)) :=
  map (map (map (fun v => Np.mean (zip_with num_mul pooled_grads v))))
      last_conv_layer.

(** The value bound to the local name [heatmap] in
    [get_gradcam_heatmap]. *)
Definition gradcam_local_heatmap {Img : Type} (model : Model Img) (img : Img)
    : list (list (list R)) :=
  let '(model_out, last_conv_layer) := call model img in
  let grads := gradient model img in
  let pooled_grads := mean_axes012 grads in
  pooled_heatmap pooled_grads last_conv_layer.

(** [get_gradcam_heatmap]: the body ends in a bare [return], so the
    caller receives Python's [None] (here [None]); [Some h] would be a
    returned array. *)
Definition get_gradcam_heatmap {Img : Type} (model : Model Img) (img : Img)
    : option (list (list (list R))) :=
  let heatmap := gradcam_local_heatmap model img in
  None.

(** Lines 135-136 of [apply_gradcam]:
    [heatmap = np.maximum(raw_heatmap, 0.0)] *)
Definition relu (raw_heatmap : list (list (list R))) : list (list (list R)) :=
  map (map (map (fun x => num_maximum x (num_of_Z 0)))) raw_heatmap.

(** [np.max(heatmap) if np.max(heatmap) != 0 else EPSILON] *)
Definition divisor (heatmap : list (list (list R))) : option R :=
  m ← Np.max (Np.flatten heatmap);
  Some (if num_neqb m (num_of_Z 0) then m else EPSILON).

(** The heatmap after the in-place division ([None]: [np.max] raised
    on an empty array). *)
Definition relu_normalize (raw_heatmap : list (list (list R)))
    : option (list (list (list R))) :=
  let heatmap := relu raw_heatmap in
  d ← divisor heatmap;
  Some (map (map (map (fun x => num_div x d))) heatmap).

(** [heatmap.squeeze(axis=0)] *)
Definition squeeze0 (heatmap : list (list (list R)))
    : option (list (list R)) :=
  match heatmap with
  | [h] => Some h
  | _ => None
  end.

(** What [apply_gradcam] does with the result of the heatmap routine up
    to the resize: a [None] result makes [np.maximum] raise. *)
Definition postprocess (raw : option (list (list (list R))))
    : option (list (list R)) :=
  raw_heatmap ← raw;
  heatmap ← relu_normalize raw_heatmap;
  squeeze0 heatmap.
End gradcam.
Arguments call {R Img}.
Arguments gradient {R Img}.

(** *** get_gradcam_plusplus_heatmap *)

Section gradcam_plusplus.
Context {R : Type} `{Num R}.

(** The tensors that the arithmetic of the routine works on, for the
    one image of the batch that [apply_gradcam] feeds: the activations of
    the last convolutional layer and the first, second and third
    gradients of the class score with respect to them, each row x column
    x channel.  The batch axis is left out here and put back on the
    result. *)
Record Tapes : Type := {
  last_conv_layer : list (list (list R));
  first_grads : list (list (list R));
  second_grads : list (list (list R));
  third_grads : list (list (list R));
}.

(** The values of channel [c] at all positions, and the number of
    channels. *)
Definition channel (c : nat) (t : list (list (list R))) : list R :=
  (fun v => default (num_of_Z 0) (v !! c)) <$> concat t.

Definition channels (t : list (list (list R))) : nat :=
  match concat t with
  | [] => 0
  | v :: _ => length v
  end.

(** [tf.reduce_sum(t, axis=(0, 1, 2))] and [np.sum(t, axis=(1, 2))] on
    a batch of one: one number per channel. *)
Definition sum_positions (t : list (list (list R))) : list R :=
  (fun c => Np.sum (channel c t)) <$> seq 0 (channels t).

(** An operation on every element, on two tensors of one shape, and
    with one number per channel (broadcast over the positions). *)
Definition map3 (f : R -> R) (t : list (list (list R)))
    : list (list (list R)) :=
  map (map (map f)) t.

Definition zip3 (f : R -> R -> R) (a b : list (list (list R)))
    : list (list (list R)) :=
  zip_with (zip_with (zip_with f)) a b.

Definition broadcast (f : R -> R -> R) (t : list (list (list R)))
    (w : list R) : list (list (list R)) :=
  map (map (fun v => zip_with f v w)) t.

(** [alpha_denom] after [np.where(alpha_denom != 0.0, alpha_denom,
    EPSILON)]. *)
Definition alpha_denom (tapes : Tapes) : list (list (list R)) :=
  let last_conv_sum := sum_positions (last_conv_layer tapes) in
  let alpha_denom :=
    zip3 num_add
      (map3 (fun x => num_mul x (num_of_Z 2)) (second_grads tapes))
      (broadcast num_mul (third_grads tapes) last_conv_sum) in
  map3 (fun x => if num_neqb x (num_of_Z 0) then x else EPSILON) alpha_denom.

(** [alphas] before and after [alphas /= alpha_norm]. *)
Definition raw_alphas (tapes : Tapes) : list (list (list R)) :=
  let alpha_num := second_grads tapes in
  zip3 num_div alpha_num (alpha_denom tapes).

Definition alphas (tapes : Tapes) : list (list (list R)) :=
  let alphas := raw_alphas tapes in
  let alpha_norm := sum_positions alphas in
  broadcast num_div alphas alpha_norm.

Definition linearization_weights (tapes : Tapes) : list R :=
  let activated_first_grad :=
    map3 (fun x => num_maximum x (num_of_Z 0)) (first_grads tapes) in
  sum_positions (zip3 num_mul activated_first_grad (alphas tapes)).

(** [np.sum(linearization_weights * last_conv_layer, axis=-1)]: the
    returned [heatmap], of shape 1 x row x column. *)
Definition plusplus_heatmap (tapes : Tapes) : list (list (list R)) :=
  [ map (map (fun v =>
                Np.sum (zip_with num_mul (linearization_weights tapes) v)))
        (last_conv_layer tapes) ].

(** What the model and the three nested tapes hand back for an image:
    the activations, and for each tape what [tape.gradient] returns,
    which is Python's [None] when the differentiated value does not
    depend on the activations (the first gradient of a score that is
    linear in them is constant, so its gradient is [None]). *)
Record TapeResults : Type := {
  activations : list (list (list R));
  tape_1_gradient : option (list (list (list R)));
  tape_2_gradient : option (list (list (list R)));
  tape_3_gradient : option (list (list (list R)));
}.

(** Lines 79-87: a [None] gradient makes the next tape raise on its
    target, and a [None] third gradient makes the product with
    [last_conv_sum] raise. *)
Definition gradients (r : TapeResults) : option Tapes :=
  first ← tape_1_gradient r;
  second ← tape_2_gradient r;
  third ← tape_3_gradient r;
  Some {| last_conv_layer := activations r; first_grads := first;
          second_grads := second; third_grads := third |}.

(** [get_gradcam_plusplus_heatmap(model, img)], from what the tapes
    return for the model and the image: the heatmap, or [None] when the
    routine raises. *)
Definition get_gradcam_plusplus_heatmap (r : TapeResults)
    : option (list (list (list R))) :=
  tapes ← gradients r;
  Some (plusplus_heatmap tapes).
End gradcam_plusplus.

(** *** apply_gradcam *)

Section apply_gradcam.
Context {R : Type} `{Num R} {Img : Type} {Picture : Type}.

(** [get_gradcam_plusplus_heatmap]: the raw heatmap, or [None] when it
    raises. *)
Variable get_gradcam_plusplus_heatmap :
  Model (R:=R) Img -> Img -> option (list (list (list R))).

(** [cv2.resize] to the image size, followed by
    [cv2.applyColorMap(255 - np.uint8(255 * heatmap), cv2.COLORMAP_JET)].
    The reading of the original image, the overlay and the plot made by
    [visualize_heatmap] do not feed the returned value; they are taken
    to succeed. *)
Variable colour_map : list (list R) -> Picture.

(** [get_heatmap_gen_fn(mode)]: no branch returns for any other mode,
    so the attribute is Python's [None]. *)
Definition get_heatmap_gen_fn (mode : string)
    : option (Model (R:=R) Img -> Img -> option (list (list (list R)))) :=
  if decide (mode = "plusplus") then Some get_gradcam_plusplus_heatmap
  else if decide (mode = "normal") then Some get_gradcam_heatmap
  else None.

(** One iteration of the loop over the frames: the new value of the
    local name [heatmap]; calling [None] raises, as does a failure of
    the post-processing. *)
Definition gradcam_step (mode : string) (model : Model (R:=R) Img) (x : Img)
    : option Picture :=
  heatmap_gen_fn ← get_heatmap_gen_fn mode;
  heatmap ← postprocess (heatmap_gen_fn model x);
  Some (colour_map heatmap).

(** The loop: [Some None] while the name [heatmap] is unbound. *)
Fixpoint gradcam_loop (mode : string) (model : Model (R:=R) Img)
    (heatmap : option Picture) (frames : list Img)
    : option (option Picture) :=
  match frames with
  | [] => Some heatmap
  | x :: rest =>
      heatmap ← gradcam_step mode model x;
      gradcam_loop mode model (Some heatmap) rest
  end.

(** [apply_gradcam(frame_df)] on the preprocessed frames of the table:
    [return heatmap] raises when no frame bound the name. *)
Definition apply_gradcam (mode : string) (model : Model (R:=R) Img)
    (frames : list Img) : option Picture :=
  heatmap ← gradcam_loop mode model None frames;
  heatmap.
End apply_gradcam.

(** A one-pixel, two-channel model on a dummy input. *)
Definition sample_model : Model (R:=float) unit := {|
  call := fun _ => ([[0.25%float; 0.75%float]],
                    [[[[1%float; 2%float]]]]);
  gradient := fun _ => [[[[0.5%float; 0.25%float]]]];
|}.

(** Tapes of an activation map of one row, two columns and two
    channels. *)
Definition sample_tapes : Tapes (R:=Q) := {|
  last_conv_layer := [[[1; 2]; [3; 4]]]%Q;
  first_grads := [[[1; -1]; [2; 1]]]%Q;
  second_grads := [[[1; 1]; [3; 1]]]%Q;
  third_grads := [[[0; 1]; [1; 0]]]%Q;
|}.

(** What the tapes return for a score with these gradients, and for a
    score that is linear in the activations. *)
Definition sample_tape_results : TapeResults (R:=Q) := {|
  activations := [[[1; 2]; [3; 4]]]%Q;
  tape_1_gradient := Some [[[1; -1]; [2; 1]]]%Q;
  tape_2_gradient := Some [[[1; 1]; [3; 1]]]%Q;
  tape_3_gradient := Some [[[0; 1]; [1; 0]]]%Q;
|}.

Definition linear_score_results : TapeResults (R:=Q) := {|
  activations := [[[1; 2]; [3; 4]]]%Q;
  tape_1_gradient := Some [[[1; -1]; [2; 1]]]%Q;
  tape_2_gradient := None;
  tape_3_gradient := None;
|}.
End GradCAM.

(** ** src/data/preprocessor.py *)

Module Preprocessor.
Section augmentation.
Context {R : Type} `{Num R}.

(** State of the generator behind Keras' random layers. *)
Context {rng : Type}.

(** [tf.random.stateless_uniform(shape=[], seed, minval, maxval)] *)
Variable stateless_random_uniform : Z * Z -> R -> R -> R.

(** [tf.image.adjust_brightness] on a float batch
    (sample x row x column x channel). *)
Definition adjust_brightness (image : list (list (list (list R))))
    (delta : R) : list (list (list (list R))) :=
  map (map (map (map (fun v => num_add v delta)))) image.

(** [tf.image.stateless_random_brightness]; a negative bound raises. *)
Definition stateless_random_brightness (image : list (list (list (list R))))
    (max_delta : R) (seed : Z * Z)
    : option (list (list (list (list R)))) :=
  if num_ltb max_delta (num_of_Z 0) then None
  else Some (adjust_brightness image
               (stateless_random_uniform seed (num_opp max_delta) max_delta)).

(** [RandomBrightness.call], written like the stateful layers: it is
    handed the generator state and hands it back. *)
Definition RandomBrightness_call (factor : R) (g : rng)
    (image : list (list (list (list R))))
    : option (list (list (list (list R))) * rng) :=
  image' ← stateless_random_brightness image factor (123, 0)%Z;
  Some (image', g).

(** The Keras layers that follow it in the [Sequential]. *)
Variable RandomContrast RandomFlip RandomRotation RandomZoom :
  rng -> list (list (list (list R))) -> list (list (list (list R))) * rng.

(** [self.data_augmentation(x, training=True)] *)
Definition data_augmentation (brightness_range : R) (g : rng)
    (x : list (list (list (list R))))
    : option (list (list (list (list R))) * rng) :=
  '(x, g) ← RandomBrightness_call brightness_range g x;
  let '(x, g) := RandomContrast g x in
  let '(x, g) := RandomFlip g x in
  let '(x, g) := RandomRotation g x in
  let '(x, g) := RandomZoom g x in
  Some (x, g).

(** The mapped function applied to the batches of the data set, in
    order. *)
Fixpoint map_batches (brightness_range : R) (g : rng)
    (ds : list (list (list (list (list R))) * list Z))
    : option (list (list (list (list (list R))) * list Z) * rng) :=
  match ds with
  | [] => Some ([], g)
  | (x, y) :: rest =>
      '(x', g) ← data_augmentation brightness_range g x;
      '(rest', g) ← map_batches brightness_range g rest;
      Some ((x', y) :: rest', g)
  end.

(** Tracing [lambda x, y: (self.data_augmentation(x, training=True), y)]:
    [ds.map] runs the layers once on a symbolic batch when the pipeline
    is built, and the brightness layer refuses a negative bound there,
    whatever the data set holds. *)
Definition trace_augmentation (brightness_range : R) : option unit :=
  if num_ltb brightness_range (num_of_Z 0) then None else Some tt.

(** [ds.map(lambda x, y: (self.data_augmentation(x, training=True), y))]:
    the function is traced, then applied to every batch. *)
Definition map_augment (brightness_range : R) (g : rng)
    (ds : list (list (list (list (list R))) * list Z))
    : option (list (list (list (list (list R))) * list Z) * rng) :=
  _ ← trace_augmentation brightness_range;
  map_batches brightness_range g ds.

(** The augmentation stage of [prepare]. *)
Definition augment_stage (augment : bool) (brightness_range : R) (g : rng)
    (ds : list (list (list (list (list R))) * list Z))
    : option (list (list (list (list (list R))) * list Z) * rng) :=
  if augment then map_augment brightness_range g ds else Some (ds, g).
End augmentation.

(** [x] is a batch of [n] images of [h] rows, [w] columns and [c]
    channels. *)
Definition has_shape {R : Type} (n h w c : nat)
    (x : list (list (list (list R)))) : Prop :=
  length x = n
  /\ Forall (fun img =>
        length img = h
        /\ Forall (fun r => length r = w /\ Forall (fun px => length px = c) r)
                  img) x.

(** Stand-ins for the four Keras layers over a counter as generator
    state: a contrast stretch, a horizontal flip on odd draws, and two
    layers that only advance the generator. *)
Definition contrast_layer (g : nat) (x : list (list (list (list Q))))
    : list (list (list (list Q))) * nat :=
  (map (map (map (map (fun v => v * (3 # 2))%Q))) x, S g).

Definition flip_layer (g : nat) (x : list (list (list (list Q))))
    : list (list (list (list Q))) * nat :=
  (if Nat.odd g then map (map (@reverse (list Q))) x else x, S g).

Definition still_layer (g : nat) (x : list (list (list (list Q))))
    : list (list (list (list Q))) * nat :=
  (x, S g).

(** Two batches: two images, then one, of one row, two columns and one
    channel each. *)
Definition sample_batches : list (list (list (list (list Q))) * list Z) :=
  [ ([ [[[10]; [20]]]; [[[30]; [40]]] ]%Q, [0; 1]%Z);
    ([ [[[50]; [60]]] ]%Q, [1]%Z) ].

(** A uniform draw determined by the seed pair alone. *)
Definition seeded_uniform (seed : Z * Z) (minval maxval : Q) : Q :=
  (minval + (maxval - minval) * (inject_Z ((seed.1 + seed.2) mod 7) / 7))%Q.

(** *** prepare *)

Section prepare.
Context {R : Type} `{Num R} {rng : Type}.
Variable stateless_random_uniform : Z * Z -> R -> R -> R.
Variable RandomContrast RandomFlip RandomRotation RandomZoom :
  rng -> list (list (list (list R))) -> list (list (list (list R))) * rng.

(** [ds.shuffle(len(ds))], drawing from the generator. *)
Variable shuffle_dataset :
  rng -> list (string * Z) -> list (string * Z) * rng.

(** [tf.io.read_file], [tf.image.decode_jpeg], the cast and the resize
    of [_parse_fn]: the image (row x column x channel), or [None] when
    the file cannot be read or decoded. *)
Variable load_image : string -> option (list (list (list R))).

Definition _parse_fn (filename : string) (label : Z)
    : option (list (list (list R)) * Z) :=
  image ← load_image filename;
  Some (image, label).

(** [ds.batch(batch_size)]: elements are gathered in order until
    [batch_size] of them are held; what is left at the end makes a last,
    smaller batch. *)
Fixpoint batch_from {A : Type} (batch_size : nat) (cur : list A)
    (ds : list A) : list (list A) :=
  match ds with
  | [] => match cur with [] => [] | _ => [cur] end
  | x :: rest =>
      let cur := cur ++ [x] in
      if decide (length cur = batch_size)
      then cur :: batch_from batch_size [] rest
      else batch_from batch_size cur rest
  end.

(** A batch size of zero is refused. *)
Definition batch (batch_size : nat) (ds : list (list (list (list R)) * Z))
    : option (list (list (list (list (list R))) * list Z)) :=
  if decide (batch_size = 0) then None
  else Some ((fun b => (b.*1, b.*2)) <$> batch_from batch_size [] ds).

(** [x / 255.] on one image. *)
Definition scale_image (image : list (list (list R)))
    : list (list (list R)) :=
  map (map (map (fun v => num_div v (num_of_Z 255)))) image.

(** The last map of [prepare]: [x / 255.] without an input scaler,
    else the scaler. *)
Definition scale
    (input_scaler : option (list (list (list (list R)))
                            -> list (list (list (list R)))))
    (x : list (list (list (list R)))) : list (list (list (list R))) :=
  match input_scaler with
  | None => scale_image <$> x
  | Some scale_fn => scale_fn x
  end.

(** Iterating the prepared data set once, from the generator state
    [g]: the batches in order and the state left behind, or [None] when
    an element raises (an image that cannot be loaded).  Prefetching
    changes no element. *)
Definition iterate (batch_size : nat)
    (input_scaler : option (list (list (list (list R)))
                            -> list (list (list (list R)))))
    (brightness_range : R) (shuffle augment : bool) (g : rng)
    (ds : list (string * Z))
    : option (list (list (list (list (list R))) * list Z) * rng) :=
  let shuffled := if shuffle then shuffle_dataset g ds else (ds, g) in
  ds ← mapM (fun item => _parse_fn item.1 item.2) shuffled.1;
  ds ← batch batch_size ds;
  '(ds, g) ← augment_stage stateless_random_uniform RandomContrast
               RandomFlip RandomRotation RandomZoom augment
               brightness_range shuffled.2 ds;
  Some (fmap (M:=list)
          (fun b : list (list (list (list R))) * list Z =>
             (scale input_scaler b.1, b.2)) ds, g).

(** [prepare(ds, shuffle, augment)] on the data set of (file name,
    label) pairs.  Building the pipeline reads no file; it raises when a
    stage refuses its argument: [ds.shuffle(len(ds))] a buffer of size
    zero, [ds.batch] a batch size of zero, and the traced augmentation a
    negative brightness bound.  The result is the data set, given by
    what iterating it yields. *)
Definition prepare (batch_size : nat)
    (input_scaler : option (list (list (list (list R)))
                            -> list (list (list (list R)))))
    (brightness_range : R) (shuffle augment : bool)
    (ds : list (string * Z))
    : option (rng ->
              option (list (list (list (list (list R))) * list Z) * rng)) :=
  if shuffle && bool_decide (ds = []) then None
  else if decide (batch_size = 0) then None
  else
    _ ← (if augment then trace_augmentation brightness_range else Some tt);
    Some (fun g => iterate batch_size input_scaler brightness_range
                     shuffle augment g ds).
End prepare.

(** Stand-ins for the shuffle (a reversal) and for the image files
    (three one-pixel images). *)
Definition reverse_shuffle (g : nat) (ds : list (string * Z))
    : list (string * Z) * nat :=
  (reverse ds, S g).

Definition sample_files : string -> option (list (list (list Q))) :=
  fun filename =>
    if decide (filename = "a.jpg") then Some [[[51; 102; 255]]]%Q
    else if decide (filename = "b.jpg") then Some [[[0; 0; 0]]]%Q
    else if decide (filename = "c.jpg") then Some [[[255; 255; 255]]]%Q
    else None.

End Preprocessor.

(** ** src/visualization/visualization.py *)

Module Visualization.

(** [np.round] on the value of a finite score: nearest integer, ties to
    the even one. *)
Definition np_round (q : Q) : Z :=
  let f := Qfloor q in
  match Qcompare (q - inject_Z f) (1 # 2) with
  | Lt => f
  | Gt => (f + 1)%Z
  | Eq => if Z.even f then f else (f + 1)%Z
  end.


(** sklearn's [confusion_matrix(y_true, y_pred)]: rows and columns follow
    the sorted distinct labels that occur; entry (i, j) counts the samples
    of true label i predicted as j. *)
Definition unique_labels (y_true y_pred : list Z) : list Z :=
  merge_sort Z.le (remove_dups (y_true ++ y_pred)).

Definition count_pairs (i j : Z) (pairs : list (Z * Z)) : nat :=
  length (filter (fun p => p = (i, j)) pairs).

Definition confusion_matrix (y_true y_pred : list Z)
    : option (list (list nat)) :=
  if decide (length y_true = length y_pred) then
    let labels := unique_labels y_true y_pred in
    Some ((fun i => (fun j => count_pairs i j (zip y_true y_pred)) <$> labels)
            <$> labels)
  else None.

(** The matrix drawn by [plot_confusion_matrix]. *)
Definition plot_confusion_matrix (labels : list Z) (predictions : list Q)
    : option (list (list nat)) :=
  let predictions := np_round <$> predictions in
  confusion_matrix labels predictions.

(** Python list indexing with an integer (negative indices count from the
    end; out of range raises). *)
Definition py_index {A : Type} (l : list A) (i : Z) : option A :=
  if (i <? 0)%Z then
    if (0 <=? Z.of_nat (length l) + i)%Z
    then l !! Z.to_nat (Z.of_nat (length l) + i)
    else None
  else l !! Z.to_nat i.

(** The "Predicted Class" annotation written by [visualize_heatmap]. *)
Definition predicted_class_text (prob : Q) (class_names : list string)
    : option string :=
  let pred_class := np_round prob in
  name ← py_index class_names pred_class;
  Some ("Predicted Class: " +:+ pretty pred_class +:+ " (" +:+ name +:+ ")").

(** *** plot_clip_pred_threshold_experiment_old: the y-axis limits *)

(** [Series.min()] and [Series.max()]: an empty column gives NaN (here
    [None]), with which every comparison is false. *)
Definition series_min (col : list Q) : option Q :=
  match col with
  | [] => None
  | x :: rest => Some (foldl (fun a b => if Qle_bool a b then a else b) x rest)
  end.

Definition series_max (col : list Q) : option Q :=
  match col with
  | [] => None
  | x :: rest => Some (foldl (fun a b => if Qle_bool a b then b else a) x rest)
  end.

(** [a < b] on numbers. *)
Definition Qlt_bool (a b : Q) : bool := negb (Qle_bool b a).

(** One iteration of [for x in metrics_to_plot]; a column that the
    table does not have raises. *)
Definition y_limit_step (metrics_df : gmap string (list Q))
    (lims : Q * Q) (x : string) : option (Q * Q) :=
  col ← metrics_df !! x;
  let '(min_y_lim, max_y_lim) := lims in
  let min_y_lim :=
    match series_min col with
    | Some min => if Qlt_bool min min_y_lim then min else min_y_lim
    | None => min_y_lim
    end in
  let max_y_lim :=
    match series_max col with
    | Some max => if Qlt_bool max max_y_lim then max else max_y_lim
    | None => max_y_lim
    end in
  Some (min_y_lim, max_y_lim).

(** The pair [(min_y_lim, max_y_lim)] after the loop; [metrics_to_plot]
    is [None] by default, and iterating over [None] raises. *)
Definition y_limits (metrics_df : gmap string (list Q))
    (metrics_to_plot : option (list string)) : option (Q * Q) :=
  names ← metrics_to_plot;
  foldl (fun acc x => lims ← acc; y_limit_step metrics_df lims x)
        (Some (1, 0)%Q) names.

(** The arguments of [ax.set_ylim]. *)
Definition set_ylim (lims : Q * Q) : Q * Q :=
  (lims.1 - (2 # 100), lims.2 + (2 # 100))%Q.

End Visualization.

(** * Properties *)

(** ** Class weights *)

Section class_weight_facts.
Context {R : Type} `{Num R}.

Lemma get_class_weights_lookup (histogram : list Z) (i : nat) :
  Train.get_class_weights (R:=R) histogram !! i =
  (fun c => Train.class_weight_formula (Z.of_nat (length histogram))
              (Train.py_sum histogram) c) <$> histogram !! i.
Proof.
  unfold Train.get_class_weights, Train.weights.
  rewrite lookup_map_seq_0. apply list_lookup_fmap.
Qed.
End class_weight_facts.

Lemma int64_wrap_in_range (z : Z) :
  (- 2 ^ 63 <= z < 2 ^ 63)%Z -> Train.int64_wrap z = z.
Proof.
  intros Hz. unfold Train.int64_wrap.
  rewrite Z.mod_small by lia. lia.
Qed.

(** While the running total stays below 2^63 the [int64] additions are
    exact, and [sum(histogram)] is the total count. *)
Lemma py_sum_no_overflow (l : list Z) :
  Forall (fun k => (0 <= k)%Z) l ->
  (foldr Z.add 0 l < 2 ^ 63)%Z ->
  Train.py_sum l = foldr Z.add 0%Z l.
Proof.
  intros Hpos Hsum. unfold Train.py_sum.
  assert (Hgen : forall acc,
            (0 <= acc)%Z -> (acc + foldr Z.add 0 l < 2 ^ 63)%Z ->
            foldl (fun a k => Train.int64_wrap (a + k)) acc l
            = (acc + foldr Z.add 0 l)%Z).
  { clear Hsum. induction Hpos as [|k l Hk Hl IH]; intros acc Hacc Hb.
    - simpl. lia.
    - cbn [foldl foldr] in *.
      assert (0 <= foldr Z.add 0 l)%Z.
      { clear -Hl. induction Hl; simpl; lia. }
      rewrite int64_wrap_in_range by lia.
      rewrite IH by lia. lia. }
  rewrite Hgen by lia. lia.
Qed.

Lemma foldr_add_replicate (n : nat) (c : Z) :
  foldr Z.add 0%Z (replicate n c) = (Z.of_nat n * c)%Z.
Proof. induction n as [|n IH]; simpl; [lia|]. rewrite IH. lia. Qed.

Lemma uniform_weight_exact (n : nat) (c : Z) :
  (0 < n)%nat -> c <> 0%Z ->
  (Train.class_weight_formula (R:=Q) (Z.of_nat n) (Z.of_nat n * c) c == 1)%Q.
Proof.
  intros Hn Hc. unfold Train.class_weight_formula. simpl.
  rewrite inject_Z_mult.
  assert (~ inject_Z (Z.of_nat n) == 0)%Q.
  { change 0%Q with (inject_Z 0). rewrite inject_Z_injective. lia. }
  assert (~ inject_Z c == 0)%Q.
  { change 0%Q with (inject_Z 0). rewrite inject_Z_injective. lia. }
  field. split; assumption.
Qed.

(** C2, as stated, fails in binary64: for the uniform histogram of 49
    classes with one example each, [(1.0 / 49) * 49 / 1] evaluates to
    0.9999999999999999, so the weight of class 0 is not 1.0. *)
Lemma class_weights_uniform_49_not_one :
  Train.get_class_weights (R:=float) (replicate 49 1%Z) !! 0%nat
    = Some 0x1.fffffffffffffp-1%float
  /\ 0x1.fffffffffffffp-1%float <> 1%float.
Proof.
  split; [vm_compute; reflexivity|].
  intros E. apply (f_equal (fun x => PrimFloat.eqb x 1)) in E.
  vm_compute in E. discriminate E.
Qed.

(** A total beyond the [int64] range wraps around before it is
    promoted: two classes of 2^62 examples get the weight -1.0. *)
Lemma class_weights_total_wraps :
  Train.py_sum [2 ^ 62; 2 ^ 62]%Z = (- 2 ^ 63)%Z
  /\ Train.get_class_weights (R:=float) [2 ^ 62; 2 ^ 62]%Z
     = {[ 0%nat := (-1)%float; 1%nat := (-1)%float ]}.
Proof. split; vm_compute; reflexivity. Qed.

(** C2 (amended): for every histogram of [np.bincount] counts (positive
    [int64] values) whose total stays below 2^63, [sum(histogram)] is the
    total count and [get_class_weights] maps each class index i to
    [(1/num_classes) * total_count / histogram[i]], evaluated operation by
    operation in the arithmetic of the numbers, the counts promoted to
    the nearest double (and has no other key); in binary64 the histogram
    [80, 20] gives {0: 0.625, 1: 2.5} and [50, 50] gives 1.0 for both
    classes, as does every uniform two-class histogram with a count from
    1 to 4096; for every uniform histogram of [n > 0] classes with count
    [c > 0] and [n * c < 2^63] each weight equals 1 in exact
    arithmetic. *)
Theorem class_weights_formula (histogram : list Z) (n : nat) (c : Z) :
  Forall (fun k => (0 < k < 2 ^ 63)%Z) histogram ->
  (foldr Z.add 0 histogram < 2 ^ 63)%Z ->
  (0 < n)%nat -> (0 < c)%Z -> (Z.of_nat n * c < 2 ^ 63)%Z ->
  Train.py_sum histogram = foldr Z.add 0%Z histogram
  /\ (forall (R : Type) (HR : Num R) (i : nat) (k : Z),
      histogram !! i = Some k ->
      Train.get_class_weights (R:=R) histogram !! i =
      Some (num_div (num_mul (num_div (num_of_Z 1)
                                      (num_of_Z (Z.of_nat (length histogram))))
                             (num_of_Z (foldr Z.add 0%Z histogram)))
                    (num_of_Z k)))
  /\ (forall (R : Type) (HR : Num R) (i : nat),
      (length histogram <= i)%nat ->
      Train.get_class_weights (R:=R) histogram !! i = None)
  /\ Train.get_class_weights (R:=float) [80; 20]%Z
     = {[ 0%nat := 0.625%float; 1%nat := 2.5%float ]}
  /\ Train.get_class_weights (R:=float) [50; 50]%Z
     = {[ 0%nat := 1%float; 1%nat := 1%float ]}
  /\ forallb (fun count =>
                forallb (fun w => PrimFloat.eqb w 1)
                        (Train.weights (R:=float) [count; count]))
             (Z.of_nat <$> seq 1 4096) = true
  /\ (forall (i : nat) (w : Q),
      Train.get_class_weights (R:=Q) (replicate n c) !! i = Some w ->
      (w == 1)%Q).
Proof.
  intros Hcounts Htotal Hn Hc Hnc.
  assert (Hsum : Train.py_sum histogram = foldr Z.add 0%Z histogram).
  { apply py_sum_no_overflow; [|exact Htotal].
    eapply Forall_impl; [exact Hcounts|]. simpl. lia. }
  split; [exact Hsum|].
  split; [|split; [|split; [|split; [|split]]]].
  - intros R HR i k Hi.
    rewrite get_class_weights_lookup, Hi, Hsum. reflexivity.
  - intros R HR i Hi. rewrite get_class_weights_lookup.
    rewrite (lookup_ge_None_2 histogram i Hi). reflexivity.
  - vm_compute. reflexivity.
  - vm_compute. reflexivity.
  - vm_compute. reflexivity.
  - intros i w. rewrite get_class_weights_lookup.
    rewrite length_replicate, py_sum_no_overflow.
    + rewrite foldr_add_replicate.
      destruct (replicate n c !! i) as [k|] eqn:Hk; simpl; [|discriminate].
      apply lookup_replicate in Hk as [-> _].
      intros [= <-]. apply uniform_weight_exact; lia.
    + apply Forall_replicate. lia.
    + by rewrite foldr_add_replicate.
Qed.

Lemma class_weights_formula_witness :
  Forall (fun k => (0 < k < 2 ^ 63)%Z) [80; 20]%Z
  /\ (foldr Z.add 0 [80; 20] < 2 ^ 63)%Z
  /\ Train.py_sum [80; 20]%Z = 100%Z
  /\ (forall (i : nat) (w : Q),
        Train.get_class_weights (R:=Q) (replicate 3 7%Z) !! i = Some w ->
        (w == 1)%Q).
Proof.
  assert (Hcounts : Forall (fun k => (0 < k < 2 ^ 63)%Z) [80; 20]%Z).
  { repeat constructor; lia. }
  assert (Htotal : (foldr Z.add 0 [80; 20] < 2 ^ 63)%Z) by (simpl; lia).
  assert (Hn : (0 < 3)%nat) by lia.
  assert (Hc : (0 < 7)%Z) by lia.
  assert (Hnc : (Z.of_nat 3 * 7 < 2 ^ 63)%Z) by lia.
  split; [exact Hcounts|]. split; [exact Htotal|].
  destruct (class_weights_formula [80; 20]%Z 3 7%Z Hcounts Htotal Hn Hc Hnc)
    as (Hsum & _ & _ & _ & _ & _ & Huniform).
  split; [exact Hsum|exact Huniform].
Defined.

(** ** Patient-level partition *)

Lemma unique_NoDup {A : Type} `{EqDecision A} (l : list A) :
  NoDup (Train.unique l).
Proof.
  unfold Train.unique. rewrite reverse_Permutation. apply NoDup_remove_dups.
Qed.

Lemma elem_of_unique {A : Type} `{EqDecision A} (l : list A) (x : A) :
  x ∈ Train.unique l <-> x ∈ l.
Proof.
  unfold Train.unique.
  by rewrite elem_of_reverse, elem_of_remove_dups, elem_of_reverse.
Qed.

Lemma select_frames_rows (pts : list string) (frame_df : list Train.frame) :
  Train.row <$> Train.select_frames pts frame_df
  = filter (fun f => Train.Patient f ∈ pts) frame_df.
Proof.
  unfold Train.select_frames. rewrite <- list_fmap_compose.
  apply list_fmap_id.
Qed.

Lemma elem_of_patients_select pts frame_df p :
  p ∈ Train.patients (Train.select_frames pts frame_df) -> p ∈ pts.
Proof.
  unfold Train.patients.
  rewrite (list_fmap_compose Train.row Train.Patient), select_frames_rows.
  intros (f & -> & Hf)%list_elem_of_fmap.
  by apply list_elem_of_filter in Hf as [? _].
Qed.

(** Three selections that between them take every element exactly once. *)
Lemma filter_three_way {A : Type} (P1 P2 P3 : A -> Prop)
    `{forall x, Decision (P1 x)} `{forall x, Decision (P2 x)}
    `{forall x, Decision (P3 x)} (l : list A) :
  (forall x, x ∈ l ->
     (P1 x /\ ~ P2 x /\ ~ P3 x) \/ (~ P1 x /\ P2 x /\ ~ P3 x)
     \/ (~ P1 x /\ ~ P2 x /\ P3 x)) ->
  filter P1 l ++ filter P2 l ++ filter P3 l ≡ₚ l.
Proof.
  induction l as [|x l IH]; intros Hone; [done|].
  assert (Hl : filter P1 l ++ filter P2 l ++ filter P3 l ≡ₚ l).
  { apply IH. intros y Hy. apply Hone. by right. }
  rewrite !filter_cons.
  destruct (Hone x) as [(a & b & c)|[(a & b & c)|(a & b & c)]]; [by left|..];
    repeat case_decide; try tauto; simpl.
  - by rewrite Hl.
  - rewrite <- Permutation_middle. by rewrite Hl.
  - rewrite app_assoc, <- Permutation_middle, <- app_assoc. by rewrite Hl.
Qed.

Lemma ordered_split_covers pts size seed a b :
  Train.ordered_split pts size seed = Some (a, b) -> a ++ b ≡ₚ pts.
Proof.
  unfold Train.ordered_split. case_bool_decide; [|done].
  intros [= <- <-]. rewrite (comm (++)). by rewrite take_drop.
Qed.

Section partition_facts.
Context {R : Type} `{Num R}.
Variable train_test_split :
  list string -> R -> Z -> option (list string * list string).

(** sklearn's contract: the two parts together hold every sample of
    the input exactly once. *)
Hypothesis split_covers : forall pts size seed a b,
  train_test_split pts size seed = Some (a, b) -> a ++ b ≡ₚ pts.

Lemma partition_patients_calls all_pts seed val_split test_split
    train_pts val_pts test_pts :
  Train.partition_patients train_test_split all_pts seed val_split test_split
    = Some (train_pts, val_pts, test_pts)
  <-> num_neqb (num_sub (num_of_Z 1) test_split) (num_of_Z 0) = true
      /\ exists trainval_pts,
        train_test_split all_pts test_split seed
          = Some (trainval_pts, test_pts)
        /\ train_test_split trainval_pts
             (num_div val_split (num_sub (num_of_Z 1) test_split)) seed
           = Some (train_pts, val_pts).
Proof.
  unfold Train.partition_patients, Train.relative_val_split.
  destruct (num_neqb _ _).
  2: { split; [intros ?|intros [? _]]; congruence. }
  split.
  - intros Hp. split; [done|].
    destruct (train_test_split all_pts test_split seed)
      as [[tv te]|] eqn:E1; simpl in Hp; [|done].
    destruct (train_test_split tv _ seed) as [[tr va]|] eqn:E2;
      simpl in Hp; [|done].
    inversion Hp; subst. by exists tv.
  - intros [_ (tv & -> & Hs)]. simpl. by rewrite Hs.
Qed.

Lemma partition_patients_perm all_pts seed val_split test_split
    train_pts val_pts test_pts :
  Train.partition_patients train_test_split all_pts seed val_split test_split
    = Some (train_pts, val_pts, test_pts) ->
  train_pts ++ val_pts ++ test_pts ≡ₚ all_pts.
Proof using split_covers.
  intros [_ (tv & H1 & H2)]%partition_patients_calls.
  apply split_covers in H1, H2.
  rewrite app_assoc, H2. done.
Qed.

(** C1: whenever [partition_dataset] produces a train/validation/test
    partition, no patient identifier occurs in two of the three
    partitions, the three frame-level partitions together are a
    rearrangement of the frame table, and every row of the frame table
    lies in exactly one of them. *)
Theorem partition_dataset_no_leakage frame_df seed val_split test_split
    train_df val_df test_df :
  Train.partition_dataset train_test_split frame_df seed val_split test_split
    = Some (train_df, val_df, test_df) ->
  (forall p, p ∈ Train.patients train_df ->
             (p ∉ Train.patients val_df) /\ (p ∉ Train.patients test_df))
  /\ (forall p, p ∈ Train.patients val_df -> p ∉ Train.patients test_df)
  /\ (Train.row <$> train_df) ++ (Train.row <$> val_df)
        ++ (Train.row <$> test_df) ≡ₚ frame_df
  /\ (forall f, f ∈ frame_df ->
        (f ∈ (Train.row <$> train_df) /\ (f ∉ (Train.row <$> val_df))
           /\ (f ∉ (Train.row <$> test_df)))
        \/ ((f ∉ (Train.row <$> train_df)) /\ f ∈ (Train.row <$> val_df)
              /\ (f ∉ (Train.row <$> test_df)))
        \/ ((f ∉ (Train.row <$> train_df)) /\ (f ∉ (Train.row <$> val_df))
              /\ f ∈ (Train.row <$> test_df))).
Proof using split_covers.
  unfold Train.partition_dataset. intros Hp.
  destruct (Train.partition_patients _ _ _ _ _) as [[[tr va] te]|] eqn:Hpts;
    simpl in Hp; [|done].
  injection Hp as <- <- <-.
  pose proof (partition_patients_perm _ _ _ _ _ _ _ Hpts) as Hperm.
  assert (Hnd : NoDup (tr ++ va ++ te)).
  { rewrite Hperm. apply unique_NoDup. }
  apply NoDup_app in Hnd as (_ & Htr & Hnd).
  apply NoDup_app in Hnd as (_ & Hva & _).
  assert (Hone : forall f, f ∈ frame_df ->
    (Train.Patient f ∈ tr /\ (Train.Patient f ∉ va)
       /\ (Train.Patient f ∉ te))
    \/ ((Train.Patient f ∉ tr) /\ Train.Patient f ∈ va
          /\ (Train.Patient f ∉ te))
    \/ ((Train.Patient f ∉ tr) /\ (Train.Patient f ∉ va)
          /\ Train.Patient f ∈ te)).
  { intros f Hf.
    assert (Hin : Train.Patient f ∈ tr ++ va ++ te).
    { rewrite Hperm. apply elem_of_unique. by apply list_elem_of_fmap_2. }
    apply elem_of_app in Hin as [Hin|Hin].
    - left. specialize (Htr _ Hin). rewrite elem_of_app in Htr. tauto.
    - apply elem_of_app in Hin as [Hin|Hin].
      + right; left. split; [|split; [done|by apply Hva]].
        intros Hc. apply (Htr _ Hc). apply elem_of_app. by left.
      + right; right. split; [|split; [|done]].
        * intros Hc. apply (Htr _ Hc). apply elem_of_app. by right.
        * intros Hc. by apply (Hva _ Hc). }
  split; [|split; [|split]].
  - intros p Hp1%elem_of_patients_select.
    split; intros Hp2%elem_of_patients_select.
    + apply (Htr _ Hp1). apply elem_of_app. by left.
    + apply (Htr _ Hp1). apply elem_of_app. by right.
  - intros p Hp1%elem_of_patients_select Hp2%elem_of_patients_select.
    by apply (Hva _ Hp1).
  - rewrite !select_frames_rows. by apply filter_three_way.
  - intros f Hf. rewrite !select_frames_rows, !list_elem_of_filter.
    specialize (Hone f Hf). tauto.
Qed.
End partition_facts.

Lemma partition_dataset_no_leakage_witness :
  let train_df := Train.select_frames ["p3"; "p4"; "p5"] Train.sample_frames in
  let val_df := Train.select_frames ["p2"] Train.sample_frames in
  let test_df := Train.select_frames ["p1"] Train.sample_frames in
  (forall pts size seed a b,
     Train.ordered_split pts size seed = Some (a, b) -> a ++ b ≡ₚ pts)
  /\ Train.partition_dataset Train.ordered_split Train.sample_frames 0
       (1 # 5) (1 # 5)
     = Some (train_df, val_df, test_df)
  /\ (forall p, p ∈ Train.patients train_df ->
                (p ∉ Train.patients val_df) /\ (p ∉ Train.patients test_df))
  /\ (forall p, p ∈ Train.patients val_df -> p ∉ Train.patients test_df)
  /\ (Train.row <$> train_df) ++ (Train.row <$> val_df)
        ++ (Train.row <$> test_df) ≡ₚ Train.sample_frames.
Proof.
  intros train_df val_df test_df.
  assert (Hrun : Train.partition_dataset Train.ordered_split
                   Train.sample_frames 0 (1 # 5) (1 # 5)
                 = Some (train_df, val_df, test_df)).
  { vm_compute. reflexivity. }
  split; [exact ordered_split_covers|]. split; [exact Hrun|].
  destruct (partition_dataset_no_leakage Train.ordered_split
              ordered_split_covers _ _ _ _ _ _ _ Hrun)
    as (H1 & H2 & H3 & _).
  split; [exact H1|]. split; [exact H2|exact H3].
Defined.

(** ** Relative validation split *)

Lemma relative_val_split_exact (val_split test_split : Q) :
  ~ (test_split == 1)%Q ->
  (Train.relative_val_split val_split test_split * (1 - test_split)
   == val_split)%Q.
Proof.
  intros Hne. unfold Train.relative_val_split. simpl.
  change (inject_Z 1) with 1%Q. field. intros E. apply Hne. lra.
Qed.

Lemma ordered_split_sizes pts size seed a b :
  Train.ordered_split pts size seed = Some (a, b) ->
  length b = Z.to_nat (Qceiling (size * inject_Z (Z.of_nat (length pts))))
  /\ length a + length b = length pts.
Proof.
  unfold Train.ordered_split. case_bool_decide as Hn; [|done].
  intros [= <- <-]. rewrite length_take, length_drop. lia.
Qed.

Lemma float_ordered_split_sizes pts size seed a b :
  Train.float_ordered_split pts size seed = Some (a, b) ->
  exists q,
    float_value (PrimFloat.mul size (float_of_Z (Z.of_nat (length pts))))
    = Some q
    /\ length b = Z.to_nat (Qceiling q)
    /\ length a + length b = length pts.
Proof.
  unfold Train.float_ordered_split.
  destruct (float_value _) as [q|]; simpl; [|done].
  case_bool_decide as Hn; [|done].
  intros [= <- <-]. exists q. split; [done|].
  rewrite length_take, length_drop. lia.
Qed.

(** The sizes of the three parts when the splitter computes its sizes in
    binary64, as sklearn does. *)
Lemma partition_patients_float_sizes
    (split64 : list string -> float -> Z
               -> option (list string * list string))
    (pts : list string) (seed : Z) (v t : float)
    (tr va te : list string) :
  (forall pts size seed a b,
      split64 pts size seed = Some (a, b) ->
      exists q,
        float_value (PrimFloat.mul size (float_of_Z (Z.of_nat (length pts))))
        = Some q
        /\ length b = Z.to_nat (Qceiling q)
        /\ length a + length b = length pts) ->
  Train.partition_patients split64 pts seed v t = Some (tr, va, te) ->
  exists q_test q_val,
    float_value (PrimFloat.mul t (float_of_Z (Z.of_nat (length pts))))
    = Some q_test
    /\ length te = Z.to_nat (Qceiling q_test)
    /\ float_value
         (PrimFloat.mul (PrimFloat.div v (PrimFloat.sub 1 t))
            (float_of_Z (Z.of_nat (length pts - length te))))
       = Some q_val
    /\ length va = Z.to_nat (Qceiling q_val)
    /\ length tr + length va + length te = length pts.
Proof.
  intros Hsizes Hrun.
  apply partition_patients_calls in Hrun as [_ (trainval & Hs1 & Hs2)].
  apply Hsizes in Hs1 as (q1 & Hq1 & Hte & Hsum1).
  apply Hsizes in Hs2 as (q2 & Hq2 & Hva & Hsum2).
  assert (Htv : length trainval = length pts - length te) by lia.
  rewrite Htv in Hq2.
  exists q1, q2. split; [exact Hq1|]. split; [exact Hte|].
  split; [exact Hq2|]. split; [exact Hva|]. lia.
Qed.

(** C4, as stated, fails: with [val_split = 0.1], [test_split = 0.3] and
    ten patients the first split holds out 3 patients, the relative
    fraction [0.1 / (1 - 0.3)] is the double just above 1/7, its product
    with the 7 remaining patients is just above 1, and sklearn's ceiling
    makes 2 validation patients: 20% of the population, not 10%. *)
Lemma validation_share_not_val_split :
  (fun '(tr, va, te) => (length tr, length va, length te))
    <$> Train.partition_patients Train.float_ordered_split
          Train.ten_patients 0 0.1%float 0.3%float
  = Some (5, 2, 3)%nat
  /\ length Train.ten_patients = 10%nat
  /\ PrimFloat.eqb (PrimFloat.div 2 10) 0.1 = false
  /\ PrimFloat.ltb 0.1 (PrimFloat.div 2 10) = true.
Proof. repeat split; vm_compute; reflexivity. Qed.

(** C4 (amended): [partition_dataset] first calls the splitter on all
    patients with test fraction [test_split], then on the remaining
    patients with the relative fraction [val_split / (1 - test_split)].
    In exact arithmetic that fraction of the remaining [1 - test_split]
    of the population is [val_split] of the whole population, and with
    sklearn's size rule (the held-out part has [ceil(fraction * count)]
    members) the validation patients number at most
    [ceil(val_split * n)], and exactly that when [test_split * n] is
    whole.  The code computes in binary64: with a splitter whose sizes
    are sklearn's [ceil(fraction * count)] on doubles, the validation
    patients number the ceiling of the double
    [(val_split / (1 - test_split)) * (n - n_test)].  For
    [val_split = 0.2] and [test_split = 0.2] the relative fraction
    computed in binary64 is exactly 0.25, and ten patients are divided
    6 / 2 / 2. *)
Theorem relative_validation_split (val_split test_split : Q)
    (train_test_split :
       list string -> Q -> Z -> option (list string * list string))
    (all_pts : list string) (seed : Z)
    (train_pts val_pts test_pts : list string) :
  (0 <= val_split)%Q -> (0 <= test_split)%Q -> (test_split < 1)%Q ->
  (forall pts size seed a b,
      train_test_split pts size seed = Some (a, b) ->
      length b = Z.to_nat (Qceiling (size * inject_Z (Z.of_nat (length pts))))
      /\ length a + length b = length pts) ->
  Train.partition_patients train_test_split all_pts seed val_split test_split
    = Some (train_pts, val_pts, test_pts) ->
  let n := inject_Z (Z.of_nat (length all_pts)) in
  (forall (R : Type) (HR : Num R)
          (train_test_split :
             list string -> R -> Z -> option (list string * list string))
          (all_pts : list string) (seed : Z) (v t : R)
          (train_pts val_pts test_pts : list string),
      Train.partition_patients train_test_split all_pts seed v t
        = Some (train_pts, val_pts, test_pts) ->
      exists trainval_pts,
        train_test_split all_pts t seed = Some (trainval_pts, test_pts)
        /\ train_test_split trainval_pts
             (num_div v (num_sub (num_of_Z 1) t)) seed
           = Some (train_pts, val_pts))
  /\ (val_split / (1 - test_split) * (1 - test_split) == val_split)%Q
  /\ length test_pts = Z.to_nat (Qceiling (test_split * n))
  /\ length val_pts
     = Z.to_nat (Qceiling (val_split / (1 - test_split)
                           * inject_Z (Z.of_nat (length all_pts
                                                 - length test_pts))))
  /\ length train_pts + length val_pts + length test_pts = length all_pts
  /\ (length val_pts <= Z.to_nat (Qceiling (val_split * n)))%nat
  /\ ((exists k : Z, test_split * n == inject_Z k)%Q ->
      length val_pts = Z.to_nat (Qceiling (val_split * n)))
  /\ (forall (split64 : list string -> float -> Z
                        -> option (list string * list string))
             (pts : list string) (seed : Z) (v t : float)
             (tr va te : list string),
        (forall pts size seed a b,
            split64 pts size seed = Some (a, b) ->
            exists q,
              float_value
                (PrimFloat.mul size (float_of_Z (Z.of_nat (length pts))))
              = Some q
              /\ length b = Z.to_nat (Qceiling q)
              /\ length a + length b = length pts) ->
        Train.partition_patients split64 pts seed v t = Some (tr, va, te) ->
        exists q_test q_val,
          float_value (PrimFloat.mul t (float_of_Z (Z.of_nat (length pts))))
          = Some q_test
          /\ length te = Z.to_nat (Qceiling q_test)
          /\ float_value
               (PrimFloat.mul (PrimFloat.div v (PrimFloat.sub 1 t))
                  (float_of_Z (Z.of_nat (length pts - length te))))
             = Some q_val
          /\ length va = Z.to_nat (Qceiling q_val)
          /\ length tr + length va + length te = length pts)
  /\ PrimFloat.div 0.2 (PrimFloat.sub 1 0.2) = 0.25%float
  /\ (fun '(tr, va, te) => (length tr, length va, length te))
       <$> Train.partition_patients Train.float_ordered_split
             Train.ten_patients 0 0.2%float 0.2%float
     = Some (6, 2, 2)%nat.
Proof.
  intros Hv Ht0 Ht1 Hsizes Hrun n.
  assert (Hne : ~ (test_split == 1)%Q) by (intros E; lra).
  pose proof (relative_val_split_exact val_split test_split Hne) as Hexact.
  unfold Train.relative_val_split in Hexact. simpl in Hexact.
  change (inject_Z 1) with 1%Q in Hexact.
  apply partition_patients_calls in Hrun as [_ (trainval & Hs1 & Hs2)].
  simpl in Hs2. change (inject_Z 1) with 1%Q in Hs2.
  apply Hsizes in Hs1 as [Hte Hsum1]. apply Hsizes in Hs2 as [Hva Hsum2].
  fold n in Hte.
  assert (Htv : length trainval = length all_pts - length test_pts) by lia.
  rewrite Htv in Hva.
  set (rel := (val_split / (1 - test_split))%Q) in *.
  assert (Hrel : (0 <= rel)%Q).
  { unfold rel. apply Qle_shift_div_l; lra. }
  assert (Hn0 : (0 <= n)%Q).
  { unfold n. change 0%Q with (inject_Z 0). rewrite <- Zle_Qle. lia. }
  assert (Hceil : (test_split * n <= inject_Z (Qceiling (test_split * n)))%Q)
    by apply Qle_ceiling.
  assert (Hceil0 : (0 <= Qceiling (test_split * n))%Z).
  { change 0%Z with (Qceiling 0). apply Qceiling_resp_le. nra. }
  assert (Hle_te : (length test_pts <= length all_pts)%nat) by lia.
  assert (Hm : (inject_Z (Z.of_nat (length all_pts - length test_pts))
                == n - inject_Z (Qceiling (test_split * n)))%Q).
  { unfold n. rewrite Nat2Z.inj_sub by exact Hle_te.
    rewrite Hte, Z2Nat.id by exact Hceil0.
    unfold Z.sub. rewrite inject_Z_plus, inject_Z_opp. unfold n. ring. }
  split; [|split; [|split; [|split; [|split; [|split; [|split;
    [|split; [exact partition_patients_float_sizes|split]]]]]]]].
  - intros R HR tts pts sd v t tr va te Hp.
    by apply partition_patients_calls in Hp as [_ Hp].
  - exact Hexact.
  - exact Hte.
  - exact Hva.
  - lia.
  - rewrite Hva.
    assert (Hm0 : (0 <= inject_Z (Z.of_nat (length all_pts
                                            - length test_pts)))%Q).
    { change 0%Q with (inject_Z 0). rewrite <- Zle_Qle. lia. }
    revert Hm Hm0.
    generalize (inject_Z (Z.of_nat (length all_pts - length test_pts))).
    generalize dependent (inject_Z (Qceiling (test_split * n))).
    intros c Hc m Hm Hm0.
    assert (Hprod : (0 <= rel * (c - test_split * n))%Q).
    { apply Qmult_le_0_compat; lra. }
    apply Z2Nat.inj_le.
    + change 0%Z with (Qceiling 0). apply Qceiling_resp_le.
      apply Qmult_le_0_compat; assumption.
    + change 0%Z with (Qceiling 0). apply Qceiling_resp_le.
      apply Qmult_le_0_compat; assumption.
    + apply Qceiling_resp_le. rewrite Hm, <- Hexact. nra.
  - intros [k Hk]. rewrite Hva. f_equal. apply Qceiling_comp.
    rewrite Hm.
    assert (Hck : Qceiling (test_split * n) = k).
    { rewrite (Qceiling_comp _ _ Hk). apply Qceiling_Z. }
    rewrite Hck, <- Hk, <- Hexact. ring.
  - vm_compute. reflexivity.
  - vm_compute. reflexivity.
Qed.

Lemma relative_validation_split_witness :
  (exists tr va te,
      Train.partition_patients Train.ordered_split Train.ten_patients 0
        (1 # 5) (1 # 5) = Some (tr, va, te)
      /\ length te = 2%nat
      /\ length va = 2%nat
      /\ length tr + length va + length te = 10%nat)
  /\ (exists tr va te,
        Train.partition_patients Train.float_ordered_split
          Train.ten_patients 0 0.1%float 0.3%float = Some (tr, va, te)
        /\ length te = 3%nat
        /\ length va = 2%nat).
Proof.
  destruct (Train.partition_patients Train.ordered_split Train.ten_patients
              0 (1 # 5) (1 # 5)) as [[[tr va] te]|] eqn:Hrun;
    [|vm_compute in Hrun; discriminate Hrun].
  assert (Hv : (0 <= 1 # 5)%Q) by (vm_compute; discriminate).
  assert (Ht1 : (1 # 5 < 1)%Q) by reflexivity.
  destruct (relative_validation_split (1 # 5) (1 # 5) Train.ordered_split
              Train.ten_patients 0 tr va te Hv Hv Ht1
              ordered_split_sizes Hrun)
    as (_ & _ & Hte & _ & Hsum & _ & Hwhole & Hfloat & _ & _).
  split.
  - exists tr, va, te. split; [reflexivity|]. split; [exact Hte|].
    split; [|exact Hsum].
    apply Hwhole. exists 2%Z. reflexivity.
  - destruct (Train.partition_patients Train.float_ordered_split
                Train.ten_patients 0 0.1%float 0.3%float)
      as [[[tr' va'] te']|] eqn:Hrun';
      [|vm_compute in Hrun'; discriminate Hrun'].
    destruct (Hfloat Train.float_ordered_split Train.ten_patients 0%Z
                0.1%float 0.3%float tr' va' te'
                float_ordered_split_sizes Hrun')
      as (q1 & q2 & Hq1 & Hte' & Hq2 & Hva' & _).
    exists tr', va', te'. split; [reflexivity|].
    vm_compute in Hq1. injection Hq1 as <-.
    split; [exact Hte'|].
    rewrite Hte' in Hq2. vm_compute in Hq2. injection Hq2 as <-.
    exact Hva'.
Defined.

(** ** Grad-CAM *)

(** C3: [get_gradcam_heatmap] does not hand the heatmap it computes back
    to its caller: for every model and image the result is Python's
    [None], and the post-processing in [apply_gradcam] then fails on it;
    on the sample model the heatmap bound locally is [[[0.5]]], the
    channel mean of the activations weighted by the pooled gradients. *)
Theorem get_gradcam_heatmap_returns_none :
  (forall (R : Type) (HR : Num R) (Img : Type)
          (model : GradCAM.Model (R:=R) Img) (img : Img),
      GradCAM.get_gradcam_heatmap model img = None
      /\ GradCAM.get_gradcam_heatmap model img
         <> Some (GradCAM.gradcam_local_heatmap model img)
      /\ GradCAM.postprocess (GradCAM.get_gradcam_heatmap model img) = None)
  /\ GradCAM.gradcam_local_heatmap GradCAM.sample_model tt = [[[0.5%float]]]
  /\ GradCAM.get_gradcam_heatmap GradCAM.sample_model tt = None.
Proof.
  split; [|split].
  - intros R HR Img model img. split; [reflexivity|]. split; [discriminate|].
    reflexivity.
  - vm_compute. reflexivity.
  - reflexivity.
Qed.

Lemma flatten_map (f : Q -> Q) (t : list (list (list Q))) :
  Np.flatten (map (map (map f)) t) = f <$> Np.flatten t.
Proof.
  unfold Np.flatten.
  rewrite <- (List.concat_map (map f)), <- (List.concat_map f). done.
Qed.

Lemma Qmaximum_cases (a b : Q) :
  (Qmaximum a b = b /\ (a <= b)%Q) \/ (Qmaximum a b = a /\ (b <= a)%Q).
Proof.
  unfold Qmaximum. destruct (Qle_bool a b) eqn:E.
  - left. split; [done|]. by apply Qle_bool_iff.
  - right. split; [done|].
    destruct (Qlt_le_dec b a) as [Hlt|Hle]; [by apply Qlt_le_weak|].
    apply Qle_bool_iff in Hle. congruence.
Qed.

Lemma Qmaximum_0_nonneg (x : Q) : (0 <= Qmaximum x 0)%Q.
Proof.
  destruct (Qmaximum_cases x 0) as [[-> ?]|[-> ?]]; [apply Qle_refl|done].
Qed.

Lemma Qmaximum_0_le (x b : Q) :
  (x <= b)%Q -> (0 <= b)%Q -> (Qmaximum x 0 <= b)%Q.
Proof. destruct (Qmaximum_cases x 0) as [[-> ?]|[-> ?]]; done. Qed.

Lemma Qmaximum_0_pos (x : Q) : (0 < x)%Q -> Qmaximum x 0 = x.
Proof.
  intros Hx. destruct (Qmaximum_cases x 0) as [[_ ?]|[-> _]]; [lra|done].
Qed.

Lemma foldl_Qmaximum_spec (xs : list Q) (a : Q) :
  let m := foldl Qmaximum a xs in
  (m = a \/ m ∈ xs) /\ (a <= m)%Q /\ (forall x, x ∈ xs -> (x <= m)%Q).
Proof.
  revert a. induction xs as [|x xs IH]; intros a; simpl.
  - split; [by left|]. split; [apply Qle_refl|]. intros x Hx.
    by apply elem_of_nil in Hx.
  - destruct (IH (Qmaximum a x)) as (Hin & Hle & Hall).
    destruct (Qmaximum_cases a x) as [[E Hax]|[E Hxa]]; rewrite E in *.
    + split; [|split].
      * right. destruct Hin as [->|Hin]; [by left|by right].
      * by eapply Qle_trans.
      * intros y [->|Hy]%elem_of_cons; [done|by apply Hall].
    + split; [|split].
      * destruct Hin as [->|Hin]; [by left|right; by right].
      * done.
      * intros y [->|Hy]%elem_of_cons; [by eapply Qle_trans|by apply Hall].
Qed.

Lemma Np_max_spec (xs : list Q) (m : Q) :
  Np.max (R:=Q) xs = Some m ->
  m ∈ xs /\ forall x, x ∈ xs -> (x <= m)%Q.
Proof.
  destruct xs as [|a xs]; [done|]. simpl. intros [= <-].
  destruct (foldl_Qmaximum_spec xs a) as (Hin & Hle & Hall).
  split.
  - destruct Hin as [->|Hin]; [by left|by right].
  - intros y [->|Hy]%elem_of_cons; [done|by apply Hall].
Qed.

Lemma Np_max_is_Some (xs : list Q) : xs <> [] -> is_Some (Np.max (R:=Q) xs).
Proof. destruct xs; [done|]. by eexists. Qed.

Lemma EPSILON_pos : (0 < GradCAM.EPSILON (R:=Q))%Q.
Proof. reflexivity. Qed.

(** C5, as stated, fails: a raw heatmap whose maximum is -1 (non-zero)
    is clipped to all zeros, epsilon becomes the divisor, and the
    post-processed maximum is 0, not 1.0. *)
Lemma relu_normalize_negative_heatmap :
  Np.max (R:=float) (Np.flatten [[[(-1)%float]]]) = Some (-1)%float
  /\ (-1)%float <> 0%float
  /\ GradCAM.relu_normalize (R:=float) [[[(-1)%float]]] = Some [[[0%float]]]
  /\ Np.max (R:=float) (Np.flatten [[[0%float]]]) = Some 0%float
  /\ 0%float <> 1%float.
Proof.
  split; [vm_compute; reflexivity|]. split.
  { intros E. apply (f_equal (fun x => PrimFloat.eqb x 0)) in E.
    vm_compute in E. discriminate E. }
  split; [vm_compute; reflexivity|]. split; [vm_compute; reflexivity|].
  intros E. apply (f_equal (fun x => PrimFloat.eqb x 1)) in E.
  vm_compute in E. discriminate E.
Qed.

(** C5 (amended): for every non-empty raw heatmap with finite values,
    taken in exact arithmetic, the [apply_gradcam] post-processing
    succeeds with a non-zero divisor, every post-processed value lies in
    [0, 1], the post-processed maximum is 1 whenever the raw maximum is
    positive (the divisor is then that maximum), and whenever the raw
    maximum is zero or negative the divisor is machine epsilon and every
    post-processed value is 0.  In binary64 the heatmap
    [[[-1, 2], [0.5, 1]]] becomes [[[0, 1], [0.25, 0.5]]] and the all-zero
    heatmap stays all zero. *)
Theorem relu_normalize_bounds (raw_heatmap : list (list (list Q))) :
  Np.flatten raw_heatmap <> [] ->
  (exists raw_max d heatmap,
    Np.max (Np.flatten raw_heatmap) = Some raw_max
    /\ GradCAM.divisor (GradCAM.relu raw_heatmap) = Some d
    /\ ~ (d == 0)%Q
    /\ GradCAM.relu_normalize raw_heatmap = Some heatmap
    /\ (forall x, x ∈ Np.flatten heatmap -> (0 <= x <= 1)%Q)
    /\ ((0 < raw_max)%Q ->
        (d == raw_max)%Q
        /\ exists top,
             Np.max (Np.flatten heatmap) = Some top /\ (top == 1)%Q)
    /\ ((raw_max <= 0)%Q ->
        d = GradCAM.EPSILON
        /\ forall x, x ∈ Np.flatten heatmap -> (x == 0)%Q))
  /\ GradCAM.relu_normalize (R:=float) [[[-1; 2]; [0.5; 1]]]%float
     = Some [[[0; 1]; [0.25; 0.5]]]%float
  /\ GradCAM.relu_normalize (R:=float) [[[0; 0]]]%float
     = Some [[[0; 0]]]%float.
Proof.
  intros Hne.
  split; [|split; vm_compute; reflexivity].
  destruct (Np_max_is_Some _ Hne) as [raw_max Hraw].
  destruct (Np_max_spec _ _ Hraw) as [Hraw_in Hraw_le].
  set (ys := Np.flatten (GradCAM.relu raw_heatmap)).
  assert (Hys : ys = (fun x => Qmaximum x 0) <$> Np.flatten raw_heatmap).
  { unfold ys, GradCAM.relu. apply flatten_map. }
  assert (Hys_ne : ys <> []).
  { rewrite Hys. intros E. apply fmap_nil_inv in E. done. }
  destruct (Np_max_is_Some _ Hys_ne) as [m Hm].
  destruct (Np_max_spec _ _ Hm) as [Hm_in Hm_le].
  assert (Hys_nonneg : forall y, y ∈ ys -> (0 <= y)%Q).
  { intros y. rewrite Hys. intros (x & -> & _)%list_elem_of_fmap.
    apply Qmaximum_0_nonneg. }
  assert (Hm_nonneg : (0 <= m)%Q) by (by apply Hys_nonneg).
  assert (Hm_raw : (m == Qmaximum raw_max 0)%Q).
  { apply Qle_antisym.
    - rewrite Hys in Hm_in. apply list_elem_of_fmap in Hm_in as (x & -> & Hx).
      pose proof (Hraw_le _ Hx) as Hxr.
      pose proof (Qmaximum_0_nonneg raw_max) as Hr0.
      apply Qmaximum_0_le; [|done].
      destruct (Qmaximum_cases raw_max 0) as [[E ?]|[E ?]]; rewrite E; lra.
    - apply Hm_le. rewrite Hys.
      by apply (list_elem_of_fmap_2 (fun x => Qmaximum x 0)). }
  set (d := if negb (Qeq_bool m 0) then m else GradCAM.EPSILON (R:=Q)).
  assert (Hd : GradCAM.divisor (GradCAM.relu raw_heatmap) = Some d).
  { unfold GradCAM.divisor. fold ys. rewrite Hm. done. }
  assert (Hd_pos : (0 < d)%Q).
  { unfold d. destruct (Qeq_bool m 0) eqn:E; cbn [negb]; [apply EPSILON_pos|].
    apply Qeq_bool_neq in E. lra. }
  assert (Hmd : (m <= d)%Q).
  { unfold d. destruct (Qeq_bool m 0) eqn:E; cbn [negb]; [|apply Qle_refl].
    apply Qeq_bool_eq in E. rewrite E. apply Qlt_le_weak, EPSILON_pos. }
  set (heatmap :=
         map (map (map (fun x => x / d)%Q)) (GradCAM.relu raw_heatmap)).
  assert (Hh : GradCAM.relu_normalize raw_heatmap = Some heatmap).
  { unfold GradCAM.relu_normalize. rewrite Hd. done. }
  assert (Hflat : Np.flatten heatmap = (fun x => x / d)%Q <$> ys).
  { unfold heatmap. apply flatten_map. }
  exists raw_max, d, heatmap.
  split; [done|]. split; [done|]. split; [lra|]. split; [done|].
  split; [|split].
  - intros z. rewrite Hflat. intros (y & -> & Hy)%list_elem_of_fmap.
    pose proof (Hys_nonneg _ Hy) as Hy0. pose proof (Hm_le _ Hy) as Hym.
    split.
    + apply Qle_shift_div_l; [done|]. lra.
    + apply Qle_shift_div_r; [done|]. lra.
  - intros Hpos.
    assert (Hmr : (m == raw_max)%Q).
    { rewrite Hm_raw. by rewrite Qmaximum_0_pos. }
    assert (Hdm : d = m).
    { unfold d. destruct (Qeq_bool m 0) eqn:E; cbn [negb]; [|done].
      apply Qeq_bool_eq in E. lra. }
    split; [by rewrite Hdm|].
    assert (Hzs_ne : Np.flatten heatmap <> []).
    { rewrite Hflat. intros E. by apply fmap_nil_inv in E. }
    destruct (Np_max_is_Some _ Hzs_ne) as [top Htop].
    destruct (Np_max_spec _ _ Htop) as [Htop_in Htop_le].
    exists top. split; [done|].
    apply Qle_antisym.
    + rewrite Hflat in Htop_in.
      apply list_elem_of_fmap in Htop_in as (y & -> & Hy).
      apply Qle_shift_div_r; [done|]. rewrite Hdm.
      pose proof (Hm_le _ Hy). lra.
    + assert (Hcand : (m / d)%Q ∈ Np.flatten heatmap).
      { rewrite Hflat. by apply (list_elem_of_fmap_2 (fun x => x / d)%Q). }
      eapply Qle_trans; [|by apply Htop_le].
      apply Qle_shift_div_l; [done|]. rewrite Hdm. lra.
  - intros Hnonpos.
    assert (Hm0 : (m == 0)%Q).
    { rewrite Hm_raw.
      destruct (Qmaximum_cases raw_max 0) as [[-> ?]|[-> ?]]; [done|lra]. }
    split.
    + unfold d. apply Qeq_bool_iff in Hm0. by rewrite Hm0.
    + intros z. rewrite Hflat. intros (y & -> & Hy)%list_elem_of_fmap.
      pose proof (Hys_nonneg _ Hy). pose proof (Hm_le _ Hy).
      assert (Hy0 : (y == 0)%Q) by lra.
      rewrite Hy0. unfold Qdiv. ring.
Qed.

(** A raw heatmap holding a NaN (Grad-CAM++ divides by a channel sum
    that may be zero) stays NaN through the clip and the division. *)
Lemma relu_normalize_nan_heatmap :
  exists h,
    GradCAM.relu_normalize (R:=float) [[[PrimFloat.nan]]] = Some [[[h]]]
    /\ PrimFloat.is_nan h = true.
Proof. eexists. split; vm_compute; reflexivity. Qed.

Lemma relu_normalize_bounds_witness :
  Np.flatten [[[-1; 2]; [1 # 2; 1]]]%Q <> []
  /\ exists raw_max d heatmap,
       Np.max (Np.flatten [[[-1; 2]; [1 # 2; 1]]]%Q) = Some raw_max
       /\ GradCAM.divisor (GradCAM.relu [[[-1; 2]; [1 # 2; 1]]]%Q) = Some d
       /\ ~ (d == 0)%Q
       /\ GradCAM.relu_normalize [[[-1; 2]; [1 # 2; 1]]]%Q = Some heatmap
       /\ (forall x, x ∈ Np.flatten heatmap -> (0 <= x <= 1)%Q).
Proof.
  assert (Hne : Np.flatten [[[-1; 2]; [1 # 2; 1]]]%Q <> []) by discriminate.
  split; [exact Hne|].
  destruct (proj1 (relu_normalize_bounds [[[-1; 2]; [1 # 2; 1]]]%Q Hne))
    as (raw_max & d & heatmap & H1 & H2 & H3 & H4 & H5 & _).
  exists raw_max, d, heatmap. repeat (split; [assumption|]). exact H5.
Defined.

(** ** Hyperparameter search log *)

Section hparam_facts.
Context {R : Type} `{Num R}.
Variable reload_column : list (Train.pyval (R:=R)) -> list (Train.pyval (R:=R)).
Local Abbreviation table := (gmap string (list (Train.pyval (R:=R)))).

Lemma dict_append_lookup (results results' : table) name v name' :
  Train.dict_append results name v = Some results' ->
  results' !! name' =
    if decide (name' = name) then (fun col => col ++ [v]) <$> results !! name
    else results !! name'.
Proof.
  unfold Train.dict_append. destruct (results !! name) as [col|] eqn:E;
    simpl; [|done].
  intros [= <-]. destruct (decide (name' = name)) as [->|Hn].
  - by rewrite lookup_insert_eq.
  - by rewrite lookup_insert_ne.
Qed.

Lemma dict_append_is_Some (results : table) name v :
  is_Some (results !! name) -> is_Some (Train.dict_append results name v).
Proof. intros [col E]. unfold Train.dict_append. rewrite E. by eexists. Qed.

Lemma append_hparams_spec (hparam_names : list string)
    (hparams : gmap string Train.pyval) :
  NoDup hparam_names ->
  forall results : table,
  (forall name, name ∈ hparam_names ->
     is_Some (results !! name) /\ is_Some (hparams !! name)) ->
  exists results',
    Train.append_hparams results hparam_names hparams = Some results'
    /\ forall name,
        results' !! name =
          if decide (name ∈ hparam_names)
          then col ← results !! name; v ← hparams !! name; Some (col ++ [v])
          else results !! name.
Proof.
  induction 1 as [|name0 rest Hnotin Hnd IH]; intros results Hok.
  - exists results. split; [done|]. intros name.
    case_decide as Hin; [by apply elem_of_nil in Hin|done].
  - destruct (Hok name0) as [[col Hcol] [v Hv]]; [by left|].
    destruct (dict_append_is_Some results name0 v) as [r1 Hr1]; [by eexists|].
    destruct (IH r1) as (r2 & Hr2 & Hlook).
    { intros name Hname. split; [|apply Hok; by right].
      rewrite (dict_append_lookup _ _ _ _ _ Hr1).
      case_decide; [subst; by rewrite Hcol; eexists|].
      apply Hok. by right. }
    exists r2. split.
    { simpl. rewrite Hv. simpl. rewrite Hr1. simpl. done. }
    intros name. rewrite Hlook, (dict_append_lookup _ _ _ _ _ Hr1).
    destruct (decide (name = name0)) as [->|Hne].
    + rewrite decide_False by done. rewrite decide_True by (by left).
      rewrite Hcol, Hv. done.
    + destruct (decide (name ∈ rest)) as [Hin|Hnin].
      * rewrite decide_True by (by right). done.
      * rewrite decide_False; [done|].
        intros [?|?]%elem_of_cons; done.
Qed.

Lemma save_once experiments (fs : gmap string table) (init_dict : table)
    score objective hparam_names hparams model_name cur_datetime (n : nat) :
  let path := Train.results_path experiments model_name cur_datetime in
  let cur := Train.current_results reload_column fs path init_dict in
  NoDup ("Trial" :: objective :: hparam_names) ->
  (forall name, is_Some (cur !! name)
                <-> name ∈ "Trial" :: objective :: hparam_names) ->
  Train.rectangular cur n ->
  (forall name, name ∈ hparam_names -> is_Some (hparams !! name)) ->
  exists results,
    Train.save_hparam_search_results reload_column experiments fs init_dict
      score objective hparam_names hparams model_name cur_datetime
    = Some (<[path := results]> fs, results)
    /\ forall name,
        results !! name =
          col ← cur !! name;
          v ← Train.new_cell n objective score hparams name;
          Some (col ++ [v]).
Proof.
  intros path cur Hnd Hdom Hrect Hcover.
  apply NoDup_cons in Hnd as [HT Hnd]. apply NoDup_cons in Hnd as [Hobj Hnd].
  assert (Hne : objective <> "Trial").
  { intros ->. apply HT. by left. }
  destruct (proj2 (Hdom "Trial")) as [tcol Htcol]; [by left|].
  destruct (proj2 (Hdom objective)) as [ocol Hocol]; [by right; left|].
  assert (Hlen : length tcol = n) by (by apply (Hrect _ _ Htcol)).
  set (v0 := Train.PyStr (pretty n) : Train.pyval (R:=R)).
  set (v1 := Train.PyFloat (num_sub (num_of_Z 1) score)).
  destruct (dict_append_is_Some cur "Trial" v0) as [r1 Hr1]; [by eexists|].
  destruct (dict_append_is_Some r1 objective v1) as [r2 Hr2].
  { rewrite (dict_append_lookup _ _ _ _ _ Hr1), decide_False by done.
    by eexists. }
  destruct (append_hparams_spec hparam_names hparams Hnd r2)
    as (r3 & Hr3 & Hlook).
  { intros name Hname. split; [|by apply Hcover].
    assert (name <> objective) by (intros ->; done).
    assert (name <> "Trial") by (intros ->; apply HT; by right).
    rewrite (dict_append_lookup _ _ _ _ name Hr2), decide_False by done.
    rewrite (dict_append_lookup _ _ _ _ name Hr1), decide_False by done.
    apply Hdom. by do 2 right. }
  assert (Hfinal : forall name,
    r3 !! name =
      col ← cur !! name;
      v ← Train.new_cell n objective score hparams name;
      Some (col ++ [v])).
  { intros name. rewrite Hlook. unfold Train.new_cell.
    rewrite (dict_append_lookup _ _ _ _ name Hr2).
    destruct (decide (name = "Trial")) as [->|HnT].
    - rewrite decide_False by (intros Hin; apply HT; by right).
      rewrite decide_False by done.
      rewrite (dict_append_lookup _ _ _ _ "Trial" Hr1).
      rewrite decide_True by done. rewrite Htcol. done.
    - destruct (decide (name = objective)) as [->|HnO].
      + rewrite decide_False by done.
        rewrite (dict_append_lookup _ _ _ _ objective Hr1).
        rewrite decide_False by done. rewrite Hocol. done.
      + rewrite (dict_append_lookup _ _ _ _ name Hr1).
        rewrite (decide_False (P := name = "Trial")) by done.
        destruct (decide (name ∈ hparam_names)) as [Hin|Hnin]; [done|].
        destruct (cur !! name) as [col|] eqn:Hc; [|done].
        exfalso. assert (Hs : is_Some (cur !! name)) by (by eexists).
        apply Hdom in Hs.
        apply elem_of_cons in Hs as [?|Hs]; [done|].
        apply elem_of_cons in Hs as [?|Hs]; done. }
  exists r3. split; [|done].
  unfold Train.save_hparam_search_results.
  fold path. fold cur.
  rewrite Htcol. simpl. rewrite Hlen. fold v0. rewrite Hr1. simpl.
  fold v1. rewrite Hr2. simpl. rewrite Hr3. simpl.
  rewrite decide_True; [done|].
  intros name col. rewrite Hfinal.
  destruct (cur !! name) as [c|] eqn:Hc; simpl; [|done].
  destruct (Train.new_cell _ _ _ _ _); simpl; [|done].
  intros [= <-]. rewrite length_app. simpl.
  rewrite (Hrect _ _ Hc). lia.
Qed.

Hypothesis reload_length : forall col, length (reload_column col) = length col.

(** C7: two successive calls of [save_hparam_search_results] on the
    same results file both succeed; the second loads the file that the
    first wrote instead of starting from its [init_dict], so the file
    ends with every column holding the previously recorded entries (as
    re-read from the file) followed by the first and then the second
    call's entry, with no other column and two more rows than before;
    the trial index appended by each call is the number of trials
    recorded before it, [n] and then [n + 1]. *)
Theorem hparam_results_accumulate experiments (fs : gmap string table)
    (init_dict init_dict' : table) score1 score2 objective hparam_names
    hparams1 hparams2 model_name cur_datetime (n : nat) :
  let path := Train.results_path experiments model_name cur_datetime in
  let cur := Train.current_results reload_column fs path init_dict in
  NoDup ("Trial" :: objective :: hparam_names) ->
  (forall name, is_Some (cur !! name)
                <-> name ∈ "Trial" :: objective :: hparam_names) ->
  Train.rectangular cur n ->
  (forall name, name ∈ hparam_names ->
     is_Some (hparams1 !! name) /\ is_Some (hparams2 !! name)) ->
  exists table1 table2,
    Train.save_hparam_search_results reload_column experiments fs init_dict
      score1 objective hparam_names hparams1 model_name cur_datetime
    = Some (<[path := table1]> fs, table1)
    /\ Train.save_hparam_search_results reload_column experiments
         (<[path := table1]> fs) init_dict'
         score2 objective hparam_names hparams2 model_name cur_datetime
       = Some (<[path := table2]> (<[path := table1]> fs), table2)
    /\ (forall name col, cur !! name = Some col ->
          exists v1 v2,
            Train.new_cell n objective score1 hparams1 name = Some v1
            /\ Train.new_cell (S n) objective score2 hparams2 name = Some v2
            /\ table1 !! name = Some (col ++ [v1])
            /\ table2 !! name = Some (reload_column (col ++ [v1]) ++ [v2]))
    /\ (forall name, cur !! name = None -> table2 !! name = None)
    /\ (exists trial_col,
          cur !! "Trial" = Some trial_col /\ length trial_col = n
          /\ table2 !! "Trial"
             = Some (reload_column (trial_col ++ [Train.PyStr (pretty n)])
                       ++ [Train.PyStr (pretty (S n))]))
    /\ Train.rectangular table2 (n + 2).
Proof using reload_length.
  intros path cur Hnd Hdom Hrect Hcover.
  destruct (save_once experiments fs init_dict score1 objective hparam_names
              hparams1 model_name cur_datetime n Hnd Hdom Hrect)
    as (table1 & Hsave1 & Hlook1); [intros; by apply Hcover|].
  subst cur path.
  set (path := Train.results_path experiments model_name cur_datetime) in *.
  set (cur := Train.current_results reload_column fs path init_dict) in *.
  assert (Hcell : forall k score hparams name,
    (forall nm, nm ∈ hparam_names -> is_Some (hparams !! nm)) ->
    name ∈ "Trial" :: objective :: hparam_names ->
    is_Some (Train.new_cell k objective score hparams name)).
  { intros k score hparams name Hc Hin. unfold Train.new_cell.
    repeat case_decide; [by eexists..|].
    apply Hc. apply elem_of_cons in Hin as [?|Hin]; [done|].
    apply elem_of_cons in Hin as [?|Hin]; done. }
  set (fs1 := <[path := table1]> fs).
  assert (Hcur2 : Train.current_results reload_column fs1 path init_dict'
                  = reload_column <$> table1).
  { unfold Train.current_results, fs1. by rewrite lookup_insert_eq. }
  assert (Hdom2 : forall name,
    is_Some (Train.current_results reload_column fs1 path init_dict' !! name)
    <-> name ∈ "Trial" :: objective :: hparam_names).
  { intros name. rewrite Hcur2, lookup_fmap, Hlook1, <- Hdom.
    split.
    - destruct (cur !! name); [by eexists|]. intros [? Hx]. by cbn in Hx.
    - intros [col Hcol]. rewrite Hcol. simpl.
      destruct (Hcell n score1 hparams1 name) as [v Hv].
      { intros; by apply Hcover. } { apply Hdom. by eexists. }
      rewrite Hv. by eexists. }
  assert (Hrect2 : Train.rectangular
                     (Train.current_results reload_column fs1 path init_dict') (S n)).
  { intros name col. rewrite Hcur2, lookup_fmap, Hlook1.
    destruct (cur !! name) as [c|] eqn:Hc; simpl; [|done].
    destruct (Train.new_cell _ _ _ _ _); simpl; [|done].
    intros [= <-]. rewrite reload_length, length_app. simpl.
    rewrite (Hrect _ _ Hc). lia. }
  destruct (save_once experiments fs1 init_dict' score2 objective
              hparam_names hparams2 model_name cur_datetime (S n)
              Hnd Hdom2 Hrect2)
    as (table2 & Hsave2 & Hlook2); [intros; by apply Hcover|].
  change (Train.results_path experiments model_name cur_datetime)
    with path in Hsave2, Hlook2.
  rewrite Hcur2 in Hlook2.
  exists table1, table2. split; [done|]. split; [done|].
  split; [|split; [|split]].
  - intros name col Hcol.
    destruct (Hcell n score1 hparams1 name) as [v1 Hv1].
    { intros; by apply Hcover. } { apply Hdom. by eexists. }
    destruct (Hcell (S n) score2 hparams2 name) as [v2 Hv2].
    { intros; by apply Hcover. } { apply Hdom. by eexists. }
    exists v1, v2. split; [done|]. split; [done|].
    assert (Ht1 : table1 !! name = Some (col ++ [v1])).
    { rewrite Hlook1, Hcol. simpl. by rewrite Hv1. }
    split; [done|].
    rewrite Hlook2, lookup_fmap, Ht1. simpl. by rewrite Hv2.
  - intros name Hnone.
    rewrite Hlook2, lookup_fmap, Hlook1, Hnone. done.
  - destruct (proj2 (Hdom "Trial")) as [tcol Htcol]; [by left|].
    exists tcol. split; [done|]. split; [by apply (Hrect _ _ Htcol)|].
    rewrite Hlook2, lookup_fmap, Hlook1, Htcol. done.
  - intros name col. rewrite Hlook2.
    destruct ((reload_column <$> table1) !! name) as [c|] eqn:Hc;
      simpl; [|done].
    destruct (Train.new_cell _ _ _ _ _); simpl; [|done].
    intros [= <-]. rewrite length_app. simpl.
    rewrite Hcur2 in Hrect2. rewrite (Hrect2 _ _ Hc). lia.
Qed.
End hparam_facts.

Lemma reload_int_columns_length (col : list (Train.pyval (R:=Q))) :
  length (Train.reload_int_columns col) = length col.
Proof.
  unfold Train.reload_int_columns.
  destruct (mapM Train.cell_as_int col) as [ns|] eqn:E; [|done].
  apply length_mapM in E. by rewrite length_fmap.
Qed.

Lemma hparam_results_accumulate_witness :
  let init_dict : gmap string (list (Train.pyval (R:=Q))) :=
    {[ "Trial" := []; "accuracy" := []; "LR" := [] ]} in
  let hparams1 : gmap string (Train.pyval (R:=Q)) :=
    {[ "LR" := Train.PyFloat (1 # 1000); "DROPOUT" := Train.PyFloat (1 # 2) ]} in
  let hparams2 : gmap string (Train.pyval (R:=Q)) :=
    {[ "LR" := Train.PyFloat (1 # 100); "DROPOUT" := Train.PyFloat (1 # 2) ]} in
  let cur := Train.current_results Train.reload_int_columns ∅
               (Train.results_path "results/" "VGG16" "20240101-000000")
               init_dict in
  NoDup ["Trial"; "accuracy"; "LR"]
  /\ (forall name, is_Some (cur !! name)
                   <-> name ∈ ["Trial"; "accuracy"; "LR"])
  /\ Train.rectangular cur 0
  /\ (forall name, name ∈ ["LR"] ->
        is_Some (hparams1 !! name) /\ is_Some (hparams2 !! name))
  /\ exists table1 table2,
       Train.save_hparam_search_results Train.reload_int_columns "results/" ∅
         init_dict (1 # 4) "accuracy" ["LR"] hparams1
         "VGG16" "20240101-000000"
       = Some (<[Train.results_path "results/" "VGG16" "20240101-000000"
                 := table1]> ∅, table1)
       /\ Train.save_hparam_search_results Train.reload_int_columns "results/"
            (<[Train.results_path "results/" "VGG16" "20240101-000000"
               := table1]> ∅)
            ∅ (1 # 5) "accuracy" ["LR"] hparams2 "VGG16" "20240101-000000"
          = Some (<[Train.results_path "results/" "VGG16" "20240101-000000"
                    := table2]>
                    (<[Train.results_path "results/" "VGG16" "20240101-000000"
                       := table1]> ∅), table2)
       /\ table2 !! "Trial" = Some [Train.PyInt 0; Train.PyStr "1"]
       /\ Train.rectangular table2 2.
Proof.
  intros init_dict hparams1 hparams2 cur.
  assert (Hnd : NoDup ["Trial"; "accuracy"; "LR"]).
  { apply (bool_decide_unpack _). vm_compute. exact I. }
  assert (Hdom : forall name, is_Some (cur !! name)
                              <-> name ∈ ["Trial"; "accuracy"; "LR"]).
  { intros name. unfold cur, Train.current_results, init_dict.
    rewrite lookup_empty, !elem_of_cons, elem_of_nil.
    rewrite <- (insert_empty (M:=gmap string) "LR").
    rewrite !lookup_insert_is_Some', lookup_empty.
    split.
    - intros [<-|[<-|[<-|[? ?]]]]; [by left|by right; left|by do 2 right; left
                                   |done].
    - intros [->|[->|[->|[]]]]; [by left|by right; left|by do 2 right; left]. }
  assert (Hrect : Train.rectangular cur 0).
  { apply (bool_decide_unpack _). vm_compute. exact I. }
  assert (Hcover : forall name, name ∈ ["LR"] ->
            is_Some (hparams1 !! name) /\ is_Some (hparams2 !! name)).
  { intros name [->|Hin]%elem_of_cons; [|by apply elem_of_nil in Hin].
    split; by eexists. }
  split; [exact Hnd|]. split; [exact Hdom|]. split; [exact Hrect|].
  split; [exact Hcover|].
  destruct (hparam_results_accumulate Train.reload_int_columns
              reload_int_columns_length "results/" ∅ init_dict ∅
              (1 # 4) (1 # 5) "accuracy" ["LR"] hparams1 hparams2
              "VGG16" "20240101-000000" 0 Hnd Hdom Hrect Hcover)
    as (table1 & table2 & Hs1 & Hs2 & _ & _ & (tcol & Ht & _ & Htrial) & Hr).
  exists table1, table2. split; [exact Hs1|]. split; [exact Hs2|].
  split; [|exact Hr].
  rewrite Htrial.
  assert (Htcol : tcol = []).
  { vm_compute in Ht. by injection Ht as <-. }
  rewrite Htcol. vm_compute. reflexivity.
Defined.

(** ** Cross-validation summary rows *)

Section cross_validation_facts.
Context {R : Type} `{Num R}.
Variable Series_mean Series_std : list R -> R.
Variable ndarray_std : list (list R) -> list R.
Variable object_mean object_std :
  list (Train.cell (R:=R)) -> option (Train.cell (R:=R)).
Local Abbreviation cell := (Train.cell (R:=R)).
Local Abbreviation zero := (Train.Scalar (R:=R) (num_of_Z 0)).
Local Abbreviation reported metric :=
  (fun tm : gmap string cell =>
     match tm !! metric with
     | Some (Train.Scalar x) => x
     | _ => num_of_Z 0
     end).
Local Abbreviation summarise_column :=
  (Train.summarise_column Series_mean Series_std ndarray_std
                          object_mean object_std).
Local Abbreviation cross_validation_column :=
  (Train.cross_validation_column Series_mean Series_std ndarray_std
                                 object_mean object_std).
Local Abbreviation cross_validation :=
  (Train.cross_validation Series_mean Series_std ndarray_std
                          object_mean object_std).

Lemma setitem_scalar metric (col : list cell) idx (x : R) :
  Train.setitem metric col idx (Train.Scalar x)
  = Some (<[idx := Train.Scalar x]> col).
Proof. unfold Train.setitem. by destruct (decide (metric = "accuracy")). Qed.

Lemma record_folds_from metric (folds : list (gmap string cell))
    (pre : list cell) :
  (forall tm name v,
      tm ∈ folds -> tm !! name = Some v -> exists x, v = Train.Scalar x) ->
  Train.record_folds metric (pre ++ replicate (length folds + 2) zero)
                     (length pre) folds
  = Some (pre ++ (Train.Scalar <$> (reported metric <$> folds))
              ++ [zero; zero]).
Proof.
  revert pre. induction folds as [|tm folds IH]; intros pre Hnum; [done|].
  cbn [Train.record_folds length fmap list_fmap].
  set (v := Train.Scalar (reported metric tm)).
  assert (Hrec : Train.record_fold metric
                   (pre ++ replicate (S (length folds) + 2) zero)
                   (length pre) tm
                 = Some ((pre ++ [v]) ++ replicate (length folds + 2) zero)).
  { unfold Train.record_fold, v. simpl replicate.
    destruct (tm !! metric) as [c|] eqn:Hc.
    - destruct (Hnum tm metric c) as [x ->]; [by left|done|].
      rewrite setitem_scalar. f_equal.
      rewrite insert_app_r_alt by lia. rewrite Nat.sub_diag. simpl.
      by rewrite <- app_assoc.
    - by rewrite <- app_assoc. }
  rewrite Hrec. cbn [mbind option_bind].
  replace (S (length pre)) with (length (pre ++ [v]))
    by (rewrite length_app; simpl; lia).
  rewrite IH.
  - by rewrite <- app_assoc.
  - intros tm' name c Hin. apply Hnum. by right.
Qed.

Lemma record_folds_init metric (folds : list (gmap string cell)) :
  (forall tm name v,
      tm ∈ folds -> tm !! name = Some v -> exists x, v = Train.Scalar x) ->
  Train.record_folds metric (Train.init_column (length folds)) 0 folds
  = Some ((Train.Scalar <$> (reported metric <$> folds)) ++ [zero; zero]).
Proof. apply (record_folds_from metric folds []). Qed.

Lemma scalars_fmap (xs : list R) :
  Train.scalars (Train.Scalar <$> xs) = Some xs.
Proof.
  unfold Train.scalars. induction xs as [|x xs IH]; [done|].
  cbn. cbn in IH. by rewrite IH.
Qed.

Lemma fold_rows_app (vals : list cell) (a b : cell) :
  Train.fold_rows (vals ++ [a; b]) = vals.
Proof.
  unfold Train.fold_rows. rewrite length_app. simpl.
  replace (length vals + 2 - 2) with (length vals) by lia.
  by rewrite take_app_length.
Qed.

Lemma insert_mean_row (xs : list R) (a b m : cell) :
  <[length xs := m]> ((Train.Scalar <$> xs) ++ [a; b])
  = (Train.Scalar <$> xs) ++ [m; b].
Proof.
  assert (Hlen : length (Train.Scalar (R:=R) <$> xs) = length xs)
    by apply length_fmap.
  rewrite insert_app_r_alt by lia. by rewrite Hlen, Nat.sub_diag.
Qed.

Lemma insert_std_row (xs : list R) (a b s : cell) :
  <[S (length xs) := s]> ((Train.Scalar <$> xs) ++ [a; b])
  = (Train.Scalar <$> xs) ++ [a; s].
Proof.
  assert (Hlen : length (Train.Scalar (R:=R) <$> xs) = length xs)
    by apply length_fmap.
  rewrite insert_app_r_alt by lia. rewrite Hlen.
  by replace (S (length xs) - length xs) with 1 by lia.
Qed.

Lemma summarise_scalar_column metric (xs : list R) :
  metric <> "f1score" ->
  summarise_column metric (length xs) ((Train.Scalar <$> xs) ++ [zero; zero])
  = Some ((Train.Scalar <$> xs)
            ++ [Train.Scalar (Series_mean xs); Train.Scalar (Series_std xs)]).
Proof.
  intros Hm. unfold Train.summarise_column.
  rewrite fold_rows_app. unfold Train.series_mean.
  rewrite scalars_fmap. cbn [mbind option_bind].
  rewrite setitem_scalar, insert_mean_row. cbn [mbind option_bind].
  rewrite decide_False by done.
  rewrite fold_rows_app. unfold Train.series_std.
  rewrite scalars_fmap. cbn [mbind option_bind].
  by rewrite setitem_scalar, insert_std_row.
Qed.

Lemma np_vstack_scalars (xs : list R) :
  xs <> [] ->
  Train.np_vstack (Train.Scalar <$> xs) = Some ((fun x => [x]) <$> xs).
Proof.
  intros Hne. destruct xs as [|x xs]; [done|].
  unfold Train.np_vstack. cbn [fmap list_fmap].
  rewrite decide_True.
  - f_equal. change (Train.as_row <$> (Train.Scalar <$> (x :: xs))
                     = (fun x => [x]) <$> (x :: xs)).
    by rewrite <- list_fmap_compose.
  - change (Train.Scalar x :: (Train.Scalar <$> xs))
      with (Train.Scalar (R:=R) <$> (x :: xs)).
    apply Forall_fmap, Forall_forall. done.
Qed.

Lemma summarise_f1_column (xs : list R) (dev : R) :
  xs <> [] ->
  ndarray_std ((fun x => [x]) <$> xs) = [dev] ->
  summarise_column "f1score" (length xs)
    ((Train.Scalar <$> xs) ++ [zero; zero])
  = Some ((Train.Scalar <$> xs)
            ++ [Train.Scalar (Series_mean xs); Train.Scalar dev]).
Proof.
  intros Hne Hdev. unfold Train.summarise_column.
  rewrite fold_rows_app. unfold Train.series_mean.
  rewrite scalars_fmap. cbn [mbind option_bind].
  rewrite setitem_scalar, insert_mean_row. cbn [mbind option_bind].
  rewrite decide_True by done.
  rewrite fold_rows_app, np_vstack_scalars by done.
  cbn [mbind option_bind]. rewrite Hdev.
  unfold Train.setitem. rewrite decide_False by done.
  cbn [Train.float64_item mbind option_bind].
  by rewrite insert_std_row.
Qed.

Lemma cross_validation_table (classes : list string)
    (fold_metrics : list (gmap string cell)) (cols : string -> list cell) :
  (forall metric,
      metric ∈ Train.metric_names classes ->
      cross_validation_column metric fold_metrics = Some (cols metric)) ->
  exists df,
    cross_validation classes fold_metrics = Some df
    /\ (forall metric,
          metric ∈ Train.metric_names classes ->
          df !! metric = Some (cols metric))
    /\ (forall metric,
          (metric ∉ Train.metric_names classes) -> df !! metric = None).
Proof.
  unfold Train.cross_validation.
  generalize (Train.metric_names classes). intros names.
  induction names as [|name names IH]; intros Hcols.
  - exists ∅. split; [done|]. split.
    + intros metric Hin. by apply elem_of_nil in Hin.
    + intros metric _. apply lookup_empty.
  - destruct IH as (df & Hdf & Hin & Hout).
    { intros metric Hm. apply Hcols. by right. }
    exists (<[name := cols name]> df). cbn [foldr]. rewrite Hdf.
    cbn [mbind option_bind]. rewrite Hcols by by left.
    cbn [mbind option_bind]. split; [done|]. split.
    + intros metric Hm. destruct (decide (metric = name)) as [->|Hne].
      * by rewrite lookup_insert_eq.
      * rewrite lookup_insert_ne by done. apply Hin.
        apply elem_of_cons in Hm as [?|?]; done.
    + intros metric Hm. apply not_elem_of_cons in Hm as [Hne Hm].
      rewrite lookup_insert_ne by done. by apply Hout.
Qed.

Lemma cross_validation_columns (metric : string)
    (fold_metrics : list (gmap string cell)) :
  fold_metrics <> [] ->
  (forall tm name v,
      tm ∈ fold_metrics -> tm !! name = Some v ->
      exists x, v = Train.Scalar x) ->
  (forall rows,
      rows <> [] -> Forall (fun r => length r = 1) rows ->
      length (ndarray_std rows) = 1) ->
  let xs := reported metric <$> fold_metrics in
  exists dev,
    ndarray_std ((fun x => [x]) <$> xs) = [dev]
    /\ cross_validation_column metric fold_metrics
       = Some ((Train.Scalar <$> xs)
                 ++ [Train.Scalar (Series_mean xs);
                     Train.Scalar (if decide (metric = "f1score") then dev
                                   else Series_std xs)]).
Proof.
  intros Hne Hnum Hshape xs.
  assert (Hxs : xs <> []).
  { unfold xs. by destruct fold_metrics. }
  assert (Hn : length fold_metrics = length xs).
  { unfold xs. by rewrite length_fmap. }
  assert (Hlen : length (ndarray_std ((fun x => [x]) <$> xs)) = 1).
  { apply Hshape.
    - by destruct xs.
    - apply Forall_fmap, Forall_forall. done. }
  destruct (ndarray_std ((fun x => [x]) <$> xs)) as [|dev [|? ?]] eqn:Hdev;
    try discriminate Hlen.
  exists dev. split; [done|].
  unfold Train.cross_validation_column.
  rewrite record_folds_init by exact Hnum. cbn [mbind option_bind].
  fold xs. rewrite Hn.
  destruct (decide (metric = "f1score")) as [->|Hm].
  - by apply summarise_f1_column.
  - by apply summarise_scalar_column.
Qed.
End cross_validation_facts.

Lemma fold_labels_summary (n_folds : nat) :
  Train.fold_labels n_folds !! n_folds = Some "mean"
  /\ Train.fold_labels n_folds !! S n_folds = Some "std"
  /\ length (Train.fold_labels n_folds) = n_folds + 2.
Proof.
  unfold Train.fold_labels.
  assert (Hlen : length (pretty <$> seq 0 n_folds : list string) = n_folds).
  { by rewrite length_fmap, length_seq. }
  split; [|split].
  - rewrite lookup_app_r by lia. by rewrite Hlen, Nat.sub_diag.
  - rewrite lookup_app_r by lia. rewrite Hlen.
    by replace (S n_folds - n_folds) with 1 by lia.
  - rewrite length_app, Hlen. done.
Qed.

Lemma std_axis0_one_column {R : Type} `{Num R} (rows : list (list R)) :
  rows <> [] -> Forall (fun r => length r = 1) rows ->
  length (Train.std_axis0 1 rows) = 1.
Proof.
  intros Hne Hall. unfold Train.std_axis0.
  rewrite length_fmap, length_seq.
  destruct rows as [|r rows]; [done|]. simpl.
  by apply Forall_cons in Hall as [? _].
Qed.

Lemma sample_fold_metrics_numbers tm name v :
  tm ∈ Train.sample_fold_metrics_no_f1 -> tm !! name = Some v ->
  exists x, v = Train.Scalar x.
Proof.
  intros Hin.
  assert (Hall : Forall (map_Forall (fun (_ : string) (c : Train.cell) =>
                                       exists x : Q, c = Train.Scalar x))
                        Train.sample_fold_metrics_no_f1).
  { repeat constructor;
      repeat (apply map_Forall_insert_2; [by eexists|]);
      apply map_Forall_empty. }
  rewrite Forall_forall in Hall. intros Hv. exact (Hall tm Hin name v Hv).
Qed.

(** The example column in exact arithmetic: the mean and the deviation
    are determined by their defining equations. *)
Lemma example_mean_std (m s : Q) :
  (m * 3 == (8 # 10) + (9 # 10) + (7 # 10))%Q ->
  (s * s * 2 == ((8 # 10) - m) * ((8 # 10) - m)
                + ((9 # 10) - m) * ((9 # 10) - m)
                + ((7 # 10) - m) * ((7 # 10) - m))%Q ->
  (0 <= s)%Q ->
  (m == 4 # 5)%Q /\ (s == 1 # 10)%Q.
Proof.
  intros Hm Hs Hpos.
  assert (Em : (m == 4 # 5)%Q) by lra.
  split; [exact Em|].
  rewrite Em in Hs.
  assert (Hsq : ((s - (1 # 10)) * (s + (1 # 10)) == 0)%Q) by lra.
  apply Qmult_integral in Hsq as [E|E]; lra.
Qed.

(** C6, as stated, fails on the [f1score] column and on the exactness of
    the mean.  Folds that report per-class F1 vectors cannot be recorded:
    the column is float64 and the assignment raises.  With the metric
    list of [train_model], which has no F1 entry, the column keeps its
    zeros and the recorded deviation is the single number 0, not a
    vector.  And in binary64 the mean of 0.8, 0.9 and 0.7 is not 0.8, in
    whichever order the three values are added. *)
Lemma f1score_deviation_not_a_vector :
  Train.record_folds "f1score" (Train.init_column 3) 0
    Train.sample_fold_metrics = None
  /\ Train.cross_validation Np.mean (Np.std 1) (Train.std_axis0 1)
       Train.no_object_reduction Train.no_object_reduction
       ["parenchymal"; "pleural"] Train.sample_fold_metrics = None
  /\ (exists m d : Q,
        Train.cross_validation_column Np.mean (Np.std 1) (Train.std_axis0 1)
          Train.no_object_reduction Train.no_object_reduction
          "f1score" Train.sample_fold_metrics_no_f1
        = Some [Train.Scalar 0%Q; Train.Scalar 0%Q; Train.Scalar 0%Q;
                Train.Scalar m; Train.Scalar d]
        /\ (m == 0)%Q /\ (d == 0)%Q)
  /\ forallb (fun total => negb (PrimFloat.eqb (total / 3) 0.8))
       [ (0.8 + 0.9) + 0.7; (0.8 + 0.7) + 0.9; (0.9 + 0.7) + 0.8 ]%float
     = true.
Proof.
  split; [vm_compute; reflexivity|]. split; [vm_compute; reflexivity|].
  split; [|vm_compute; reflexivity].
  eexists. eexists. split; [vm_compute; reflexivity|].
  split; reflexivity.
Qed.

(** C6 (amended): while every fold reports numbers (as the metrics of
    [train_model] do), the table of [cross_validation] is built, and each
    metric column holds the per-fold values (zero where a fold reported
    nothing), then in the row labelled "mean" what [Series.mean()]
    returns for these values and in the row labelled "std" what
    [Series.std()] returns for them, pandas' sample deviation
    ([ddof=1]); for the [f1score] column the "std" row holds the single
    number that NumPy's [std(axis=0, ddof=1)] returns for the values
    stacked as one column.  For accuracies 0.8, 0.9, 0.7 the mean, defined
    by [3 * mean = sum], is 4/5 and the deviation, defined by
    [2 * std^2 = sum (x - mean)^2], is 1/10 in exact arithmetic (with the
    divisor 3 it would not be); computed in binary64 by the two-pass
    formulas they lie within 2^-50 of 0.8 and 0.1. *)
Theorem cross_validation_summary (R : Type) (HR : Num R)
    (Series_mean Series_std : list R -> R)
    (ndarray_std : list (list R) -> list R)
    (object_mean object_std :
       list (Train.cell (R:=R)) -> option (Train.cell (R:=R)))
    (classes : list string)
    (fold_metrics : list (gmap string (Train.cell (R:=R)))) :
  fold_metrics <> [] ->
  NoDup classes ->
  (forall tm name v,
      tm ∈ fold_metrics -> tm !! name = Some v ->
      exists x, v = Train.Scalar x) ->
  (forall rows,
      rows <> [] -> Forall (fun r => length r = 1) rows ->
      length (ndarray_std rows) = 1) ->
  let n_folds := length fold_metrics in
  let values := fun metric =>
    (fun tm : gmap string (Train.cell (R:=R)) =>
       match tm !! metric with
       | Some (Train.Scalar x) => x
       | _ => num_of_Z 0
       end) <$> fold_metrics in
  (exists df,
      Train.cross_validation Series_mean Series_std ndarray_std
        object_mean object_std classes fold_metrics = Some df
      /\ (forall metric,
            metric ∈ Train.metric_names classes -> metric <> "f1score" ->
            df !! metric
            = Some ((Train.Scalar <$> values metric)
                      ++ [Train.Scalar (Series_mean (values metric));
                          Train.Scalar (Series_std (values metric))]))
      /\ (exists dev,
            ndarray_std ((fun x => [x]) <$> values "f1score") = [dev]
            /\ df !! "f1score"
               = Some ((Train.Scalar <$> values "f1score")
                         ++ [Train.Scalar (Series_mean (values "f1score"));
                             Train.Scalar dev]))
      /\ (forall metric,
            (metric ∉ Train.metric_names classes) -> df !! metric = None))
  /\ Train.fold_labels n_folds !! n_folds = Some "mean"
  /\ Train.fold_labels n_folds !! S n_folds = Some "std"
  /\ (forall (mean std : list Q -> Q) (nd : list (list Q) -> list Q)
             (om os : list (Train.cell (R:=Q)) -> option (Train.cell (R:=Q))),
        let xs := [8 # 10; 9 # 10; 7 # 10] in
        (mean xs * 3 == (8 # 10) + (9 # 10) + (7 # 10))%Q ->
        (std xs * std xs * 2
         == ((8 # 10) - mean xs) * ((8 # 10) - mean xs)
            + ((9 # 10) - mean xs) * ((9 # 10) - mean xs)
            + ((7 # 10) - mean xs) * ((7 # 10) - mean xs))%Q ->
        (0 <= std xs)%Q ->
        Train.cross_validation_column mean std nd om os "accuracy"
          Train.sample_fold_metrics_no_f1
        = Some [Train.Scalar (8 # 10); Train.Scalar (9 # 10);
                Train.Scalar (7 # 10); Train.Scalar (mean xs);
                Train.Scalar (std xs)]
        /\ (mean xs == 4 # 5)%Q /\ (std xs == 1 # 10)%Q)
  /\ ~ ((1 # 10) * (1 # 10) * 3
        == ((8 # 10) - (4 # 5)) * ((8 # 10) - (4 # 5))
           + ((9 # 10) - (4 # 5)) * ((9 # 10) - (4 # 5))
           + ((7 # 10) - (4 # 5)) * ((7 # 10) - (4 # 5)))%Q
  /\ (exists m s : float,
        Train.cross_validation_column Np.mean (Np.std 1) (Train.std_axis0 1)
          Train.no_object_reduction Train.no_object_reduction "accuracy"
          (Train.test_metrics_dict Train.train_model_metrics_names
             <$> Train.sample_fold_results)
        = Some [Train.Scalar 0.8%float; Train.Scalar 0.9%float;
                Train.Scalar 0.7%float; Train.Scalar m; Train.Scalar s]
        /\ PrimFloat.leb (PrimFloat.abs (m - 0.8))%float 0x1p-50%float = true
        /\ PrimFloat.leb (PrimFloat.abs (s - 0.1))%float 0x1p-50%float = true).
Proof.
  intros Hne Hnd Hnum Hshape n_folds values.
  destruct (fold_labels_summary n_folds) as (Hmean & Hstd & _).
  split; [|split; [exact Hmean|split; [exact Hstd|split; [|split]]]].
  - destruct (cross_validation_table Series_mean Series_std ndarray_std
                object_mean object_std classes fold_metrics
                (fun metric =>
                   (Train.Scalar <$> values metric)
                     ++ [Train.Scalar (Series_mean (values metric));
                         Train.Scalar
                           (if decide (metric = "f1score")
                            then default (num_of_Z 0)
                                   (ndarray_std ((fun x => [x])
                                                   <$> values metric) !! 0)
                            else Series_std (values metric))]))
      as (df & Hdf & Hin & Hout).
    { intros metric _.
      destruct (cross_validation_columns Series_mean Series_std ndarray_std
                  object_mean object_std metric fold_metrics Hne Hnum Hshape)
        as (dev & Hdev & Hcol).
      fold (values metric) in Hdev, Hcol. rewrite Hcol, Hdev. done. }
    exists df. split; [exact Hdf|]. split; [|split; [|exact Hout]].
    + intros metric Hm Hf1. rewrite (Hin metric Hm).
      by rewrite decide_False by done.
    + destruct (cross_validation_columns Series_mean Series_std ndarray_std
                  object_mean object_std "f1score" fold_metrics Hne Hnum
                  Hshape) as (dev & Hdev & _).
      fold (values "f1score") in Hdev.
      exists dev. split; [exact Hdev|].
      rewrite Hin.
      * rewrite decide_True by done. by rewrite Hdev.
      * unfold Train.metric_names. right. right. by left.
  - intros mean std nd om os xs Hm Hs Hpos.
    split; [vm_compute; reflexivity|].
    by apply example_mean_std.
  - intros E. vm_compute in E. discriminate E.
  - eexists. eexists. split; [vm_compute; reflexivity|].
    split; vm_compute; reflexivity.
Qed.

Lemma cross_validation_summary_witness :
  Train.sample_fold_metrics_no_f1 <> []
  /\ NoDup ["parenchymal"; "pleural"]
  /\ exists df,
       Train.cross_validation Np.mean (Np.std 1) (Train.std_axis0 1)
         Train.no_object_reduction Train.no_object_reduction
         ["parenchymal"; "pleural"] Train.sample_fold_metrics_no_f1
       = Some df
       /\ df !! "accuracy"
          = Some [Train.Scalar (8 # 10); Train.Scalar (9 # 10);
                  Train.Scalar (7 # 10);
                  Train.Scalar (Np.mean [8 # 10; 9 # 10; 7 # 10]);
                  Train.Scalar (Np.std 1 [8 # 10; 9 # 10; 7 # 10])]
       /\ df !! "loss" = None.
Proof.
  assert (Hne : Train.sample_fold_metrics_no_f1 <> []) by discriminate.
  assert (Hnd : NoDup ["parenchymal"; "pleural"]).
  { apply (bool_decide_unpack _). vm_compute. exact I. }
  split; [exact Hne|]. split; [exact Hnd|].
  destruct (cross_validation_summary Q Q_Num Np.mean (Np.std 1)
              (Train.std_axis0 1) Train.no_object_reduction
              Train.no_object_reduction ["parenchymal"; "pleural"]
              Train.sample_fold_metrics_no_f1 Hne Hnd
              sample_fold_metrics_numbers std_axis0_one_column)
    as ((df & Hdf & Hcols & _ & Hout) & _).
  exists df. split; [exact Hdf|]. split.
  - apply (Hcols "accuracy"); [|discriminate].
    apply (bool_decide_unpack _). vm_compute. exact I.
  - apply Hout. apply (bool_decide_unpack _). vm_compute. exact I.
Defined.

(** ** Augmentation stage *)

Lemma has_shape_map {R : Type} (f : R -> R) (n h w c : nat)
    (x : list (list (list (list R)))) :
  Preprocessor.has_shape n h w c x ->
  Preprocessor.has_shape n h w c (map (map (map (map f))) x).
Proof.
  intros [Hn Himgs]. split; [by rewrite length_map|].
  apply Forall_fmap. eapply Forall_impl; [exact Himgs|].
  intros img [Hh Hrows]. simpl. split; [by rewrite length_map|].
  apply Forall_fmap. eapply Forall_impl; [exact Hrows|].
  intros r [Hw Hpx]. simpl. split; [by rewrite length_map|].
  apply Forall_fmap. eapply Forall_impl; [exact Hpx|].
  intros px Hc. simpl. by rewrite length_map.
Qed.

Lemma has_shape_flip {R : Type} (n h w c : nat)
    (x : list (list (list (list R)))) :
  Preprocessor.has_shape n h w c x ->
  Preprocessor.has_shape n h w c (map (map (@reverse (list R))) x).
Proof.
  intros [Hn Himgs]. split; [by rewrite length_map|].
  apply Forall_fmap. eapply Forall_impl; [exact Himgs|].
  intros img [Hh Hrows]. simpl. split; [by rewrite length_map|].
  apply Forall_fmap. eapply Forall_impl; [exact Hrows|].
  intros r [Hw Hpx]. simpl. split; [by rewrite length_reverse|].
  by apply Forall_reverse.
Qed.

Section augmentation_facts.
Context {R : Type} `{Num R} {rng : Type}.
Variable stateless_random_uniform : Z * Z -> R -> R -> R.
Variable RandomContrast RandomFlip RandomRotation RandomZoom :
rng -> list (list (list (list R))) -> list (list (list (list R))) * rng.

(** Keras documents each of the four layers as returning a tensor of
  the shape of its input. *)
Hypothesis contrast_shape : forall g x n h w c,
Preprocessor.has_shape n h w c x ->
Preprocessor.has_shape n h w c (RandomContrast g x).1.
Hypothesis flip_shape : forall g x n h w c,
Preprocessor.has_shape n h w c x ->
Preprocessor.has_shape n h w c (RandomFlip g x).1.
Hypothesis rotation_shape : forall g x n h w c,
Preprocessor.has_shape n h w c x ->
Preprocessor.has_shape n h w c (RandomRotation g x).1.
Hypothesis zoom_shape : forall g x n h w c,
Preprocessor.has_shape n h w c x ->
Preprocessor.has_shape n h w c (RandomZoom g x).1.

Lemma data_augmentation_shape (brightness_range : R) (g : rng)
  (x : list (list (list (list R)))) :
num_ltb brightness_range (num_of_Z 0) = false ->
exists x' g',
  Preprocessor.data_augmentation stateless_random_uniform
    RandomContrast RandomFlip RandomRotation RandomZoom
    brightness_range g x = Some (x', g')
  /\ forall n h w c,
       Preprocessor.has_shape n h w c x ->
       Preprocessor.has_shape n h w c x'.
Proof using contrast_shape flip_shape rotation_shape zoom_shape.
intros Hfactor.
unfold Preprocessor.data_augmentation, Preprocessor.RandomBrightness_call,
  Preprocessor.stateless_random_brightness.
rewrite Hfactor. simpl.
set (x0 := Preprocessor.adjust_brightness x _).
pose proof (contrast_shape g x0) as H1.
destruct (RandomContrast g x0) as [x1 g1].
pose proof (flip_shape g1 x1) as H2.
destruct (RandomFlip g1 x1) as [x2 g2].
pose proof (rotation_shape g2 x2) as H3.
destruct (RandomRotation g2 x2) as [x3 g3].
pose proof (zoom_shape g3 x3) as H4.
destruct (RandomZoom g3 x3) as [x4 g4].
exists x4, g4. split; [done|].
intros n h w c Hx. apply H4, H3, H2, H1.
unfold x0, Preprocessor.adjust_brightness. by apply has_shape_map.
Qed.

(** C8: when the brightness factor is not negative, the augmentation
  stage of [prepare] succeeds on every data set and returns the same
  number of batches in the same order; in every batch the labels are
  the input labels unchanged, and a batch of N images of given height,
  width and channel count is again a batch of N images of that height,
  width and channel count. *)
Theorem augmentation_keeps_pairs (brightness_range : R) (g : rng)
  (ds : list (list (list (list (list R))) * list Z)) :
num_ltb brightness_range (num_of_Z 0) = false ->
exists out g',
  Preprocessor.augment_stage stateless_random_uniform
    RandomContrast RandomFlip RandomRotation RandomZoom
    true brightness_range g ds = Some (out, g')
  /\ length out = length ds
  /\ out.*2 = ds.*2
  /\ Forall2 (fun b b' =>
                b'.2 = b.2
                /\ forall n h w c,
                     Preprocessor.has_shape n h w c b.1 ->
                     Preprocessor.has_shape n h w c b'.1) ds out.
Proof using contrast_shape flip_shape rotation_shape zoom_shape.
intros Hfactor.
unfold Preprocessor.augment_stage, Preprocessor.map_augment,
  Preprocessor.trace_augmentation.
rewrite Hfactor. cbn [mbind option_bind].
revert g. induction ds as [|[x y] ds IH]; intros g.
- exists [], g. by repeat split.
- destruct (data_augmentation_shape brightness_range g x Hfactor)
    as (x' & g1 & Hx & Hshape).
  destruct (IH g1) as (out & g2 & Hout & Hlen & Hlabels & Hall).
  exists ((x', y) :: out), g2.
  cbn [Preprocessor.map_batches]. rewrite Hx. simpl. rewrite Hout. simpl.
  split; [done|]. split; [simpl; by rewrite Hlen|].
  split; [cbn [fmap list_fmap snd]; by f_equal|].
  constructor; [|done]. by split.
Qed.
End augmentation_facts.

Lemma contrast_layer_shape g x n h w c :
  Preprocessor.has_shape n h w c x ->
  Preprocessor.has_shape n h w c (Preprocessor.contrast_layer g x).1.
Proof. apply has_shape_map. Qed.

Lemma flip_layer_shape g x n h w c :
  Preprocessor.has_shape n h w c x ->
  Preprocessor.has_shape n h w c (Preprocessor.flip_layer g x).1.
Proof.
  unfold Preprocessor.flip_layer. simpl.
  destruct (Nat.odd g); [apply has_shape_flip|done].
Qed.

Lemma still_layer_shape g x n h w c :
  Preprocessor.has_shape n h w c x ->
  Preprocessor.has_shape n h w c (Preprocessor.still_layer g x).1.
Proof. done. Qed.

Lemma augmentation_keeps_pairs_witness :
  num_ltb (1 # 10)%Q (num_of_Z 0) = false
  /\ exists out g',
       Preprocessor.augment_stage Preprocessor.seeded_uniform
         Preprocessor.contrast_layer Preprocessor.flip_layer
         Preprocessor.still_layer Preprocessor.still_layer
         true (1 # 10)%Q 0%nat Preprocessor.sample_batches = Some (out, g')
       /\ length out = 2%nat
       /\ out.*2 = [[0; 1]; [1]]%Z.
Proof.
  assert (Hfactor : num_ltb (1 # 10)%Q (num_of_Z 0) = false) by reflexivity.
  split; [exact Hfactor|].
  destruct (augmentation_keeps_pairs Preprocessor.seeded_uniform
              Preprocessor.contrast_layer Preprocessor.flip_layer
              Preprocessor.still_layer Preprocessor.still_layer
              contrast_layer_shape flip_layer_shape
              still_layer_shape still_layer_shape
              (1 # 10)%Q 0%nat Preprocessor.sample_batches Hfactor)
    as (out & g' & Hout & Hlen & Hlabels & _).
  exists out, g'. split; [exact Hout|]. split; [exact Hlen|exact Hlabels].
Defined.

(** ** Brightness layer *)

(** C9: [RandomBrightness.call] draws its shift from the stateless
    uniform sampler with the fixed seed pair (123, 0) and bounds
    [-factor, factor]; the result does not depend on the state of the
    random generator and leaves that state untouched, so for a fixed image
    and factor any two calls, in one run or in two, return the same
    tensor. *)
Theorem random_brightness_fixed_seed (R : Type) (HR : Num R) (rng : Type)
    (stateless_random_uniform : Z * Z -> R -> R -> R) (factor : R)
    (g1 g2 : rng) (image : list (list (list (list R)))) :
  Preprocessor.RandomBrightness_call stateless_random_uniform factor g1 image
  = (if num_ltb factor (num_of_Z 0) then None
     else Some (Preprocessor.adjust_brightness image
                  (stateless_random_uniform (123, 0)%Z (num_opp factor) factor),
                g1))
  /\ fst <$> Preprocessor.RandomBrightness_call stateless_random_uniform
               factor g1 image
     = fst <$> Preprocessor.RandomBrightness_call stateless_random_uniform
                 factor g2 image
  /\ snd <$> Preprocessor.RandomBrightness_call stateless_random_uniform
               factor g1 image
     = (fun _ => g1) <$> Preprocessor.RandomBrightness_call
                           stateless_random_uniform factor g1 image.
Proof.
  unfold Preprocessor.RandomBrightness_call,
    Preprocessor.stateless_random_brightness.
  destruct (num_ltb factor (num_of_Z 0)); by repeat split.
Qed.

(** ** Rounding of prediction scores *)





(** * Further properties *)

(** ** Clip names *)

Lemma rsplit_head_no_underscore (l : list ascii) :
  "_"%char ∉ l -> Train.rsplit_head l = None.
Proof.
  induction l as [|c l IH]; intros Hnot; [done|].
  simpl. rewrite IH by (intros Hin; apply Hnot; by right).
  rewrite decide_False; [done|]. intros ->. apply Hnot. by left.
Qed.

Lemma rsplit_head_last_underscore (prefix suffix : list ascii) :
  "_"%char ∉ suffix ->
  Train.rsplit_head (prefix ++ "_"%char :: suffix) = Some prefix.
Proof.
  intros Hnot. induction prefix as [|c prefix IH]; simpl.
  - by rewrite rsplit_head_no_underscore.
  - by rewrite IH.
Qed.

Lemma list_ascii_of_string_append (s1 s2 : string) :
  list_ascii_of_string (s1 +:+ s2)
  = list_ascii_of_string s1 ++ list_ascii_of_string s2.
Proof. induction s1 as [|c s1 IH]; [done|]. simpl. by rewrite IH. Qed.

(** X1: the clip name that [partition_dataset] gives a frame is its path
    up to the last underscore: two frame paths that differ only after
    their last underscore get the same clip, and a path without an
    underscore is its own clip. *)
Theorem clip_of_drops_last_segment (prefix suffix other : string) :
  "_"%char ∉ list_ascii_of_string suffix ->
  "_"%char ∉ list_ascii_of_string other ->
  Train.clip_of (prefix +:+ "_" +:+ suffix) = prefix
  /\ Train.clip_of (prefix +:+ "_" +:+ other)
     = Train.clip_of (prefix +:+ "_" +:+ suffix)
  /\ Train.clip_of suffix = suffix.
Proof.
  intros Hs Ho.
  assert (Hgen : forall tail, "_"%char ∉ list_ascii_of_string tail ->
            Train.clip_of (prefix +:+ "_" +:+ tail) = prefix).
  { intros tail Ht. unfold Train.clip_of.
    rewrite list_ascii_of_string_append. simpl.
    rewrite rsplit_head_last_underscore by done.
    apply string_of_list_ascii_of_string. }
  split; [by apply Hgen|]. split; [by rewrite !Hgen|].
  unfold Train.clip_of. by rewrite rsplit_head_no_underscore.
Qed.

Lemma clip_of_drops_last_segment_witness :
  ("_"%char ∉ list_ascii_of_string "0001.jpg")
  /\ ("_"%char ∉ list_ascii_of_string "0002.jpg")
  /\ Train.clip_of "patientA_clip1_0001.jpg" = "patientA_clip1"
  /\ Train.clip_of "patientA_clip1_0002.jpg"
     = Train.clip_of "patientA_clip1_0001.jpg".
Proof.
  assert (H1 : "_"%char ∉ list_ascii_of_string "0001.jpg").
  { apply (bool_decide_unpack _). vm_compute. exact I. }
  assert (H2 : "_"%char ∉ list_ascii_of_string "0002.jpg").
  { apply (bool_decide_unpack _). vm_compute. exact I. }
  split; [exact H1|]. split; [exact H2|].
  destruct (clip_of_drops_last_segment "patientA_clip1" "0001.jpg" "0002.jpg"
              H1 H2) as (Ha & Hb & _).
  split; [exact Ha|exact Hb].
Defined.

(** ** Clip tables *)

Lemma clip_keys_NoDup frames : NoDup (Train.clip_keys frames).
Proof.
  unfold Train.clip_keys. rewrite merge_sort_Permutation.
  apply NoDup_remove_dups.
Qed.

Lemma elem_of_clip_keys frames key :
  key ∈ Train.clip_keys frames <-> key ∈ Train.Clip <$> frames.
Proof.
  unfold Train.clip_keys.
  by rewrite merge_sort_Permutation, elem_of_remove_dups.
Qed.

Lemma first_of_clip_Some frames key :
  key ∈ Train.Clip <$> frames ->
  exists f, Train.first_of_clip frames key = Some f
            /\ f ∈ frames /\ Train.Clip f = key.
Proof.
  intros (f & -> & Hf)%list_elem_of_fmap. unfold Train.first_of_clip.
  destruct (list_find_elem_of (fun g => Train.Clip g = Train.Clip f)
              frames f Hf eq_refl) as [[i g] Hfind].
  rewrite Hfind. exists g. simpl. split; [done|].
  apply list_find_Some in Hfind as (Hi & Hg & _).
  split; [|done]. by eapply list_elem_of_lookup_2.
Qed.

Lemma string_le_total : Total Train.string_le.
Proof. intros a b. apply String.leb_total. Qed.

Lemma clip_keys_sorted frames :
  Sorted Train.string_le (Train.clip_keys frames).
Proof.
  unfold Train.clip_keys. apply Sorted_merge_sort, string_le_total.
Qed.

Lemma clips_table_filenames frames :
  Train.filename <$> Train.clips_table frames = Train.clip_keys frames.
Proof.
  unfold Train.clips_table.
  assert (Hgen : forall keys,
    Forall (fun key => key ∈ Train.Clip <$> frames) keys ->
    Train.filename <$>
      omap (fun key =>
              f ← Train.first_of_clip frames key;
              Some (Train.ClipRow key (Train.Class (Train.row f))
                      (Train.Class_Name (Train.row f))
                      (Train.Patient (Train.row f)))) keys
    = keys).
  { induction 1 as [|key keys Hkey _ IH]; [done|].
    destruct (first_of_clip_Some frames key Hkey) as (f & Hf & _).
    cbn [omap list_omap]. rewrite Hf. cbn. by f_equal. }
  apply Hgen, Forall_forall. intros key. apply elem_of_clip_keys.
Qed.

(** X2: the clip-level table of a partition has exactly one row per clip
    name occurring in it, in sorted order of the names, and never more
    rows than there are frames; each row carries the class, class name
    and patient of the first frame of its clip, so every patient of the
    clip table is a patient of the partition. *)
Theorem clips_table_one_row_per_clip (frames : list Train.clip_frame) :
  NoDup (Train.filename <$> Train.clips_table frames)
  /\ Sorted Train.string_le (Train.filename <$> Train.clips_table frames)
  /\ (forall key, key ∈ Train.filename <$> Train.clips_table frames
                  <-> key ∈ Train.Clip <$> frames)
  /\ length (Train.clips_table frames) <= length frames
  /\ (forall r, r ∈ Train.clips_table frames ->
        exists i f,
          frames !! i = Some f
          /\ Train.Clip f = Train.filename r
          /\ (forall j g, frames !! j = Some g ->
                Train.Clip g = Train.filename r -> i <= j)
          /\ Train.clip_Class r = Train.Class (Train.row f)
          /\ Train.clip_Class_Name r = Train.Class_Name (Train.row f)
          /\ Train.clip_Patient r = Train.Patient (Train.row f))
  /\ (forall p, p ∈ Train.clip_Patient <$> Train.clips_table frames ->
                p ∈ Train.patients frames).
Proof.
  assert (Hrows : forall r, r ∈ Train.clips_table frames ->
    exists i f,
      frames !! i = Some f
      /\ Train.Clip f = Train.filename r
      /\ (forall j g, frames !! j = Some g ->
            Train.Clip g = Train.filename r -> i <= j)
      /\ Train.clip_Class r = Train.Class (Train.row f)
      /\ Train.clip_Class_Name r = Train.Class_Name (Train.row f)
      /\ Train.clip_Patient r = Train.Patient (Train.row f)).
  { intros r. unfold Train.clips_table.
    rewrite list_elem_of_omap. intros (key & _ & Hr).
    unfold Train.first_of_clip in Hr.
    destruct (list_find _ frames) as [[i f]|] eqn:Hfind; simpl in Hr; [|done].
    injection Hr as <-. simpl.
    apply list_find_Some in Hfind as (Hi & Hf & Hmin).
    exists i, f. split; [done|]. split; [done|]. split; [|done].
    intros j g Hj Hg. destruct (decide (i <= j)) as [|Hlt]; [done|].
    exfalso. apply (Hmin j g Hj); [lia|done]. }
  split; [|split; [|split; [|split; [|split]]]].
  - rewrite clips_table_filenames. apply clip_keys_NoDup.
  - rewrite clips_table_filenames. apply clip_keys_sorted.
  - intros key. rewrite clips_table_filenames. apply elem_of_clip_keys.
  - rewrite <- (length_fmap Train.filename), clips_table_filenames.
    rewrite <- (length_fmap Train.Clip frames).
    apply submseteq_length, NoDup_submseteq; [apply clip_keys_NoDup|].
    intros key. apply elem_of_clip_keys.
  - exact Hrows.
  - intros p (r & -> & Hr)%list_elem_of_fmap.
    destruct (Hrows r Hr) as (i & f & Hi & _ & _ & _ & _ & Hp).
    rewrite Hp. unfold Train.patients.
    apply (list_elem_of_fmap_2 (fun r => Train.Patient (Train.row r))).
    by eapply list_elem_of_lookup_2.
Qed.

(** ** Clips across the partitions *)

Lemma elem_of_select_clips pts frame_df key :
  key ∈ Train.Clip <$> Train.select_frames pts frame_df
  <-> exists f, f ∈ frame_df /\ Train.Patient f ∈ pts
                /\ Train.clip_of (Train.Frame_Path f) = key.
Proof.
  unfold Train.select_frames. rewrite <- list_fmap_compose.
  rewrite list_elem_of_fmap. split.
  - intros (f & -> & [Hp Hf]%list_elem_of_filter). by exists f.
  - intros (f & Hf & Hp & <-). exists f. split; [done|].
    by apply list_elem_of_filter.
Qed.

Lemma clips_table_names part key :
  key ∈ Train.filename <$> Train.clips_table part
  <-> key ∈ Train.Clip <$> part.
Proof. rewrite clips_table_filenames. apply elem_of_clip_keys. Qed.

Lemma clips_table_length part :
  length (Train.clips_table part)
  = length (remove_dups (Train.Clip <$> part)).
Proof.
  rewrite <- (length_fmap Train.filename), clips_table_filenames.
  unfold Train.clip_keys. by rewrite merge_sort_Permutation.
Qed.

Section clip_partition_facts.
Context {R : Type} `{Num R}.
Variable train_test_split :
  list string -> R -> Z -> option (list string * list string).
Hypothesis split_covers : forall pts size seed a b,
  train_test_split pts size seed = Some (a, b) -> a ++ b ≡ₚ pts.

(** X3: when the frames of one clip belong to one patient, the clip
    tables of the train, validation and test partitions share no clip,
    every clip of the frame table is in one of them, and their row
    counts add up to the number of distinct clips. *)
Theorem partition_clips_disjoint frame_df seed val_split test_split
    train_df val_df test_df :
  (forall f g, f ∈ frame_df -> g ∈ frame_df ->
     Train.clip_of (Train.Frame_Path f) = Train.clip_of (Train.Frame_Path g) ->
     Train.Patient f = Train.Patient g) ->
  Train.partition_dataset train_test_split frame_df seed val_split test_split
    = Some (train_df, val_df, test_df) ->
  (forall key, key ∈ Train.filename <$> Train.clips_table train_df ->
     (key ∉ Train.filename <$> Train.clips_table val_df)
     /\ (key ∉ Train.filename <$> Train.clips_table test_df))
  /\ (forall key, key ∈ Train.filename <$> Train.clips_table val_df ->
        key ∉ Train.filename <$> Train.clips_table test_df)
  /\ (forall key,
        key ∈ (fun f => Train.clip_of (Train.Frame_Path f)) <$> frame_df
        <-> key ∈ Train.filename <$> Train.clips_table train_df
            \/ key ∈ Train.filename <$> Train.clips_table val_df
            \/ key ∈ Train.filename <$> Train.clips_table test_df)
  /\ length (Train.clips_table train_df) + length (Train.clips_table val_df)
     + length (Train.clips_table test_df)
     = length (remove_dups ((fun f => Train.clip_of (Train.Frame_Path f))
                              <$> frame_df)).
Proof using split_covers.
  intros Hclip. unfold Train.partition_dataset. intros Hp.
  destruct (Train.partition_patients _ _ _ _ _) as [[[tr va] te]|] eqn:Hpts;
    simpl in Hp; [|done].
  injection Hp as <- <- <-.
  pose proof (partition_patients_perm _ split_covers _ _ _ _ _ _ _ Hpts)
    as Hperm.
  assert (Hnd : NoDup (tr ++ va ++ te)).
  { rewrite Hperm. apply unique_NoDup. }
  apply NoDup_app in Hnd as (_ & Htr & Hnd).
  apply NoDup_app in Hnd as (_ & Hva & _).
  assert (Hcover : forall f, f ∈ frame_df ->
                             Train.Patient f ∈ tr ++ va ++ te).
  { intros f Hf. rewrite Hperm. apply elem_of_unique.
    by apply list_elem_of_fmap_2. }
  assert (Hdisj : forall pts pts' key,
    (forall p, p ∈ pts -> p ∉ pts') ->
    key ∈ Train.filename <$> Train.clips_table
                               (Train.select_frames pts frame_df) ->
    key ∉ Train.filename <$> Train.clips_table
                               (Train.select_frames pts' frame_df)).
  { intros pts pts' key Hpp.
    rewrite !clips_table_names, !elem_of_select_clips.
    intros (f & Hf & Hfp & Hfk) (g & Hg & Hgp & Hgk).
    apply (Hpp _ Hfp). rewrite (Hclip f g Hf Hg); [done|congruence]. }
  assert (Hall : forall key,
    key ∈ (fun f => Train.clip_of (Train.Frame_Path f)) <$> frame_df
    <-> key ∈ Train.filename <$> Train.clips_table
                                   (Train.select_frames tr frame_df)
        \/ key ∈ Train.filename <$> Train.clips_table
                                      (Train.select_frames va frame_df)
        \/ key ∈ Train.filename <$> Train.clips_table
                                      (Train.select_frames te frame_df)).
  { intros key. rewrite !clips_table_names, !elem_of_select_clips.
    rewrite list_elem_of_fmap. split.
    - intros (f & -> & Hf). specialize (Hcover f Hf).
      rewrite !elem_of_app in Hcover.
      destruct Hcover as [?|[?|?]]; [left|right; left|right; right];
        by exists f.
    - intros [(f & ? & _ & <-)|[(f & ? & _ & <-)|(f & ? & _ & <-)]];
        by exists f. }
  assert (Htrva : forall p, p ∈ tr -> p ∉ va).
  { intros p Hp Hc. apply (Htr _ Hp). apply elem_of_app. by left. }
  assert (Htrte : forall p, p ∈ tr -> p ∉ te).
  { intros p Hp Hc. apply (Htr _ Hp). apply elem_of_app. by right. }
  split; [|split; [|split]].
  - intros key Hkey. split; [by apply (Hdisj tr va)|by apply (Hdisj tr te)].
  - intros key. by apply (Hdisj va te).
  - exact Hall.
  - rewrite !clips_table_length, <- Nat.add_assoc, <- !length_app.
    apply Permutation_length, NoDup_Permutation.
    + apply NoDup_app. split; [apply NoDup_remove_dups|]. split.
      * intros key Hk. rewrite elem_of_app, !elem_of_remove_dups.
        rewrite <- !clips_table_names. rewrite elem_of_remove_dups in Hk.
        rewrite <- clips_table_names in Hk.
        intros [Hc|Hc].
        -- by apply (Hdisj tr va key Htrva Hk).
        -- by apply (Hdisj tr te key Htrte Hk).
      * apply NoDup_app. split; [apply NoDup_remove_dups|].
        split; [|apply NoDup_remove_dups].
        intros key Hk. rewrite elem_of_remove_dups, <- clips_table_names.
        rewrite elem_of_remove_dups, <- clips_table_names in Hk.
        by apply (Hdisj va te key Hva Hk).
    + apply NoDup_remove_dups.
    + intros key. rewrite !elem_of_app, !elem_of_remove_dups.
      rewrite <- !clips_table_names. rewrite Hall. tauto.
Qed.
End clip_partition_facts.

Lemma sample_frames_clips f g :
  f ∈ Train.sample_frames -> g ∈ Train.sample_frames ->
  Train.clip_of (Train.Frame_Path f) = Train.clip_of (Train.Frame_Path g) ->
  Train.Patient f = Train.Patient g.
Proof.
  intros Hf Hg.
  assert (Hall : Forall (fun f => Forall (fun g =>
            Train.clip_of (Train.Frame_Path f)
              = Train.clip_of (Train.Frame_Path g) ->
            Train.Patient f = Train.Patient g) Train.sample_frames)
          Train.sample_frames).
  { apply (bool_decide_unpack _). vm_compute. exact I. }
  rewrite Forall_forall in Hall. specialize (Hall f Hf).
  rewrite Forall_forall in Hall. by apply Hall.
Qed.

Lemma partition_clips_disjoint_witness :
  let train_df := Train.select_frames ["p3"; "p4"; "p5"] Train.sample_frames in
  let val_df := Train.select_frames ["p2"] Train.sample_frames in
  let test_df := Train.select_frames ["p1"] Train.sample_frames in
  (forall pts size seed a b,
     Train.ordered_split pts size seed = Some (a, b) -> a ++ b ≡ₚ pts)
  /\ Train.partition_dataset Train.ordered_split Train.sample_frames 0
       (1 # 5) (1 # 5)
     = Some (train_df, val_df, test_df)
  /\ (forall key, key ∈ Train.filename <$> Train.clips_table val_df ->
        key ∉ Train.filename <$> Train.clips_table test_df)
  /\ length (Train.clips_table train_df) + length (Train.clips_table val_df)
     + length (Train.clips_table test_df) = 5.
Proof.
  intros train_df val_df test_df.
  assert (Hrun : Train.partition_dataset Train.ordered_split
                   Train.sample_frames 0 (1 # 5) (1 # 5)
                 = Some (train_df, val_df, test_df)).
  { vm_compute. reflexivity. }
  split; [exact ordered_split_covers|]. split; [exact Hrun|].
  destruct (partition_clips_disjoint Train.ordered_split
              ordered_split_covers _ _ _ _ _ _ _ sample_frames_clips Hrun)
    as (_ & H2 & _ & H4).
  split; [exact H2|]. rewrite H4. vm_compute. reflexivity.
Defined.

(** ** Class weights balance the classes *)

Lemma class_weight_times_count (n total k : Z) :
  n <> 0%Z -> k <> 0%Z ->
  (Train.class_weight_formula (R:=Q) n total k * inject_Z k
   == inject_Z total / inject_Z n)%Q.
Proof.
  intros Hn Hk. unfold Train.class_weight_formula. simpl.
  assert (~ inject_Z n == 0)%Q.
  { change 0%Q with (inject_Z 0). rewrite inject_Z_injective. lia. }
  assert (~ inject_Z k == 0)%Q.
  { change 0%Q with (inject_Z 0). rewrite inject_Z_injective. lia. }
  field. split; assumption.
Qed.

Lemma foldl_Qplus_constant (c : Q) (l : list Q) (a : Q) :
  Forall (fun x => (x == c)%Q) l ->
  (foldl Qplus a l == a + inject_Z (Z.of_nat (length l)) * c)%Q.
Proof.
  intros Hall. revert a. induction Hall as [|x l Hx _ IH]; intros a.
  - simpl. ring.
  - cbn [foldl length]. rewrite IH, Hx, Nat2Z.inj_succ.
    unfold Z.succ. rewrite inject_Z_plus. ring.
Qed.

(** X4: in exact arithmetic, the weight of a class times its count is
    the same for every class, [total / num_classes], and the weighted
    counts add up to the total count: the weights even out the classes
    and leave the total unchanged. *)
Theorem class_weights_balance (histogram : list Z) :
  histogram <> [] ->
  Forall (fun k => k <> 0%Z) histogram ->
  (forall i k w,
      histogram !! i = Some k ->
      Train.get_class_weights (R:=Q) histogram !! i = Some w ->
      (w * inject_Z k
       == inject_Z (Train.py_sum histogram)
          / inject_Z (Z.of_nat (length histogram)))%Q)
  /\ (Np.sum (zip_with (fun w k => w * inject_Z k)%Q
               (Train.weights (R:=Q) histogram) histogram)
      == inject_Z (Train.py_sum histogram))%Q.
Proof.
  intros Hne Hnz.
  assert (Hlen : Z.of_nat (length histogram) <> 0%Z).
  { destruct histogram; [done|]. simpl. lia. }
  split.
  - intros i k w Hi. rewrite get_class_weights_lookup, Hi. intros [= <-].
    apply class_weight_times_count; [done|].
    rewrite Forall_forall in Hnz. apply Hnz.
    by eapply list_elem_of_lookup_2.
  - unfold Np.sum. simpl.
    set (c := (inject_Z (Train.py_sum histogram)
               / inject_Z (Z.of_nat (length histogram)))%Q).
    rewrite (foldl_Qplus_constant c).
    + unfold Train.weights.
      rewrite length_zip_with, length_fmap, Nat.min_id.
      unfold c. field.
      change 0%Q with (inject_Z 0). rewrite inject_Z_injective. lia.
    + unfold Train.weights.
      apply Forall_forall. intros x Hx.
      apply list_elem_of_lookup in Hx as [i Hx].
      apply lookup_zip_with_Some in Hx as (w & k & -> & Hw & Hk).
      rewrite list_lookup_fmap, Hk in Hw. injection Hw as <-.
      apply class_weight_times_count; [done|].
      rewrite Forall_forall in Hnz. apply Hnz.
      by eapply list_elem_of_lookup_2.
Qed.

Lemma class_weights_balance_witness :
  [80; 20]%Z <> []
  /\ Forall (fun k => k <> 0%Z) [80; 20]%Z
  /\ (Np.sum (zip_with (fun w k => w * inject_Z k)%Q
               (Train.weights (R:=Q) [80; 20]%Z) [80; 20]%Z)
      == inject_Z (Train.py_sum [80; 20]%Z))%Q.
Proof.
  assert (Hne : [80; 20]%Z <> []) by discriminate.
  assert (Hnz : Forall (fun k => k <> 0%Z) [80; 20]%Z).
  { repeat constructor; discriminate. }
  split; [exact Hne|]. split; [exact Hnz|].
  exact (proj2 (class_weights_balance [80; 20]%Z Hne Hnz)).
Defined.

(** ** Callbacks *)

(** X5: for a positive [PATIENCE], the learning rate is reduced after at
    least one and at most [PATIENCE] epochs without improvement,
    strictly sooner than training is stopped from [PATIENCE = 3] on;
    both callbacks monitor the same quantity. *)
Theorem reduce_lr_patience_within_early_stopping (PATIENCE : Z) :
  (1 <= PATIENCE)%Z ->
  let cb := Train.define_callbacks PATIENCE in
  (1 <= Train.rl_patience cb.2 <= Train.es_patience cb.1)%Z
  /\ (3 <= PATIENCE -> Train.rl_patience cb.2 < Train.es_patience cb.1)%Z
  /\ Train.es_monitor cb.1 = Train.rl_monitor cb.2.
Proof.
  intros HP. simpl. split; [|split; [|done]].
  - pose proof (Z.div_mod PATIENCE 2). pose proof (Z.mod_pos_bound PATIENCE 2).
    lia.
  - intros H3. pose proof (Z.div_mod PATIENCE 2).
    pose proof (Z.mod_pos_bound PATIENCE 2). lia.
Qed.

Lemma reduce_lr_patience_within_early_stopping_witness :
  (1 <= 10)%Z
  /\ (1 <= Train.rl_patience (Train.define_callbacks 10).2
      <= Train.es_patience (Train.define_callbacks 10).1)%Z.
Proof.
  assert (HP : (1 <= 10)%Z) by lia.
  split; [exact HP|].
  exact (proj1 (reduce_lr_patience_within_early_stopping 10 HP)).
Defined.

(** ** Search space of the hyperparameter optimisation *)

Section search_space_facts.
Context {R : Type} `{Num R}.
Local Abbreviation entry := (Train.search_entry (R:=R)).
Local Abbreviation setup := (Train.search_setup (R:=R)).

Local Abbreviation ranged := (Train.ranged (R:=R)).
Local Abbreviation searchable := (Train.searchable (R:=R)).

Lemma add_dimension_names dims name range type dims' :
  Train.add_dimension (R:=R) dims name range type = Some dims' ->
  Train.dimension_name <$> dims'
  = (Train.dimension_name <$> dims)
      ++ (if decide (Train.known_type type) then [name] else []).
Proof.
  unfold Train.add_dimension, Train.known_type. intros Hadd.
  destruct (decide (type = "set")) as [->|H1].
  { injection Hadd as <-. rewrite fmap_app, decide_True by set_solver. done. }
  destruct (decide (type = "int_uniform")) as [->|H2].
  { destruct (range !! 0) as [lo|]; [|done].
    destruct (range !! 1) as [hi|]; [|done]. injection Hadd as <-.
    rewrite fmap_app, decide_True by set_solver. done. }
  destruct (decide (type = "float_log")) as [->|H3].
  { destruct (range !! 0) as [lo|]; [|done].
    destruct (range !! 1) as [hi|]; [|done]. injection Hadd as <-.
    rewrite fmap_app, decide_True by set_solver. done. }
  destruct (decide (type = "float_uniform")) as [->|H4].
  { destruct (range !! 0) as [lo|]; [|done].
    destruct (range !! 1) as [hi|]; [|done]. injection Hadd as <-.
    rewrite fmap_app, decide_True by set_solver. done. }
  injection Hadd as <-. rewrite decide_False; [by rewrite app_nil_r|].
  intros Hk. repeat (apply elem_of_cons in Hk as [?|Hk]; [done|]).
  by apply elem_of_nil in Hk.
Qed.

Lemma search_steps_spec hparams_cfg (items : list (string * entry))
    (st st' : setup) :
  Train.search_steps hparams_cfg st items = Some st' ->
  Train.hparam_names st'
    = Train.hparam_names st ++ (filter ranged items).*1
  /\ Train.dimension_name <$> Train.dimensions st'
     = (Train.dimension_name <$> Train.dimensions st)
         ++ (filter searchable items).*1
  /\ length (Train.default_params st')
     = length (Train.default_params st) + length (filter ranged items)
  /\ (forall name,
        Train.results st' !! name
        = if decide (name ∈ (filter ranged items).*1) then Some []
          else Train.results st !! name).
Proof.
  revert st. induction items as [|item items IH]; intros st Hrun.
  - injection Hrun as <-. rewrite !app_nil_r. split; [done|].
    split; [done|]. split; [simpl; lia|]. intros name.
    rewrite decide_False; [done|]. simpl. apply not_elem_of_nil.
  - cbn [Train.search_steps] in Hrun.
    destruct (Train.search_step hparams_cfg st item) as [st1|] eqn:Hstep;
      simpl in Hrun; [|done].
    destruct (IH _ Hrun) as (Hn & Hd & Hl & Hr).
    unfold Train.search_step in Hstep. rewrite !filter_cons.
    destruct (Train.RANGE item.2) as [range|] eqn:Hrange.
    + destruct (Train.add_dimension _ _ _ _) as [dims|] eqn:Hadd;
        simpl in Hstep; [|done].
      destruct (hparams_cfg !! item.1) as [d|]; simpl in Hstep; [|done].
      injection Hstep as <-. simpl in *.
      apply add_dimension_names in Hadd.
      assert (Hranged : ranged item).
      { unfold Train.ranged. rewrite Hrange. by eexists. }
      rewrite (decide_True (P := ranged item)) by done.
      split; [by rewrite Hn, <- app_assoc|]. split.
      { rewrite Hd, Hadd, <- app_assoc. f_equal.
        destruct (decide (Train.known_type (Train.TYPE item.2))) as [Hk|Hk].
        - rewrite (decide_True (P := searchable item)) by done. done.
        - rewrite (decide_False (P := searchable item))
            by (intros [_ ?]; done).
          done. }
      split; [rewrite Hl, length_app; simpl; lia|].
      intros name. rewrite Hr. cbn [fmap list_fmap].
      destruct (decide (name ∈ (filter ranged items).*1)) as [Hin|Hnin].
      * rewrite decide_True by (by right). done.
      * destruct (decide (name = item.1)) as [->|Hne].
        -- rewrite decide_True by (by left). by rewrite lookup_insert_eq.
        -- rewrite decide_False by (intros [?|?]%elem_of_cons; done).
           by rewrite lookup_insert_ne.
    + injection Hstep as <-.
      assert (Hnr : ~ ranged item).
      { unfold Train.ranged. rewrite Hrange. by intros [? ?]. }
      assert (Hns : ~ searchable item) by (intros [? _]; done).
      rewrite (decide_False (P := ranged item)) by done.
      rewrite (decide_False (P := searchable item)) by done. done.
Qed.

Lemma filter_searchable_length (items : list (string * entry)) :
  length (filter searchable items) <= length (filter ranged items)
  /\ (Exists (fun item => ranged item /\ ~ Train.known_type (Train.TYPE item.2))
             items ->
      length (filter searchable items) < length (filter ranged items)).
Proof.
  induction items as [|item items [IHle IHlt]].
  - split; [done|]. by intros ?%Exists_nil.
  - rewrite !filter_cons.
    destruct (decide (searchable item)) as [Hs|Hs].
    + rewrite decide_True by apply Hs. simpl. split; [lia|].
      intros [[_ Hbad]|Hex]%Exists_cons; [by destruct Hs|].
      specialize (IHlt Hex). lia.
    + destruct (decide (ranged item)) as [Hr|Hr]; simpl.
      * split; [lia|]. intros _. lia.
      * split; [lia|].
        intros [[? _]|Hex]%Exists_cons; [done|]. by apply IHlt.
Qed.

Lemma filter_searchable_all (items : list (string * entry)) :
  Forall (fun item => ranged item -> Train.known_type (Train.TYPE item.2))
         items ->
  filter searchable items = filter ranged items.
Proof.
  induction 1 as [|item items Hk _ IH]; [done|].
  rewrite !filter_cons, IH.
  destruct (decide (ranged item)) as [Hr|Hr].
  - rewrite (decide_True (P := searchable item)); [done|].
    split; [exact Hr|by apply Hk].
  - rewrite (decide_False (P := searchable item)); [done|].
    by intros [? _].
Qed.

(** X6: when the set-up of [bayesian_hparam_optimization] succeeds,
    [hparam_names] lists the entries that have a range, in order, with
    one default each; a dimension is made only for those whose type is
    one of the four known ones, so the dimensions match the names one to
    one when every ranged entry has a known type and are fewer when one
    has not; the initial results hold an empty column for [Trial], for
    the objective and for every name, and no other. *)
Theorem search_space_alignment (objective_metric : string)
    (search_cfg : list (string * entry))
    (hparams_cfg : gmap string (Train.pyval (R:=R))) (st : setup) :
  Train.build_search_space objective_metric search_cfg hparams_cfg = Some st ->
  Train.hparam_names st = (filter ranged search_cfg).*1
  /\ Train.dimension_name <$> Train.dimensions st
     = (filter searchable search_cfg).*1
  /\ length (Train.default_params st) = length (Train.hparam_names st)
  /\ length (Train.dimensions st) <= length (Train.hparam_names st)
  /\ (Forall (fun item => ranged item -> Train.known_type (Train.TYPE item.2))
             search_cfg ->
      Train.dimension_name <$> Train.dimensions st = Train.hparam_names st)
  /\ (Exists (fun item => ranged item /\ ~ Train.known_type (Train.TYPE item.2))
             search_cfg ->
      length (Train.dimensions st) < length (Train.hparam_names st))
  /\ (forall name,
        is_Some (Train.results st !! name)
        <-> name ∈ "Trial" :: objective_metric :: Train.hparam_names st)
  /\ Train.rectangular (Train.results st) 0.
Proof.
  intros Hbuild. unfold Train.build_search_space in Hbuild.
  destruct (search_steps_spec _ _ _ _ Hbuild) as (Hn & Hd & Hl & Hr).
  simpl in Hn, Hd, Hl.
  destruct (filter_searchable_length search_cfg) as [Hle Hlt].
  assert (Hdl : length (Train.dimensions st)
                = length (filter searchable search_cfg)).
  { rewrite <- (length_fmap Train.dimension_name), Hd. by rewrite length_fmap. }
  assert (Hnl : length (Train.hparam_names st)
                = length (filter ranged search_cfg)).
  { rewrite Hn. by rewrite length_fmap. }
  split; [done|]. split; [done|]. split; [lia|]. split; [lia|].
  split; [|split; [|split]].
  - intros Hall. rewrite Hd, Hn. f_equal. by apply filter_searchable_all.
  - intros Hex. specialize (Hlt Hex). lia.
  - intros name. rewrite Hr, Hn. simpl.
    destruct (decide (name ∈ (filter ranged search_cfg).*1)) as [Hin|Hnin].
    + split; [intros _; by do 2 right|by eexists].
    + rewrite lookup_insert_is_Some', lookup_insert_is_Some', lookup_empty.
      rewrite !elem_of_cons.
      split.
      * intros [<-|[<-|[? ?]]]; [by right; left|by left|done].
      * intros [->|[->|?]]; [by right; left|by left|done].
  - intros name col. rewrite Hr.
    case_decide; [by intros [= <-]|]. simpl.
    rewrite lookup_insert_Some, lookup_insert_Some, lookup_empty.
    intros [[_ <-]|[_ [[_ <-]|[_ ?]]]]; done.
Qed.
End search_space_facts.

Lemma search_space_alignment_witness :
  exists st,
    Train.build_search_space "accuracy" Train.sample_search_cfg
      Train.sample_hparams_cfg = Some st
    /\ Train.hparam_names st = ["LR"; "DROPOUT"; "OPTIMIZER"]
    /\ Train.dimension_name <$> Train.dimensions st
       = ["LR"; "DROPOUT"; "OPTIMIZER"]
    /\ Train.rectangular (Train.results st) 0.
Proof.
  destruct (Train.build_search_space "accuracy" Train.sample_search_cfg
              Train.sample_hparams_cfg) as [st|] eqn:Hb.
  2: { vm_compute in Hb. discriminate Hb. }
  exists st. split; [reflexivity|].
  destruct (search_space_alignment "accuracy" _ _ st Hb)
    as (Hn & Hd & _ & _ & _ & _ & _ & Hr).
  split; [rewrite Hn; vm_compute; reflexivity|].
  split; [rewrite Hd; vm_compute; reflexivity|exact Hr].
Defined.

(** ** The hyperparameters of a trial *)

Section objective_facts.
Context {R : Type} `{Num R}.
Local Abbreviation pyval := (Train.pyval (R:=R)).
Local Abbreviation table := (gmap string (list pyval)).

Lemma zip_fold_notin (names : list string) :
  forall (vals : list pyval) (acc : gmap string pyval) k,
  k ∉ names ->
  foldl (fun m kv => <[kv.1 := kv.2]> m) acc (zip names vals) !! k = acc !! k.
Proof.
  induction names as [|n names IH]; intros [|v vals] acc k Hk; try done.
  simpl. rewrite IH by (intros ?; apply Hk; by right).
  rewrite lookup_insert_ne; [done|]. intros ->. apply Hk. by left.
Qed.

Lemma zip_fold_lookup (names : list string) :
  NoDup names ->
  forall (vals : list pyval) (acc : gmap string pyval) i k v,
  names !! i = Some k -> vals !! i = Some v ->
  foldl (fun m kv => <[kv.1 := kv.2]> m) acc (zip names vals) !! k = Some v.
Proof.
  induction 1 as [|n names Hnotin Hnd IH]; intros vals acc i k v Hk Hv.
  - done.
  - destruct vals as [|v0 vals]; [by destruct i|].
    destruct i as [|i]; simpl in *.
    + injection Hk as ->. injection Hv as ->.
      rewrite zip_fold_notin by done. by rewrite lookup_insert_eq.
    + by apply (IH _ _ i).
Qed.

Lemma fill_fold_lookup (l : list (string * pyval)) :
  forall (acc : gmap string pyval) k,
  foldl (fun m kv => if decide (is_Some (m !! kv.1)) then m
                     else <[kv.1 := kv.2]> m) acc l !! k
  = match acc !! k with
    | Some v => Some v
    | None => (list_to_map l : gmap string pyval) !! k
    end.
Proof.
  induction l as [|[k0 v0] l IH]; intros acc k; simpl.
  - rewrite lookup_empty. by destruct (acc !! k).
  - rewrite IH. destruct (decide (is_Some (acc !! k0))) as [[v Hv]|Hn].
    + destruct (decide (k = k0)) as [->|Hne].
      * by rewrite Hv.
      * by rewrite lookup_insert_ne.
    + apply eq_None_not_Some in Hn. destruct (decide (k = k0)) as [->|Hne].
      * by rewrite lookup_insert_eq, Hn, lookup_insert_eq.
      * by rewrite !lookup_insert_ne.
Qed.

Lemma fill_constants_lookup (hparams hparams_cfg : gmap string pyval) k :
  Train.fill_constants hparams hparams_cfg !! k
  = match hparams !! k with Some v => Some v | None => hparams_cfg !! k end.
Proof.
  unfold Train.fill_constants. rewrite fill_fold_lookup.
  by rewrite list_to_map_to_list.
Qed.

Lemma objective_hparams_sampled (names : list string) (vals : list pyval)
    (hparams_cfg : gmap string pyval) i k v :
  NoDup names -> names !! i = Some k -> vals !! i = Some v ->
  Train.objective_hparams names vals hparams_cfg !! k = Some v.
Proof.
  intros Hnd Hk Hv. unfold Train.objective_hparams, Train.dict_of_zip.
  rewrite fill_constants_lookup.
  by rewrite (zip_fold_lookup names Hnd vals ∅ i k v).
Qed.

Lemma objective_hparams_constant (names : list string) (vals : list pyval)
    (hparams_cfg : gmap string pyval) k :
  (k ∉ names) ->
  Train.objective_hparams names vals hparams_cfg !! k = hparams_cfg !! k.
Proof.
  intros Hk. unfold Train.objective_hparams, Train.dict_of_zip.
  rewrite fill_constants_lookup, zip_fold_notin by done.
  by rewrite lookup_empty.
Qed.

Lemma objective_hparams_covers (names : list string) (vals : list pyval)
    (hparams_cfg : gmap string pyval) k :
  NoDup names -> length names <= length vals -> k ∈ names ->
  is_Some (Train.objective_hparams names vals hparams_cfg !! k).
Proof.
  intros Hnd Hlen Hin. apply list_elem_of_lookup in Hin as [i Hi].
  destruct (lookup_lt_is_Some_2 vals i) as [v Hv].
  { apply lookup_lt_Some in Hi. lia. }
  rewrite (objective_hparams_sampled names vals hparams_cfg i k v); [|done..].
  by eexists.
Qed.

(** X7: in the hyperparameter mapping that [objective] builds, a
    searched name has its sampled value (the names being distinct), any
    other name has its configured value, and when there is a value for
    every name the keys are the searched names and the configured ones. *)
Theorem objective_hparams_lookup (names : list string) (vals : list pyval)
    (hparams_cfg : gmap string pyval) :
  NoDup names ->
  (forall i k v, names !! i = Some k -> vals !! i = Some v ->
     Train.objective_hparams names vals hparams_cfg !! k = Some v)
  /\ (forall k, (k ∉ names) ->
        Train.objective_hparams names vals hparams_cfg !! k
        = hparams_cfg !! k)
  /\ (length names <= length vals ->
      forall k, is_Some (Train.objective_hparams names vals hparams_cfg !! k)
                <-> k ∈ names \/ is_Some (hparams_cfg !! k)).
Proof.
  intros Hnd. split; [|split].
  - intros i k v. by apply objective_hparams_sampled.
  - intros k. apply objective_hparams_constant.
  - intros Hlen k. destruct (decide (k ∈ names)) as [Hin|Hnin].
    + split; [by left|]. intros _. by apply objective_hparams_covers.
    + rewrite objective_hparams_constant by done. tauto.
Qed.

(** ** Failures of the results log *)




Section save_failures.
Variable reload_column : list pyval -> list pyval.

End save_failures.
End objective_facts.

Lemma objective_hparams_lookup_witness :
  NoDup ["LR"; "DROPOUT"]
  /\ Train.objective_hparams ["LR"; "DROPOUT"]
       [Train.PyFloat (1 # 100); Train.PyFloat (1 # 10)]
       Train.sample_hparams_cfg !! "LR" = Some (Train.PyFloat (1 # 100))
  /\ Train.objective_hparams ["LR"; "DROPOUT"]
       [Train.PyFloat (1 # 100); Train.PyFloat (1 # 10)]
       Train.sample_hparams_cfg !! "NODES" = Some (Train.PyInt 128).
Proof.
  assert (Hnd : NoDup ["LR"; "DROPOUT"]).
  { apply (bool_decide_unpack _). vm_compute. exact I. }
  split; [exact Hnd|].
  destruct (objective_hparams_lookup ["LR"; "DROPOUT"]
              [Train.PyFloat (1 # 100); Train.PyFloat (1 # 10)]
              Train.sample_hparams_cfg Hnd) as (Hs & Hc & _).
  split.
  - exact (Hs 0 "LR" _ eq_refl eq_refl).
  - rewrite Hc; [vm_compute; reflexivity|].
    apply (bool_decide_unpack _). vm_compute. exact I.
Defined.


(** ** A run of trials *)

Section trials_facts.
Context {R : Type} `{Num R}.
Local Abbreviation pyval := (Train.pyval (R:=R)).
Local Abbreviation table := (gmap string (list pyval)).
Variable reload_column : list pyval -> list pyval.
Hypothesis reload_length : forall col, length (reload_column col) = length col.
Variable train_single : gmap string pyval -> R.

Lemma new_cell_is_Some k objective score (hparams : gmap string pyval)
    hparam_names name :
  (forall nm, nm ∈ hparam_names -> is_Some (hparams !! nm)) ->
  name ∈ "Trial" :: objective :: hparam_names ->
  is_Some (Train.new_cell k objective score hparams name).
Proof.
  intros Hc Hin. unfold Train.new_cell.
  destruct (decide (name = "Trial")); [by eexists|].
  destruct (decide (name = objective)); [by eexists|].
  apply Hc. apply elem_of_cons in Hin as [?|Hin]; [done|].
  apply elem_of_cons in Hin as [?|Hin]; done.
Qed.

Lemma save_step experiments (fs : gmap string table) (init_dict : table)
    score objective hparam_names hparams model_name cur_datetime (n : nat) :
  let path := Train.results_path experiments model_name cur_datetime in
  let cur := Train.current_results reload_column fs path init_dict in
  NoDup ("Trial" :: objective :: hparam_names) ->
  (forall name, is_Some (cur !! name)
                <-> name ∈ "Trial" :: objective :: hparam_names) ->
  Train.rectangular cur n ->
  (forall name, name ∈ hparam_names -> is_Some (hparams !! name)) ->
  exists results,
    Train.save_hparam_search_results reload_column experiments fs init_dict
      score objective hparam_names hparams model_name cur_datetime
    = Some (<[path := results]> fs, results)
    /\ Train.rectangular results (S n)
    /\ (exists trial_col, results !! "Trial"
                          = Some (trial_col ++ [Train.PyStr (pretty n)]))
    /\ (exists obj_col,
          results !! objective
          = Some (obj_col ++ [Train.PyFloat (num_sub (num_of_Z 1) score)]))
    /\ (forall name v, name ∈ hparam_names -> hparams !! name = Some v ->
          exists col, results !! name = Some (col ++ [v]))
    /\ (forall init_dict',
          let cur' := Train.current_results reload_column
                        (<[path := results]> fs) path init_dict' in
          (forall name, is_Some (cur' !! name)
                        <-> name ∈ "Trial" :: objective :: hparam_names)
          /\ Train.rectangular cur' (S n)).
Proof using reload_length.
  intros path cur Hnd Hdom Hrect Hcover.
  destruct (save_once reload_column experiments fs init_dict score objective
              hparam_names hparams model_name cur_datetime n Hnd Hdom Hrect
              Hcover) as (results & Hsave & Hlook).
  subst cur path.
  set (path := Train.results_path experiments model_name cur_datetime) in *.
  set (cur := Train.current_results reload_column fs path init_dict) in *.
  assert (Hne : objective <> "Trial").
  { intros ->. apply NoDup_cons in Hnd as [HT _]. apply HT. by left. }
  assert (Hrect1 : Train.rectangular results (S n)).
  { intros name col. rewrite Hlook.
    destruct (cur !! name) as [c|] eqn:Hc; simpl; [|done].
    destruct (Train.new_cell _ _ _ _ _); simpl; [|done].
    intros [= <-]. rewrite length_app. simpl. rewrite (Hrect _ _ Hc). lia. }
  exists results. split; [done|]. split; [done|].
  split; [|split; [|split]].
  - destruct (proj2 (Hdom "Trial")) as [tcol Htcol]; [by left|].
    exists tcol. rewrite Hlook, Htcol. done.
  - destruct (proj2 (Hdom objective)) as [ocol Hocol]; [by right; left|].
    exists ocol. rewrite Hlook, Hocol. simpl. unfold Train.new_cell.
    rewrite decide_False by done. rewrite decide_True by done. done.
  - intros name v Hin Hv.
    destruct (proj2 (Hdom name)) as [col Hcol]; [by do 2 right|].
    exists col. rewrite Hlook, Hcol. simpl. unfold Train.new_cell.
    apply NoDup_cons in Hnd as [HT Hnd]. apply NoDup_cons in Hnd as [HO _].
    rewrite decide_False by (intros ->; apply HT; by right).
    rewrite decide_False by (intros ->; done).
    rewrite Hv. done.
  - intros init_dict' cur'.
    assert (Hcur' : cur' = reload_column <$> results).
    { unfold cur', Train.current_results. by rewrite lookup_insert_eq. }
    split.
    + intros name. rewrite Hcur', lookup_fmap, Hlook, <- Hdom. split.
      * destruct (cur !! name); [by eexists|]. intros [? Hx]. by cbn in Hx.
      * intros [col Hcol]. rewrite Hcol. simpl.
        destruct (new_cell_is_Some n objective score hparams hparam_names name)
          as [v Hv]; [done| |].
        { apply Hdom. by eexists. }
        rewrite Hv. by eexists.
    + intros name col. rewrite Hcur', lookup_fmap.
      destruct (results !! name) as [c|] eqn:Hc; simpl; [|done].
      intros [= <-]. rewrite reload_length. by apply (Hrect1 _ _ Hc).
Qed.

(** X9: a run of trials, each with a value for every searched name,
    completes; the scores are [1 - accuracy] in the order of the trials,
    no file but the results file is written, the log gains one row per
    trial and stays rectangular, and its last row holds the index of the
    last trial and [1 - score] of that trial. *)
Theorem run_trials_log experiments (init_results : table) objective
    hparam_names (hparams_cfg : gmap string pyval) model_name cur_datetime
    (points : list (list pyval)) (fs : gmap string table) (n : nat) :
  let path := Train.results_path experiments model_name cur_datetime in
  let cur := Train.current_results reload_column fs path init_results in
  let accuracy vals :=
    train_single (Train.objective_hparams hparam_names vals hparams_cfg) in
  NoDup ("Trial" :: objective :: hparam_names) ->
  (forall name, is_Some (cur !! name)
                <-> name ∈ "Trial" :: objective :: hparam_names) ->
  Train.rectangular cur n ->
  Forall (fun vals => length hparam_names <= length vals) points ->
  exists fs',
    Train.run_trials reload_column train_single experiments init_results
      objective hparam_names hparams_cfg model_name cur_datetime fs points
    = Some ((fun vals => num_sub (num_of_Z 1) (accuracy vals)) <$> points, fs')
    /\ (forall p, p <> path -> fs' !! p = fs !! p)
    /\ Train.rectangular
         (Train.current_results reload_column fs' path init_results)
         (n + length points)
    /\ (forall vals, last points = Some vals ->
          exists results trial_col obj_col,
            fs' !! path = Some results
            /\ Train.rectangular results (n + length points)
            /\ (forall name, is_Some (results !! name)
                             <-> name ∈ "Trial" :: objective :: hparam_names)
            /\ results !! "Trial"
               = Some (trial_col
                         ++ [Train.PyStr (pretty (n + length points - 1))])
            /\ results !! objective
               = Some (obj_col
                         ++ [Train.PyFloat
                               (num_sub (num_of_Z 1)
                                  (num_sub (num_of_Z 1) (accuracy vals)))])).
Proof using reload_length.
  intros path cur accuracy Hnd. subst cur. revert fs n.
  induction points as [|vals rest IH]; intros fs n Hdom Hrect Hlen.
  - exists fs. split; [done|]. split; [done|].
    split; [by rewrite Nat.add_0_r|]. intros vals [=].
  - apply Forall_cons in Hlen as [Hlen Hrest].
    set (hparams := Train.objective_hparams hparam_names vals hparams_cfg).
    set (score := num_sub (num_of_Z 1) (train_single hparams)).
    assert (Hnames : NoDup hparam_names).
    { apply NoDup_cons in Hnd as [_ Hnd]. by apply NoDup_cons in Hnd as [_ ?]. }
    assert (Hcover : forall name, name ∈ hparam_names ->
                                  is_Some (hparams !! name)).
    { intros name Hin. by apply objective_hparams_covers. }
    destruct (save_step experiments fs init_results score objective
                hparam_names hparams model_name cur_datetime n Hnd Hdom Hrect
                Hcover)
      as (results & Hsave & Hrect1 & Htrial & Hobj & _ & Hnext).
    fold path in Hsave, Hnext.
    destruct (Hnext init_results) as [Hdom1 Hrect1'].
    destruct (IH (<[path := results]> fs) (S n) Hdom1 Hrect1' Hrest)
      as (fs' & Hrun & Hframe & Hrect' & Hlast).
    exists fs'. split; [|split; [|split]].
    + cbn [Train.run_trials]. unfold Train.objective.
      fold hparams. fold score. rewrite Hsave. simpl. rewrite Hrun. done.
    + intros p Hp. rewrite Hframe by done. by rewrite lookup_insert_ne.
    + replace (n + length (vals :: rest)) with (S n + length rest)
        by (simpl; lia). done.
    + intros vals' Hvals'. destruct rest as [|vals2 rest].
      * injection Hvals' as <-. injection Hrun as <-.
        destruct Htrial as [tcol Htcol]. destruct Hobj as [ocol Hocol].
        exists results, tcol, ocol. rewrite lookup_insert_eq.
        replace (n + length [vals]) with (S n) by (simpl; lia).
        replace (S n - 1) with n by lia.
        split; [done|]. split; [done|]. split; [|done].
        intros name. rewrite <- (Hdom1 name).
        unfold Train.current_results. rewrite lookup_insert_eq, lookup_fmap.
        by rewrite fmap_is_Some.
      * replace (n + length (vals :: vals2 :: rest))
          with (S n + length (vals2 :: rest)) by (simpl; lia).
        apply Hlast. exact Hvals'.
Qed.
End trials_facts.

Lemma sample_log_domain :
  let cur := Train.current_results (R:=Q) Train.reload_int_columns ∅
               (Train.results_path "results/" "VGG16" "20240101-000000")
               {[ "Trial" := []; "accuracy" := []; "LR" := [] ]} in
  (forall name, is_Some (cur !! name)
                <-> name ∈ ["Trial"; "accuracy"; "LR"])
  /\ Train.rectangular cur 0.
Proof.
  intros cur. split.
  - intros name. unfold cur, Train.current_results.
    rewrite lookup_empty, !elem_of_cons, elem_of_nil.
    rewrite <- (insert_empty (M:=gmap string) "LR").
    rewrite !lookup_insert_is_Some', lookup_empty.
    split.
    + intros [<-|[<-|[<-|[? ?]]]]; [by left|by right; left|by do 2 right; left
                                   |done].
    + intros [->|[->|[->|[]]]]; [by left|by right; left|by do 2 right; left].
  - apply (bool_decide_unpack _). vm_compute. exact I.
Qed.

Lemma run_trials_log_witness :
  let init : gmap string (list (Train.pyval (R:=Q))) :=
    {[ "Trial" := []; "accuracy" := []; "LR" := [] ]} in
  let points := [[Train.PyFloat (1 # 1000)]; [Train.PyFloat (1 # 500)]] in
  NoDup ["Trial"; "accuracy"; "LR"]
  /\ Forall (fun vals => length ["LR"] <= length vals) points
  /\ exists fs',
       Train.run_trials Train.reload_int_columns Train.sample_accuracy
         "results/" init "accuracy" ["LR"] Train.sample_hparams_cfg
         "VGG16" "20240101-000000" ∅ points
       = Some ((fun vals =>
                  (1 - Train.sample_accuracy
                         (Train.objective_hparams ["LR"] vals
                            Train.sample_hparams_cfg))%Q) <$> points, fs')
       /\ Train.rectangular
            (Train.current_results Train.reload_int_columns fs'
               (Train.results_path "results/" "VGG16" "20240101-000000") init)
            2.
Proof.
  intros init points.
  assert (Hnd : NoDup ["Trial"; "accuracy"; "LR"]).
  { apply (bool_decide_unpack _). vm_compute. exact I. }
  assert (Hlen : Forall (fun vals => length ["LR"] <= length vals) points).
  { repeat constructor. }
  split; [exact Hnd|]. split; [exact Hlen|].
  destruct (run_trials_log Train.reload_int_columns
              reload_int_columns_length Train.sample_accuracy "results/" init
              "accuracy" ["LR"] Train.sample_hparams_cfg "VGG16"
              "20240101-000000" points ∅ 0 Hnd (proj1 sample_log_domain)
              (proj2 sample_log_domain) Hlen)
    as (fs' & Hrun & _ & Hrect & _).
  exists fs'. split; [exact Hrun|exact Hrect].
Defined.

(** ** Cross-validation: the columns no fold fills *)

Section cv_columns.
Context {R : Type} `{Num R}.
Variable Series_mean Series_std : list R -> R.
Variable ndarray_std : list (list R) -> list R.
Variable object_mean object_std :
  list (Train.cell (R:=R)) -> option (Train.cell (R:=R)).
Local Abbreviation cell := (Train.cell (R:=R)).
Local Abbreviation zero := (Train.Scalar (R:=R) (num_of_Z 0)).







End cv_columns.


(** ** Cross-validation: the folds *)

Lemma take_indices_omap (all_pts : list string) (index : list nat) pts :
  Train.take_indices all_pts index = Some pts ->
  pts = omap (fun i => all_pts !! i) index.
Proof.
  unfold Train.take_indices. intros Hm. apply mapM_Some in Hm.
  induction Hm as [|i p index pts Hi _ IH]; [done|].
  cbn. rewrite Hi. by f_equal.
Qed.

Lemma omap_lookup_seq {A : Type} (l pre : list A) :
  omap (fun i => (pre ++ l) !! i) (seq (length pre) (length l)) = l.
Proof.
  revert pre. induction l as [|x l IH]; intros pre; [done|].
  cbn [length seq]. change (omap ?f (?a :: ?idx))
    with (match f a with Some y => y :: omap f idx | None => omap f idx end).
  cbv beta. rewrite list_lookup_middle by done.
  f_equal. specialize (IH (pre ++ [x])).
  rewrite <- app_assoc, length_app in IH. simpl in IH.
  by rewrite Nat.add_1_r in IH.
Qed.

Lemma omap_lookup_all {A : Type} (l : list A) (index : list nat) :
  index ≡ₚ seq 0 (length l) -> omap (fun i => l !! i) index ≡ₚ l.
Proof.
  intros ->. exact (reflexive_eq _ _ (omap_lookup_seq l [])).
Qed.

Lemma omap_concat {A B : Type} (f : A -> option B) (ls : list (list A)) :
  omap f (concat ls) = concat ((fun l : list A => omap f l) <$> ls).
Proof.
  induction ls as [|l ls IH]; [done|]. simpl. by rewrite omap_app, IH.
Qed.

Lemma elem_of_concat {A : Type} (x : A) (ls : list (list A)) :
  x ∈ concat ls <-> exists l, x ∈ l /\ l ∈ ls.
Proof.
  induction ls as [|l ls IH]; simpl.
  - split; [by intros ?%elem_of_nil|]. by intros (? & _ & ?%elem_of_nil).
  - rewrite elem_of_app, IH. split.
    + intros [?|(l' & ? & ?)]; [exists l; split; [done|by left]|].
      exists l'. split; [done|by right].
    + intros (l' & Hx & [->|?]%elem_of_cons); [by left|].
      right. by exists l'.
Qed.

Lemma NoDup_concat_disjoint {A : Type} (groups : list (list A)) :
  NoDup (concat groups) ->
  forall j i g' g x,
  groups !! j = Some g' -> groups !! i = Some g -> x ∈ g' -> x ∈ g ->
  j = i.
Proof.
  induction groups as [|g0 gs IH]; intros Hnd j i g' g x Hj Hi Hx' Hx;
    [done|].
  simpl in Hnd. apply NoDup_app in Hnd as (_ & Hdisj & Hnd).
  destruct j as [|j], i as [|i]; simpl in Hj, Hi.
  - done.
  - injection Hj as ->. exfalso. apply (Hdisj _ Hx').
    apply elem_of_concat. exists g. split; [done|].
    by apply list_elem_of_lookup_2 in Hi.
  - injection Hi as ->. exfalso. apply (Hdisj _ Hx).
    apply elem_of_concat. exists g'. split; [done|].
    by apply list_elem_of_lookup_2 in Hj.
  - f_equal. by apply (IH Hnd j i g' g x).
Qed.

(** Selections by groups of keys that hold every key exactly once take
    every element exactly once. *)
Lemma filter_by_groups {A B : Type} `{EqDecision B} (key : A -> B)
    (groups : list (list B)) :
  NoDup (concat groups) ->
  forall l : list A,
  (forall x, x ∈ l -> key x ∈ concat groups) ->
  concat ((fun g => filter (fun x => key x ∈ g) l) <$> groups) ≡ₚ l.
Proof.
  induction groups as [|g gs IH]; intros Hnd l Hl.
  - destruct l as [|x l]; [done|].
    specialize (Hl x ltac:(by left)). by apply elem_of_nil in Hl.
  - simpl in Hnd. apply NoDup_app in Hnd as (_ & Hdisj & Hnd).
    cbn [fmap list_fmap concat].
    etrans; [|apply (filter_app_complement (fun x => key x ∈ g) l)].
    apply Permutation_app_head.
    set (l' := filter (fun x => ~ key x ∈ g) l).
    assert (Hsame : (fun g' => filter (fun x => key x ∈ g') l) <$> gs
                    = (fun g' => filter (fun x => key x ∈ g') l') <$> gs).
    { apply Forall_fmap_ext, Forall_forall. intros g' Hg'.
      unfold l'. rewrite list_filter_filter_l; [done|].
      intros x Hx Hg. apply (Hdisj _ Hg).
      apply elem_of_concat. by exists g'. }
    rewrite Hsame. apply IH; [done|].
    intros x [Hx Hxl]%list_elem_of_filter.
    specialize (Hl x Hxl). simpl in Hl.
    apply elem_of_app in Hl as [?|?]; done.
Qed.

Section fold_facts.
Context {R : Type} `{Num R}.
Variable train_test_split :
  list string -> R -> Z -> option (list string * list string).
Hypothesis split_covers : forall pts size seed a b,
  train_test_split pts size seed = Some (a, b) -> a ++ b ≡ₚ pts.

Lemma fold_partition_patients frame_df n_folds train_index test_index state
    train_df val_df test_df :
  Train.fold_partition train_test_split frame_df n_folds train_index
    test_index state = Some (train_df, val_df, test_df) ->
  exists train_pts val_pts,
    train_pts ++ val_pts
      ≡ₚ omap (fun i => Train.unique (Train.Patient <$> frame_df) !! i)
              train_index
    /\ train_df = filter (fun f => Train.Patient f ∈ train_pts) frame_df
    /\ val_df = filter (fun f => Train.Patient f ∈ val_pts) frame_df
    /\ test_df
       = filter (fun f => Train.Patient f
                          ∈ omap (fun i => Train.unique
                                             (Train.Patient <$> frame_df) !! i)
                                 test_index) frame_df.
Proof using split_covers.
  unfold Train.fold_partition. intros Hp.
  destruct (Train.take_indices _ train_index) as [tv|] eqn:Htv;
    simpl in Hp; [|done].
  destruct (train_test_split tv _ state) as [[tr va]|] eqn:Hs;
    simpl in Hp; [|done].
  destruct (Train.take_indices _ test_index) as [te|] eqn:Hte;
    simpl in Hp; [|done].
  injection Hp as <- <- <-.
  apply take_indices_omap in Htv, Hte. subst tv te.
  exists tr, va. split; [by apply split_covers in Hs|done].
Qed.

(** X11: for a fold whose train and test indices together number the
    patients once each, the train, validation and test tables of the
    fold share no patient and together hold every frame exactly once;
    the test frames belong to the patients at the test indices. *)
Theorem fold_partition_no_leakage frame_df n_folds train_index test_index
    state train_df val_df test_df :
  train_index ++ test_index
    ≡ₚ seq 0 (length (Train.unique (Train.Patient <$> frame_df))) ->
  Train.fold_partition train_test_split frame_df n_folds train_index
    test_index state = Some (train_df, val_df, test_df) ->
  (forall p, p ∈ Train.Patient <$> train_df ->
             (p ∉ Train.Patient <$> val_df)
             /\ (p ∉ Train.Patient <$> test_df))
  /\ (forall p, p ∈ Train.Patient <$> val_df ->
                p ∉ Train.Patient <$> test_df)
  /\ train_df ++ val_df ++ test_df ≡ₚ frame_df
  /\ (forall f, f ∈ test_df ->
        exists i, i ∈ test_index
                  /\ Train.unique (Train.Patient <$> frame_df) !! i
                     = Some (Train.Patient f)).
Proof using split_covers.
  intros Hkfold Hp.
  destruct (fold_partition_patients _ _ _ _ _ _ _ _ Hp)
    as (tr & va & Hsplit & -> & -> & ->).
  set (all_pts := Train.unique (Train.Patient <$> frame_df)) in *.
  set (te := omap (fun i => all_pts !! i) test_index).
  assert (Hperm : tr ++ va ++ te ≡ₚ all_pts).
  { rewrite app_assoc, Hsplit. unfold te. rewrite <- omap_app.
    by apply omap_lookup_all. }
  assert (Hgroups : NoDup (concat [tr; va; te])).
  { simpl. rewrite app_nil_r, Hperm. apply unique_NoDup. }
  assert (Hnd := Hgroups). simpl in Hnd. rewrite app_nil_r in Hnd.
  apply NoDup_app in Hnd as (_ & Htr & Hnd).
  apply NoDup_app in Hnd as (_ & Hva & _).
  assert (Hpat : forall (pts : list string) (p : string),
    p ∈ Train.Patient <$> filter (fun f => Train.Patient f ∈ pts) frame_df ->
    p ∈ pts).
  { intros pts p (f & -> & Hf)%list_elem_of_fmap.
    by apply list_elem_of_filter in Hf as [? _]. }
  split; [|split; [|split]].
  - intros p Hp1%Hpat. split; intros Hp2%Hpat.
    + apply (Htr _ Hp1). apply elem_of_app. by left.
    + apply (Htr _ Hp1). apply elem_of_app. by right.
  - intros p Hp1%Hpat Hp2%Hpat. by apply (Hva _ Hp1).
  - pose proof (filter_by_groups Train.Patient [tr; va; te] Hgroups frame_df)
      as Hparts.
    simpl in Hparts. rewrite !app_nil_r in Hparts. apply Hparts.
    intros f Hf. rewrite Hperm. apply elem_of_unique.
    by apply list_elem_of_fmap_2.
  - intros f [Hf _]%list_elem_of_filter.
    apply list_elem_of_omap in Hf as (i & Hi & Hlook). by exists i.
Qed.

(** X12: when the test index sets of the folds together number the
    patients once each, the fold loop makes one partition per fold and
    every frame is in the test table of exactly one fold. *)
Theorem fold_loop_tests_every_frame_once frame_df n_folds
    (folds : list (list nat * list nat * Z))
    (parts : list (list Train.frame * list Train.frame * list Train.frame)) :
  concat ((fun fold => fold.1.2) <$> folds)
    ≡ₚ seq 0 (length (Train.unique (Train.Patient <$> frame_df))) ->
  Train.fold_loop train_test_split frame_df n_folds folds = Some parts ->
  length parts = length folds
  /\ concat ((fun part => part.2) <$> parts) ≡ₚ frame_df
  /\ (forall f, f ∈ frame_df ->
        exists i part, parts !! i = Some part /\ f ∈ part.2
          /\ forall j part', parts !! j = Some part' -> f ∈ part'.2 -> j = i).
Proof using split_covers.
  intros Hkfold Hloop. unfold Train.fold_loop in Hloop.
  apply mapM_Some in Hloop.
  set (all_pts := Train.unique (Train.Patient <$> frame_df)) in *.
  set (groups := (fun fold : list nat * list nat * Z =>
                    omap (fun i => all_pts !! i) fold.1.2) <$> folds).
  assert (Htests : (fun part : list Train.frame * list Train.frame
                                * list Train.frame => part.2) <$> parts
                   = (fun g => filter (fun f => Train.Patient f ∈ g) frame_df)
                       <$> groups).
  { unfold groups. clear Hkfold.
    induction Hloop as [|fold [[tr va] te] folds parts Hfold _ IH]; [done|].
    cbn [fmap list_fmap]. rewrite IH. f_equal.
    destruct (fold_partition_patients _ _ _ _ _ _ _ _ Hfold)
      as (? & ? & _ & _ & _ & ->). done. }
  assert (Hgroups : concat groups ≡ₚ all_pts).
  { assert (Hg : groups
                 = (fun l : list nat => omap (fun i => all_pts !! i) l)
                     <$> ((fun fold : list nat * list nat * Z => fold.1.2)
                            <$> folds)).
    { unfold groups. by rewrite <- list_fmap_compose. }
    rewrite Hg, <- omap_concat. by apply omap_lookup_all. }
  assert (Hnd : NoDup (concat groups)).
  { rewrite Hgroups. apply unique_NoDup. }
  assert (Hcover : forall f, f ∈ frame_df ->
                             Train.Patient f ∈ concat groups).
  { intros f Hf. rewrite Hgroups. apply elem_of_unique.
    by apply list_elem_of_fmap_2. }
  split; [by apply Forall2_length in Hloop|]. split.
  - rewrite Htests. by apply filter_by_groups.
  - intros f Hf. specialize (Hcover f Hf).
    apply elem_of_concat in Hcover as (g & Hpg & Hg).
    apply list_elem_of_lookup in Hg as (i & Hi).
    assert (Hpart : forall j part, parts !! j = Some part ->
      exists g', groups !! j = Some g'
        /\ part.2 = filter (fun f => Train.Patient f ∈ g') frame_df).
    { intros j part Hj.
      assert (Hj' : ((fun part : list Train.frame * list Train.frame
                                 * list Train.frame => part.2) <$> parts) !! j
                    = Some part.2) by (by rewrite list_lookup_fmap, Hj).
      rewrite Htests, list_lookup_fmap in Hj'.
      destruct (groups !! j) as [g'|]; [|done].
      injection Hj' as Hj'. by exists g'. }
    assert (Hi' : is_Some (parts !! i)).
    { apply lookup_lt_is_Some.
      assert (Hlen : length ((fun part : list Train.frame * list Train.frame
                                * list Train.frame => part.2) <$> parts)
                     = length groups) by (by rewrite Htests, length_fmap).
      rewrite length_fmap in Hlen. rewrite Hlen.
      by apply lookup_lt_Some in Hi. }
    destruct Hi' as [part Hparti]. exists i, part.
    destruct (Hpart i part Hparti) as (g0 & Hg0 & Hp2).
    assert (g0 = g) by congruence. subst g0.
    split; [done|]. split.
    { rewrite Hp2. by apply list_elem_of_filter. }
    intros j part' Hj Hfj.
    destruct (Hpart j part' Hj) as (g' & Hg' & Hp2').
    rewrite Hp2' in Hfj. apply list_elem_of_filter in Hfj as [Hpg' _].
    by apply (NoDup_concat_disjoint groups Hnd j i g' g (Train.Patient f)).
Qed.
End fold_facts.

Lemma sample_patients_count :
  length (Train.unique (Train.Patient <$> Train.sample_frames)) = 5.
Proof. vm_compute. reflexivity. Qed.

Lemma fold_partition_no_leakage_witness :
  (forall pts size seed a b,
     Train.ordered_split pts size seed = Some (a, b) -> a ++ b ≡ₚ pts)
  /\ [1; 2; 3; 4] ++ [0]
       ≡ₚ seq 0 (length (Train.unique
                           (Train.Patient <$> Train.sample_frames)))
  /\ exists train_df val_df test_df,
       Train.fold_partition Train.ordered_split Train.sample_frames 5
         [1; 2; 3; 4] [0] 0 = Some (train_df, val_df, test_df)
       /\ train_df ++ val_df ++ test_df ≡ₚ Train.sample_frames
       /\ (forall p, p ∈ Train.Patient <$> val_df ->
                     p ∉ Train.Patient <$> test_df).
Proof.
  assert (Hkfold : [1; 2; 3; 4] ++ [0]
                     ≡ₚ seq 0 (length (Train.unique
                                 (Train.Patient <$> Train.sample_frames)))).
  { rewrite sample_patients_count. simpl. symmetry.
    apply (Permutation_cons_append [1; 2; 3; 4] 0). }
  split; [exact ordered_split_covers|]. split; [exact Hkfold|].
  destruct (Train.fold_partition Train.ordered_split Train.sample_frames 5
              [1; 2; 3; 4] [0] 0) as [[[train_df val_df] test_df]|] eqn:Hp.
  2: { vm_compute in Hp. discriminate Hp. }
  exists train_df, val_df, test_df. split; [reflexivity|].
  destruct (fold_partition_no_leakage Train.ordered_split
              ordered_split_covers _ _ _ _ _ _ _ _ Hkfold Hp)
    as (_ & Hval & Hperm & _).
  split; [exact Hperm|exact Hval].
Defined.

Lemma fold_loop_tests_every_frame_once_witness :
  (forall pts size seed a b,
     Train.ordered_split pts size seed = Some (a, b) -> a ++ b ≡ₚ pts)
  /\ concat ((fun fold : list nat * list nat * Z => fold.1.2)
               <$> Train.sample_folds)
       ≡ₚ seq 0 (length (Train.unique
                           (Train.Patient <$> Train.sample_frames)))
  /\ exists parts,
       Train.fold_loop Train.ordered_split Train.sample_frames 5
         Train.sample_folds = Some parts
       /\ length parts = 5
       /\ concat ((fun part : list Train.frame * list Train.frame
                              * list Train.frame => part.2) <$> parts)
            ≡ₚ Train.sample_frames.
Proof.
  assert (Hkfold : concat ((fun fold : list nat * list nat * Z => fold.1.2)
                             <$> Train.sample_folds)
                     ≡ₚ seq 0 (length (Train.unique
                                 (Train.Patient <$> Train.sample_frames)))).
  { rewrite sample_patients_count. reflexivity. }
  split; [exact ordered_split_covers|]. split; [exact Hkfold|].
  destruct (Train.fold_loop Train.ordered_split Train.sample_frames 5
              Train.sample_folds) as [parts|] eqn:Hp.
  2: { vm_compute in Hp. discriminate Hp. }
  exists parts. split; [reflexivity|].
  destruct (fold_loop_tests_every_frame_once Train.ordered_split
              ordered_split_covers _ _ _ _ Hkfold Hp) as (Hlen & Hperm & _).
  split; [exact Hlen|exact Hperm].
Defined.

(** ** The input pipeline *)

Lemma batch_from_concat {A : Type} (batch_size : nat) (ds : list A) :
  forall cur, concat (Preprocessor.batch_from batch_size cur ds) = cur ++ ds.
Proof.
  induction ds as [|x ds IH]; intros cur; simpl.
  - destruct cur; simpl; by rewrite ?app_nil_r.
  - case_decide; simpl; rewrite IH; by rewrite <- ?app_assoc.
Qed.

Lemma batch_from_full {A : Type} (batch_size : nat) (ds : list A) :
  forall cur, length cur < batch_size ->
  exists full rest,
    Preprocessor.batch_from batch_size cur ds = full ++ rest
    /\ Forall (fun b => length b = batch_size) full
    /\ (rest = [] \/ exists r, rest = [r] /\ 0 < length r < batch_size).
Proof.
  induction ds as [|x ds IH]; intros cur Hcur; simpl.
  - exists []. destruct cur as [|c cur].
    + exists []. split; [done|]. split; [done|by left].
    + exists [c :: cur]. split; [done|]. split; [done|].
      right. eexists. split; [done|]. simpl in *. lia.
  - case_decide as Hfull.
    + destruct (IH [] ltac:(simpl; lia)) as (full & rest & -> & Hall & Hrest).
      exists ((cur ++ [x]) :: full), rest. split; [done|].
      split; [by constructor|done].
    + apply IH. rewrite length_app in *. simpl in *. lia.
Qed.

Lemma batch_from_count {A : Type} (batch_size : nat) (ds : list A) :
  0 < batch_size ->
  length (Preprocessor.batch_from batch_size [] ds)
  = (length ds + batch_size - 1) / batch_size.
Proof.
  intros Hpos.
  destruct (batch_from_full batch_size ds [] Hpos)
    as (full & rest & Hsplit & Hall & Hrest).
  pose proof (batch_from_concat batch_size ds []) as Hcat.
  rewrite Hsplit in Hcat. simpl in Hcat.
  assert (Hfull : length (concat full) = batch_size * length full).
  { clear -Hall. induction Hall as [|b full Hb _ IH]; simpl; [lia|].
    rewrite length_app, IH, Hb. lia. }
  rewrite Hsplit, length_app.
  destruct Hrest as [->|(r & -> & Hr)].
  - rewrite app_nil_r in Hcat. rewrite <- Hcat, Hfull. simpl.
    apply (Nat.div_unique _ _ _ (batch_size - 1)); lia.
  - rewrite <- Hcat, concat_app, length_app, Hfull. simpl.
    rewrite app_nil_r.
    apply (Nat.div_unique _ _ _ (length r - 1)); lia.
Qed.

Lemma concat_fmap_snd {A B : Type} (batches : list (list (A * B))) :
  concat ((fun b => b.*2) <$> batches) = (concat batches).*2.
Proof.
  induction batches as [|b batches IH]; [done|].
  rewrite fmap_cons. cbn [concat]. by rewrite fmap_app, IH.
Qed.

Lemma concat_fmap_fst {A B : Type} (batches : list (list (A * B))) :
  concat ((fun b => b.*1) <$> batches) = (concat batches).*1.
Proof.
  induction batches as [|b batches IH]; [done|].
  rewrite fmap_cons. cbn [concat]. by rewrite fmap_app, IH.
Qed.

Section prepare_facts.
Context {R : Type} `{Num R} {rng : Type}.
Variable stateless_random_uniform : Z * Z -> R -> R -> R.
Variable RandomContrast RandomFlip RandomRotation RandomZoom :
  rng -> list (list (list (list R))) -> list (list (list (list R))) * rng.
Variable shuffle_dataset :
  rng -> list (string * Z) -> list (string * Z) * rng.
Variable load_image : string -> option (list (list (list R))).

Local Abbreviation batches := (list (list (list (list (list R))) * list Z)).

Lemma data_augmentation_is_Some (brightness_range : R) (g : rng)
    (x : list (list (list (list R)))) :
  is_Some (Preprocessor.data_augmentation stateless_random_uniform
             RandomContrast RandomFlip RandomRotation RandomZoom
             brightness_range g x)
  <-> num_ltb brightness_range (num_of_Z 0) = false.
Proof.
  unfold Preprocessor.data_augmentation, Preprocessor.RandomBrightness_call,
    Preprocessor.stateless_random_brightness.
  destruct (num_ltb brightness_range (num_of_Z 0)); simpl.
  - split; [by intros [? ?]|done].
  - destruct (RandomContrast _ _) as [x1 g1].
    destruct (RandomFlip _ _) as [x2 g2].
    destruct (RandomRotation _ _) as [x3 g3].
    destruct (RandomZoom _ _) as [x4 g4]. split; [done|by eexists].
Qed.

Lemma map_batches_labels (brightness_range : R) (ds : batches) :
  forall g out g',
  Preprocessor.map_batches stateless_random_uniform RandomContrast
    RandomFlip RandomRotation RandomZoom brightness_range g ds
  = Some (out, g') ->
  out.*2 = ds.*2.
Proof.
  induction ds as [|[x y] ds IH]; intros g out g'; simpl.
  - by intros [= <- <-].
  - destruct (Preprocessor.data_augmentation _ _ _ _ _ _ _ _)
      as [[x' g1]|]; simpl; [|done].
    destruct (Preprocessor.map_batches _ _ _ _ _ _ _ _)
      as [[rest g2]|] eqn:Hrest; simpl; [|done].
    intros [= <- <-]. cbn. f_equal. by apply (IH g1 rest g2).
Qed.

Lemma map_batches_is_Some (brightness_range : R) (ds : batches) g :
  num_ltb brightness_range (num_of_Z 0) = false ->
  is_Some (Preprocessor.map_batches stateless_random_uniform RandomContrast
             RandomFlip RandomRotation RandomZoom brightness_range g ds).
Proof.
  intros Hb. revert g. induction ds as [|[x y] ds IH]; intros g; simpl.
  - by eexists.
  - destruct (proj2 (data_augmentation_is_Some brightness_range g x) Hb)
      as [[x' g1] ->]. simpl.
    destruct (IH g1) as [[rest g2] ->]. by eexists.
Qed.

Lemma augment_stage_labels augment (brightness_range : R) (ds : batches)
    g out g' :
  Preprocessor.augment_stage stateless_random_uniform RandomContrast
    RandomFlip RandomRotation RandomZoom augment brightness_range g ds
  = Some (out, g') ->
  out.*2 = ds.*2.
Proof.
  unfold Preprocessor.augment_stage, Preprocessor.map_augment.
  destruct augment.
  - destruct (Preprocessor.trace_augmentation brightness_range); [|done].
    apply map_batches_labels.
  - by intros [= <- <-].
Qed.

Lemma augment_stage_is_Some augment (brightness_range : R) (ds : batches) g :
  (augment = true -> num_ltb brightness_range (num_of_Z 0) = false) ->
  is_Some (Preprocessor.augment_stage stateless_random_uniform RandomContrast
             RandomFlip RandomRotation RandomZoom augment brightness_range
             g ds).
Proof.
  intros Hb. unfold Preprocessor.augment_stage, Preprocessor.map_augment,
    Preprocessor.trace_augmentation.
  destruct augment; [|by eexists].
  specialize (Hb eq_refl). rewrite Hb. cbn [mbind option_bind].
  by apply map_batches_is_Some.
Qed.

Lemma parse_all_labels (ds : list (string * Z))
    (parsed : list (list (list (list R)) * Z)) :
  mapM (fun item => Preprocessor._parse_fn load_image item.1 item.2) ds
  = Some parsed ->
  parsed.*2 = ds.*2 /\ mapM load_image ds.*1 = Some parsed.*1.
Proof.
  intros Hm. apply mapM_Some in Hm.
  induction Hm as [|[f y] [img y'] ds parsed Hitem _ [IH1 IH2]]; [done|].
  unfold Preprocessor._parse_fn in Hitem. simpl in Hitem.
  destruct (load_image f) as [img'|] eqn:Hf; simpl in Hitem; [|done].
  injection Hitem as -> ->. cbn. rewrite IH1, Hf. cbn.
  cbn in IH2. by rewrite IH2.
Qed.

(** What building the pipeline checks. *)
Lemma prepare_builds (batch_size : nat)
    (input_scaler : option (list (list (list (list R)))
                            -> list (list (list (list R)))))
    (brightness_range : R) (shuffle augment : bool)
    (ds : list (string * Z)) prepared :
  Preprocessor.prepare stateless_random_uniform RandomContrast RandomFlip
    RandomRotation RandomZoom shuffle_dataset load_image batch_size
    input_scaler brightness_range shuffle augment ds = Some prepared ->
  0 < batch_size
  /\ (shuffle = true -> ds <> [])
  /\ (augment = true -> num_ltb brightness_range (num_of_Z 0) = false)
  /\ prepared
     = (fun g =>
          Preprocessor.iterate stateless_random_uniform RandomContrast
            RandomFlip RandomRotation RandomZoom shuffle_dataset load_image
            batch_size input_scaler brightness_range shuffle augment g ds).
Proof.
  unfold Preprocessor.prepare, Preprocessor.trace_augmentation.
  destruct (shuffle && bool_decide (ds = [])) eqn:Hsh; [done|].
  destruct (decide (batch_size = 0)) as [|Hbs]; [done|].
  intros Hp. split; [lia|]. split; [|split].
  - intros -> ->. done.
  - intros ->. by destruct (num_ltb brightness_range (num_of_Z 0)).
  - destruct augment; [destruct (num_ltb brightness_range (num_of_Z 0))|];
      simpl in Hp; congruence.
Qed.

Hypothesis shuffle_permutes : forall g ds, (shuffle_dataset g ds).1 ≡ₚ ds.

(** X13: when [prepare] has built the data set and iterating it
    succeeds, the batch size is positive, the labels of the batches
    taken in order are the labels of the data set (rearranged only if it
    was shuffled), there are [ceil(n / batch_size)] batches, every batch
    holds between one and [batch_size] samples and all but the last hold
    [batch_size]; without shuffling, augmentation and input scaler the
    images are the loaded images, in order, every value divided by
    255. *)
Theorem prepare_batches (batch_size : nat)
    (input_scaler : option (list (list (list (list R)))
                            -> list (list (list (list R)))))
    (brightness_range : R) (shuffle augment : bool) (g : rng)
    (ds : list (string * Z))
    (prepared : rng -> option (batches * rng)) (out : batches) (g' : rng) :
  Preprocessor.prepare stateless_random_uniform RandomContrast RandomFlip
    RandomRotation RandomZoom shuffle_dataset load_image batch_size
    input_scaler brightness_range shuffle augment ds = Some prepared ->
  prepared g = Some (out, g') ->
  0 < batch_size
  /\ concat out.*2 ≡ₚ ds.*2
  /\ (shuffle = false -> concat out.*2 = ds.*2)
  /\ length out = (length ds + batch_size - 1) / batch_size
  /\ (forall i y, out.*2 !! i = Some y ->
        0 < length y <= batch_size
        /\ (S i < length out -> length y = batch_size))
  /\ (shuffle = false -> augment = false -> input_scaler = None ->
      exists images,
        mapM load_image ds.*1 = Some images
        /\ concat out.*1
           = map (map (map (map (fun v => num_div v (num_of_Z 255)))))
                 images).
Proof using shuffle_permutes.
  intros Hbuild Hprep.
  apply prepare_builds in Hbuild as (Hpos & _ & _ & ->).
  unfold Preprocessor.iterate in Hprep.
  set (shuffled := if shuffle then shuffle_dataset g ds else (ds, g)) in *.
  destruct (mapM _ shuffled.1) as [parsed|] eqn:Hparse; simpl in Hprep;
    [|done].
  unfold Preprocessor.batch in Hprep.
  destruct (decide (batch_size = 0)) as [|Hbs]; simpl in Hprep; [done|].
  set (chunks := Preprocessor.batch_from batch_size [] parsed) in *.
  destruct (Preprocessor.augment_stage _ _ _ _ _ _ _ _ _)
    as [[aug g1]|] eqn:Haug; simpl in Hprep; [|done].
  injection Hprep as <- <-.
  pose proof (augment_stage_labels _ _ _ _ _ _ Haug) as Hlabels.
  apply parse_all_labels in Hparse as [Hplabels Hpimages].
  assert (Hout2 : ((fun b : list (list (list (list R))) * list Z =>
                      (Preprocessor.scale input_scaler b.1, b.2)) <$> aug).*2
                  = (fun b => b.*2) <$> chunks).
  { rewrite <- list_fmap_compose.
    change (aug.*2 = (fun b => b.*2) <$> chunks).
    rewrite Hlabels, <- list_fmap_compose. done. }
  assert (Hcat : concat ((fun b => b.*2) <$> chunks) = shuffled.1.*2).
  { rewrite concat_fmap_snd. unfold chunks.
    rewrite batch_from_concat. cbn [app]. exact Hplabels. }
  assert (Hlen : length parsed = length ds).
  { rewrite <- (length_fmap snd parsed), Hplabels, length_fmap.
    unfold shuffled. destruct shuffle; [|done].
    by rewrite shuffle_permutes. }
  split; [done|]. rewrite Hout2, Hcat.
  split; [|split; [|split; [|split]]].
  - unfold shuffled. destruct shuffle; [|done]. by rewrite shuffle_permutes.
  - intros ->. done.
  - rewrite length_fmap.
    rewrite <- (length_fmap snd aug), Hlabels, !length_fmap.
    unfold chunks. by rewrite batch_from_count, Hlen.
  - intros i y Hy. rewrite list_lookup_fmap in Hy.
    destruct (chunks !! i) as [b|] eqn:Hb; [|done].
    injection Hy as <-. rewrite length_fmap.
    assert (Hcount : length ((fun b : list (list (list (list R))) * list Z =>
                      (Preprocessor.scale input_scaler b.1, b.2)) <$> aug)
                     = length chunks).
    { rewrite length_fmap.
      by rewrite <- (length_fmap snd aug), Hlabels, !length_fmap. }
    rewrite Hcount.
    destruct (batch_from_full batch_size parsed [] Hpos)
      as (full & rest & Hsplit & Hall & Hrest).
    fold chunks in Hsplit. rewrite Hsplit in Hb |- *.
    rewrite length_app.
    destruct (decide (i < length full)) as [Hi|Hi].
    + rewrite lookup_app_l in Hb by done.
      rewrite (Forall_lookup_1 _ _ _ _ Hall Hb). lia.
    + rewrite lookup_app_r in Hb by lia.
      destruct Hrest as [->|(r & -> & Hr)]; [done|].
      destruct (i - length full) as [|k] eqn:Hk; [|done].
      injection Hb as <-. simpl. lia.
  - intros -> -> ->. exists parsed.*1. split; [done|].
    simpl in Haug. injection Haug as <- <-.
    rewrite <- list_fmap_compose.
    set (div255 := map (map (map (fun v : R => num_div v (num_of_Z 255))))).
    change (concat ((fun b : list (list (list (list R))) * list Z =>
                       div255 <$> b.1)
                      <$> ((fun b => (b.*1, b.*2)) <$> chunks))
            = div255 <$> parsed.*1).
    rewrite <- list_fmap_compose.
    assert (Hgen : forall bs : list (list (list (list (list R)) * Z)),
      concat (((fun b : list (list (list (list R))) * list Z =>
                  div255 <$> b.1)
               ∘ (fun b => (b.*1, b.*2))) <$> bs)
      = div255 <$> (concat bs).*1).
    { induction bs as [|b bs IH]; [done|].
      cbn [fmap list_fmap concat compose fst]. rewrite IH.
      by rewrite !fmap_app. }
    rewrite Hgen. unfold chunks. by rewrite batch_from_concat.
Qed.

(** X14: building the data set with [prepare] raises exactly when the
    batch size is zero, when an empty data set is to be shuffled, or when
    augmentation is asked for with a negative brightness factor,
    whatever the data set holds; no file is read then.  Iterating a
    data set that was built fails exactly when one of its images cannot
    be loaded. *)
Theorem prepare_failures (batch_size : nat)
    (input_scaler : option (list (list (list (list R)))
                            -> list (list (list (list R)))))
    (brightness_range : R) (shuffle augment : bool)
    (ds : list (string * Z)) :
  (Preprocessor.prepare stateless_random_uniform RandomContrast RandomFlip
     RandomRotation RandomZoom shuffle_dataset load_image batch_size
     input_scaler brightness_range shuffle augment ds = None
   <-> batch_size = 0
       \/ (shuffle = true /\ ds = [])
       \/ (augment = true /\ num_ltb brightness_range (num_of_Z 0) = true))
  /\ (forall prepared g,
        Preprocessor.prepare stateless_random_uniform RandomContrast
          RandomFlip RandomRotation RandomZoom shuffle_dataset load_image
          batch_size input_scaler brightness_range shuffle augment ds
        = Some prepared ->
        (prepared g = None
         <-> exists item, item ∈ ds /\ load_image item.1 = None)).
Proof using shuffle_permutes.
  split.
  - unfold Preprocessor.prepare, Preprocessor.trace_augmentation.
    destruct shuffle, (decide (ds = [])) as [Hds|Hds];
      rewrite ?bool_decide_eq_true_2, ?bool_decide_eq_false_2 by done;
      cbn [andb]; try (split; [intros _; right; by left|done]);
      (destruct (decide (batch_size = 0)) as [Hbs|Hbs];
         [split; [by left|done]|]);
      (destruct augment;
         [destruct (num_ltb brightness_range (num_of_Z 0)) eqn:Hb|]);
      cbn [mbind option_bind];
      try (split; [intros _; right; by right|done]);
      (split; [done|]);
      intros [?|[[? ?]|[? ?]]]; congruence.
  - intros prepared g Hbuild.
    apply prepare_builds in Hbuild as (Hpos & _ & Hfactor & ->).
    unfold Preprocessor.iterate.
    set (shuffled := if shuffle then shuffle_dataset g ds else (ds, g)).
    assert (Hperm : shuffled.1 ≡ₚ ds).
    { unfold shuffled. destruct shuffle; [apply shuffle_permutes|done]. }
    assert (Hload : mapM (fun item => Preprocessor._parse_fn load_image
                                        item.1 item.2) shuffled.1 = None
                    <-> exists item, item ∈ ds /\ load_image item.1 = None).
    { rewrite mapM_None, Exists_exists. split.
      - intros (item & Hin & Hitem). exists item.
        split; [by rewrite <- Hperm|].
        unfold Preprocessor._parse_fn in Hitem.
        by destruct (load_image item.1).
      - intros (item & Hin & Hitem). exists item.
        split; [by rewrite Hperm|].
        unfold Preprocessor._parse_fn. by rewrite Hitem. }
    destruct (mapM _ shuffled.1) as [parsed|] eqn:Hparse; simpl.
    2: { split; [intros _|done]. by apply Hload. }
    unfold Preprocessor.batch.
    rewrite decide_False by lia. cbn [mbind option_bind].
    match goal with
    | |- context [Preprocessor.augment_stage ?u ?c ?f ?r ?z ?a ?b ?g0 ?d] =>
        destruct (augment_stage_is_Some a b d g0 Hfactor) as [[aug g1] ->]
    end.
    simpl. split; [done|]. intros Hex. by apply Hload in Hex.
Qed.
End prepare_facts.

Lemma reverse_shuffle_permutes (g : nat) (ds : list (string * Z)) :
  (Preprocessor.reverse_shuffle g ds).1 ≡ₚ ds.
Proof. apply reverse_Permutation. Qed.

Lemma prepare_batches_witness :
  (forall g ds, (Preprocessor.reverse_shuffle g ds).1 ≡ₚ ds)
  /\ exists prepared out g',
       Preprocessor.prepare Preprocessor.seeded_uniform
         Preprocessor.contrast_layer Preprocessor.flip_layer
         Preprocessor.still_layer Preprocessor.still_layer
         Preprocessor.reverse_shuffle Preprocessor.sample_files 2 None
         (1 # 10)%Q false false
         [("a.jpg", 0%Z); ("b.jpg", 1%Z); ("c.jpg", 1%Z)] = Some prepared
       /\ prepared 0 = Some (out, g')
       /\ length out = 2
       /\ concat out.*2 = [0; 1; 1]%Z
       /\ concat out.*1
          = [ [[[51 # 255; 102 # 255; 255 # 255]]];
              [[[0 # 255; 0 # 255; 0 # 255]]];
              [[[255 # 255; 255 # 255; 255 # 255]]] ]%Q.
Proof.
  split; [exact reverse_shuffle_permutes|].
  destruct (Preprocessor.prepare Preprocessor.seeded_uniform
              Preprocessor.contrast_layer Preprocessor.flip_layer
              Preprocessor.still_layer Preprocessor.still_layer
              Preprocessor.reverse_shuffle Preprocessor.sample_files 2 None
              (1 # 10)%Q false false
              [("a.jpg", 0%Z); ("b.jpg", 1%Z); ("c.jpg", 1%Z)])
    as [prepared|] eqn:Hp.
  2: { vm_compute in Hp. discriminate Hp. }
  destruct (prepared 0) as [[out g']|] eqn:Hit.
  2: { vm_compute in Hp. injection Hp as <-. vm_compute in Hit.
       discriminate Hit. }
  exists prepared, out, g'. split; [reflexivity|]. split; [exact Hit|].
  destruct (prepare_batches _ _ _ _ _ _ _ reverse_shuffle_permutes
              _ _ _ _ _ _ _ _ _ _ Hp Hit)
    as (_ & _ & Horder & Hlen & _ & Himages).
  split; [exact Hlen|]. split; [exact (Horder eq_refl)|].
  destruct (Himages eq_refl eq_refl eq_refl) as (images & Hload & ->).
  vm_compute in Hload. injection Hload as <-. vm_compute. reflexivity.
Defined.

Lemma prepare_failures_witness :
  (forall g ds, (Preprocessor.reverse_shuffle g ds).1 ≡ₚ ds)
  /\ Preprocessor.prepare Preprocessor.seeded_uniform
       Preprocessor.contrast_layer Preprocessor.flip_layer
       Preprocessor.still_layer Preprocessor.still_layer
       Preprocessor.reverse_shuffle Preprocessor.sample_files 2 None
       (- (1 # 10))%Q false true [] = None
  /\ exists prepared,
       Preprocessor.prepare Preprocessor.seeded_uniform
         Preprocessor.contrast_layer Preprocessor.flip_layer
         Preprocessor.still_layer Preprocessor.still_layer
         Preprocessor.reverse_shuffle Preprocessor.sample_files 2 None
         (1 # 10)%Q true true
         [("a.jpg", 0%Z); ("missing.jpg", 1%Z)] = Some prepared
       /\ prepared 0 = None.
Proof.
  split; [exact reverse_shuffle_permutes|]. split.
  - apply (prepare_failures Preprocessor.seeded_uniform
             Preprocessor.contrast_layer Preprocessor.flip_layer
             Preprocessor.still_layer Preprocessor.still_layer
             Preprocessor.reverse_shuffle Preprocessor.sample_files
             reverse_shuffle_permutes).
    right; right. split; reflexivity.
  - eexists. split; [reflexivity|].
    eapply (proj2 (prepare_failures Preprocessor.seeded_uniform
             Preprocessor.contrast_layer Preprocessor.flip_layer
             Preprocessor.still_layer Preprocessor.still_layer
             Preprocessor.reverse_shuffle Preprocessor.sample_files
             reverse_shuffle_permutes 2 None (1 # 10)%Q true true
             [("a.jpg", 0%Z); ("missing.jpg", 1%Z)])); [reflexivity|].
    exists ("missing.jpg", 1%Z). split; [|reflexivity].
    right. left.
Defined.

(** ** Scores between 0 and 1 *)

Lemma np_round_unit (q : Q) :
  (0 <= q <= 1)%Q ->
  Visualization.np_round q = if Qle_bool q (1 # 2) then 0%Z else 1%Z.
Proof.
  intros [H0 H1]. unfold Visualization.np_round.
  destruct (Qlt_le_dec q 1) as [Hlt|Hge].
  - assert (Hf : Qfloor q = 0%Z).
    { pose proof (Qfloor_le q) as Hle. pose proof (Qfloor_resp_le 0 q H0) as Hge.
      change (Qfloor 0) with 0%Z in Hge.
      assert (Hlt' : (inject_Z (Qfloor q) < inject_Z 1)%Q).
      { apply Qle_lt_trans with q; [done|]. exact Hlt. }
      rewrite <- Zlt_Qlt in Hlt'. lia. }
    rewrite Hf. change (inject_Z 0) with 0%Q.
    destruct (Qcompare_spec (q - 0) (1 # 2)) as [He|Hl|Hg].
    + assert (Hb : Qle_bool q (1 # 2) = true) by (apply Qle_bool_iff; lra).
      by rewrite Hb.
    + assert (Hb : Qle_bool q (1 # 2) = true) by (apply Qle_bool_iff; lra).
      by rewrite Hb.
    + destruct (Qle_bool q (1 # 2)) eqn:Hb; [|done].
      apply Qle_bool_iff in Hb. lra.
  - assert (Hq : (q == 1)%Q) by lra.
    rewrite (Qfloor_comp q 1 Hq). change (Qfloor 1) with 1%Z.
    change (inject_Z 1) with 1%Q.
    destruct (Qcompare_spec (q - 1) (1 # 2)) as [He|Hl|Hg]; [lra| |lra].
    destruct (Qle_bool q (1 # 2)) eqn:Hb; [|done].
    apply Qle_bool_iff in Hb. lra.
Qed.

(** X15: for a score between 0 and 1 and at least two class names,
    [visualize_heatmap] writes class 0 with the first name when the
    score is at most one half, and class 1 with the second name
    otherwise. *)
Theorem predicted_class_threshold (prob : Q) (class_names : list string) :
  (0 <= prob <= 1)%Q ->
  2 <= length class_names ->
  exists name,
    class_names !! (if Qle_bool prob (1 # 2) then 0 else 1) = Some name
    /\ Visualization.predicted_class_text prob class_names
       = Some ("Predicted Class: "
                 +:+ (if Qle_bool prob (1 # 2) then "0" else "1")
                 +:+ " (" +:+ name +:+ ")").
Proof.
  intros Hprob Hlen. unfold Visualization.predicted_class_text.
  rewrite (np_round_unit prob Hprob).
  destruct class_names as [|c0 [|c1 rest]]; simpl in Hlen; [lia..|].
  destruct (Qle_bool prob (1 # 2)).
  - exists c0. split; reflexivity.
  - exists c1. split; reflexivity.
Qed.

Lemma predicted_class_threshold_witness :
  (0 <= 3 # 10 <= 1)%Q
  /\ 2 <= length ["parenchymal"; "pleural"]
  /\ Visualization.predicted_class_text (3 # 10) ["parenchymal"; "pleural"]
     = Some "Predicted Class: 0 (parenchymal)".
Proof.
  assert (Hq : (0 <= 3 # 10 <= 1)%Q) by (split; discriminate).
  assert (Hlen : 2 <= length ["parenchymal"; "pleural"]) by (simpl; lia).
  split; [exact Hq|]. split; [exact Hlen|].
  destruct (predicted_class_threshold (3 # 10) ["parenchymal"; "pleural"]
              Hq Hlen) as (name & Hname & Htext).
  rewrite Htext. vm_compute in Hname. injection Hname as <-.
  reflexivity.
Defined.

(** ** The confusion matrix of a binary classifier *)

Lemma unique_labels_sorted (y_true y_pred expected : list Z) :
  StronglySorted Z.le expected -> NoDup expected ->
  (forall x, x ∈ y_true ++ y_pred <-> x ∈ expected) ->
  Visualization.unique_labels y_true y_pred = expected.
Proof.
  intros Hsorted Hnd Helems. unfold Visualization.unique_labels.
  apply (StronglySorted_unique Z.le).
  - apply StronglySorted_merge_sort; apply _.
  - done.
  - rewrite merge_sort_Permutation. apply NoDup_Permutation.
    + apply NoDup_remove_dups.
    + done.
    + intros x. by rewrite elem_of_remove_dups.
Qed.

Lemma count_pairs_threshold (i j : Z) (labels : list Z) :
  forall predictions : list Q,
  Forall (fun q => (0 <= q <= 1)%Q) predictions ->
  Visualization.count_pairs i j
    (zip labels (Visualization.np_round <$> predictions))
  = length (filter (fun p => p.1 = i
                             /\ (if Qle_bool p.2 (1 # 2) then 0%Z else 1%Z) = j)
                   (zip labels predictions)).
Proof.
  unfold Visualization.count_pairs.
  induction labels as [|l labels IH]; intros [|q predictions] Hrange;
    try done.
  apply Forall_cons in Hrange as [Hq Hrange].
  cbn [fmap list_fmap zip zip_with]. rewrite !filter_cons.
  rewrite (np_round_unit q Hq). simpl.
  specialize (IH predictions Hrange).
  destruct (decide ((l, if Qle_bool q (1 # 2) then 0%Z else 1%Z) = (i, j)))
    as [Heq|Hne].
  - injection Heq as -> <-. rewrite decide_True by done.
    simpl. by rewrite IH.
  - rewrite decide_False by (intros [-> <-]; done). done.
Qed.

Lemma count_pairs_binary (pairs : list (Z * Z)) :
  Forall (fun p => (p.1 = 0 \/ p.1 = 1)%Z /\ (p.2 = 0 \/ p.2 = 1)%Z) pairs ->
  Visualization.count_pairs 0 0 pairs + Visualization.count_pairs 0 1 pairs
  + Visualization.count_pairs 1 0 pairs + Visualization.count_pairs 1 1 pairs
  = length pairs.
Proof.
  unfold Visualization.count_pairs.
  induction 1 as [|[a b] pairs [Ha Hb] _ IH]; [done|].
  rewrite !filter_cons. simpl in Ha, Hb.
  destruct Ha as [-> | ->], Hb as [-> | ->];
    repeat (case_decide; try congruence); simpl; lia.
Qed.

Lemma count_pairs_single (pairs : list (Z * Z)) :
  Forall (fun p => p = (0, 0)%Z) pairs ->
  Visualization.count_pairs 0 0 pairs = length pairs.
Proof.
  unfold Visualization.count_pairs.
  induction 1 as [|p pairs -> _ IH]; [done|].
  rewrite filter_cons, decide_True by done. simpl. by rewrite IH.
Qed.

(** X16: for labels 0 and 1 and scores between 0 and 1, when both
    classes occur among the labels and thresholded scores the matrix
    drawn is 2 x 2, its entries count the samples by label and by
    whether the score is at most one half or above it, and they add up
    to the number of samples; when every label is 0 and every score at
    most one half, the matrix is the single entry [[n]]. *)
Theorem binary_confusion_matrix (labels : list Z) (predictions : list Q) :
  let count (label : Z) (low : bool) :=
    length (filter (fun p : Z * Q =>
                      p.1 = label /\ Qle_bool p.2 (1 # 2) = low)
                   (zip labels predictions)) in
  length labels = length predictions ->
  Forall (fun l => l = 0 \/ l = 1)%Z labels ->
  Forall (fun q => (0 <= q <= 1)%Q) predictions ->
  ((exists i l q, labels !! i = Some l /\ predictions !! i = Some q
                  /\ (l = 0%Z \/ Qle_bool q (1 # 2) = true)) ->
   (exists i l q, labels !! i = Some l /\ predictions !! i = Some q
                  /\ (l = 1%Z \/ Qle_bool q (1 # 2) = false)) ->
   Visualization.plot_confusion_matrix labels predictions
   = Some [[count 0%Z true; count 0%Z false];
           [count 1%Z true; count 1%Z false]]
   /\ count 0%Z true + count 0%Z false + count 1%Z true + count 1%Z false
      = length labels)
  /\ (labels <> [] ->
      Forall (fun l => l = 0%Z) labels ->
      Forall (fun q => Qle_bool q (1 # 2) = true) predictions ->
      Visualization.plot_confusion_matrix labels predictions
      = Some [[length labels]]).
Proof.
  intros count Hlen Hlabels Hrange.
  set (rounded := Visualization.np_round <$> predictions).
  assert (Hrounded : Forall (fun r => r = 0 \/ r = 1)%Z rounded).
  { unfold rounded. apply Forall_fmap.
    eapply Forall_impl; [exact Hrange|]. intros q Hq. simpl.
    rewrite (np_round_unit q Hq). destruct (Qle_bool q (1 # 2)); auto. }
  assert (Hcm : Visualization.plot_confusion_matrix labels predictions
                = Some ((fun i => (fun j => Visualization.count_pairs i j
                                               (zip labels rounded))
                                    <$> Visualization.unique_labels labels rounded)
                          <$> Visualization.unique_labels labels rounded)).
  { unfold Visualization.plot_confusion_matrix, Visualization.confusion_matrix.
    fold rounded. rewrite decide_True; [done|].
    unfold rounded. by rewrite length_fmap. }
  assert (Hcount : forall (label : Z) (low : bool),
    Visualization.count_pairs label (if low then 0%Z else 1%Z)
      (zip labels rounded) = count label low).
  { intros label low. unfold rounded, count.
    rewrite (count_pairs_threshold _ _ labels predictions Hrange).
    f_equal. apply list_filter_iff. intros [l q]. simpl.
    destruct (Qle_bool q (1 # 2)), low; intuition congruence. }
  split.
  - intros (i0 & l0 & q0 & Hl0 & Hq0 & Hzero) (i1 & l1 & q1 & Hl1 & Hq1 & Hone).
    assert (Hlabs : Visualization.unique_labels labels rounded = [0; 1]%Z).
    { apply unique_labels_sorted.
      - repeat constructor; lia.
      - apply (bool_decide_unpack _). vm_compute. exact I.
      - intros x. rewrite elem_of_app. split.
        + intros [Hx|Hx].
          * rewrite Forall_forall in Hlabels.
            destruct (Hlabels x Hx) as [-> | ->]; [by left|by right; left].
          * rewrite Forall_forall in Hrounded.
            destruct (Hrounded x Hx) as [-> | ->]; [by left|by right; left].
        + intros [->|[->|?%elem_of_nil]%elem_of_cons]%elem_of_cons; [| |done].
          * destruct Hzero as [->|Hb].
            -- left. by apply list_elem_of_lookup_2 in Hl0.
            -- right. apply list_elem_of_lookup. exists i0.
               unfold rounded. rewrite list_lookup_fmap, Hq0. simpl.
               rewrite np_round_unit, Hb; [done|].
               by apply (Forall_lookup_1 _ _ _ _ Hrange Hq0).
          * destruct Hone as [->|Hb].
            -- left. by apply list_elem_of_lookup_2 in Hl1.
            -- right. apply list_elem_of_lookup. exists i1.
               unfold rounded. rewrite list_lookup_fmap, Hq1. simpl.
               rewrite np_round_unit, Hb; [done|].
               by apply (Forall_lookup_1 _ _ _ _ Hrange Hq1). }
    rewrite Hcm, Hlabs. cbn [fmap list_fmap].
    rewrite <- (Hcount 0%Z true), <- (Hcount 0%Z false),
            <- (Hcount 1%Z true), <- (Hcount 1%Z false).
    split; [done|].
    rewrite count_pairs_binary.
    + rewrite length_zip_with. unfold rounded. rewrite length_fmap. lia.
    + apply Forall_forall. intros [l r] Hin.
      apply elem_of_zip_with in Hin as (l' & r' & [= <- <-] & Hl' & Hr').
      rewrite Forall_forall in Hlabels, Hrounded. simpl. auto.
  - intros Hne Hzero Hlow.
    assert (Hr0 : Forall (fun r => r = 0%Z) rounded).
    { unfold rounded. apply Forall_fmap. rewrite Forall_forall in Hrange.
      apply Forall_forall. intros q Hq. simpl.
      rewrite (np_round_unit q (Hrange q Hq)).
      rewrite Forall_forall in Hlow. by rewrite (Hlow q Hq). }
    assert (Hlabs : Visualization.unique_labels labels rounded = [0]%Z).
    { apply unique_labels_sorted.
      - repeat constructor.
      - apply NoDup_singleton.
      - intros x. rewrite elem_of_app, list_elem_of_singleton.
        rewrite Forall_forall in Hzero, Hr0. split.
        + intros [?|?]; auto.
        + intros ->. left. destruct labels as [|l labels]; [done|].
          rewrite (Hzero l) by (by left). by left. }
    rewrite Hcm, Hlabs. cbn [fmap list_fmap].
    rewrite count_pairs_single.
    + rewrite length_zip_with. unfold rounded. rewrite length_fmap.
      do 3 f_equal. lia.
    + apply Forall_forall. intros [l r] Hin.
      apply elem_of_zip_with in Hin as (l' & r' & [= <- <-] & Hl' & Hr').
      rewrite Forall_forall in Hzero, Hr0.
      by rewrite (Hzero l), (Hr0 r).
Qed.

Lemma binary_confusion_matrix_witness :
  length [0; 0; 1; 1]%Z = length [1 # 10; 4 # 10; 6 # 10; 9 # 10]
  /\ Forall (fun l => l = 0 \/ l = 1)%Z [0; 0; 1; 1]%Z
  /\ Forall (fun q => (0 <= q <= 1)%Q) [1 # 10; 4 # 10; 6 # 10; 9 # 10]
  /\ Visualization.plot_confusion_matrix [0; 0; 1; 1]%Z
       [1 # 10; 4 # 10; 6 # 10; 9 # 10]
     = Some [[2; 0]; [0; 2]].
Proof.
  assert (Hlen : length [0; 0; 1; 1]%Z
                 = length [1 # 10; 4 # 10; 6 # 10; 9 # 10]) by reflexivity.
  assert (Hlabels : Forall (fun l => l = 0 \/ l = 1)%Z [0; 0; 1; 1]%Z).
  { apply (bool_decide_unpack _). vm_compute. exact I. }
  assert (Hrange : Forall (fun q => (0 <= q <= 1)%Q)
                          [1 # 10; 4 # 10; 6 # 10; 9 # 10]).
  { repeat constructor; discriminate. }
  split; [exact Hlen|]. split; [exact Hlabels|]. split; [exact Hrange|].
  destruct (proj1 (binary_confusion_matrix _ _ Hlen Hlabels Hrange))
    as [Hcm _].
  - exists 0, 0%Z, (1 # 10). split; [reflexivity|].
    split; [reflexivity|by left].
  - exists 2, 1%Z, (6 # 10). split; [reflexivity|].
    split; [reflexivity|by left].
  - rewrite Hcm. vm_compute. reflexivity.
Defined.

(** ** Axis limits of the threshold plot *)

Lemma foldl_min_le (rest : list Q) :
  forall a,
  (foldl (fun a b => if Qle_bool a b then a else b) a rest <= a)%Q
  /\ forall v, v ∈ rest ->
       (foldl (fun a b => if Qle_bool a b then a else b) a rest <= v)%Q.
Proof.
  induction rest as [|b rest IH]; intros a; simpl.
  - split; [lra|]. by intros v ?%elem_of_nil.
  - destruct (Qle_bool a b) eqn:Hab.
    + apply Qle_bool_iff in Hab. destruct (IH a) as [H1 H2].
      split; [done|]. intros v [->|Hv]%elem_of_cons; [lra|by apply H2].
    + assert (Hba : (b <= a)%Q).
      { destruct (Qlt_le_dec b a) as [?|Hle]; [lra|].
        apply Qle_bool_iff in Hle. congruence. }
      destruct (IH b) as [H1 H2]. split; [lra|].
      intros v [->|Hv]%elem_of_cons; [done|by apply H2].
Qed.

Lemma foldl_max_elem (rest : list Q) :
  forall a,
  foldl (fun a b => if Qle_bool a b then b else a) a rest ∈ a :: rest.
Proof.
  induction rest as [|b rest IH]; intros a; simpl; [by left|].
  destruct (Qle_bool a b).
  - right. apply IH.
  - specialize (IH a). apply elem_of_cons in IH as [->|?]; [by left|].
    by do 2 right.
Qed.

Lemma Qlt_bool_true (a b : Q) :
  Visualization.Qlt_bool a b = true <-> (a < b)%Q.
Proof.
  unfold Visualization.Qlt_bool. rewrite negb_true_iff. split.
  - intros Hb. destruct (Qlt_le_dec a b) as [?|Hle]; [done|].
    apply Qle_bool_iff in Hle. congruence.
  - intros Hlt. destruct (Qle_bool b a) eqn:Hb; [|done].
    apply Qle_bool_iff in Hb. lra.
Qed.

Lemma y_limit_step_bounds (metrics_df : gmap string (list Q)) lims x lims' :
  Visualization.y_limit_step metrics_df lims x = Some lims' ->
  exists col,
    metrics_df !! x = Some col
    /\ (lims'.1 <= lims.1)%Q /\ (lims'.2 <= lims.2)%Q
    /\ (forall v, v ∈ col -> (lims'.1 <= v)%Q)
    /\ ((forall v, v ∈ col -> (0 <= v)%Q) -> lims.2 = 0%Q -> lims'.2 = 0%Q).
Proof.
  unfold Visualization.y_limit_step.
  destruct (metrics_df !! x) as [col|]; simpl; [|done].
  destruct lims as [lo hi]. intros [= <-]. exists col. split; [done|].
  simpl. split; [|split; [|split]].
  - destruct (Visualization.series_min col) as [m|]; [|lra].
    destruct (Visualization.Qlt_bool m lo) eqn:Hb; [|lra].
    apply Qlt_bool_true in Hb. lra.
  - destruct (Visualization.series_max col) as [m|]; [|lra].
    destruct (Visualization.Qlt_bool m hi) eqn:Hb; [|lra].
    apply Qlt_bool_true in Hb. lra.
  - intros v Hv. destruct col as [|c col]; [by apply elem_of_nil in Hv|].
    simpl. destruct (foldl_min_le col c) as [H1 H2].
    set (m := foldl _ c col) in *.
    assert (Hm : (m <= v)%Q).
    { apply elem_of_cons in Hv as [->|Hv]; [done|by apply H2]. }
    destruct (Visualization.Qlt_bool m lo) eqn:Hb; [done|].
    assert (~ (m < lo)%Q) by (rewrite <- Qlt_bool_true; congruence). lra.
  - intros Hpos ->. destruct col as [|c col]; [done|]. simpl.
    pose proof (foldl_max_elem col c) as Hin.
    set (m := foldl _ c col) in *. specialize (Hpos m Hin).
    destruct (Visualization.Qlt_bool m 0) eqn:Hb; [|done].
    apply Qlt_bool_true in Hb. lra.
Qed.

Lemma y_limits_fold (metrics_df : gmap string (list Q)) (names : list string) :
  forall lims0 lims,
  foldl (fun acc x => lims ← acc; Visualization.y_limit_step metrics_df lims x)
        (Some lims0) names = Some lims ->
  (lims.1 <= lims0.1)%Q /\ (lims.2 <= lims0.2)%Q
  /\ (forall x, x ∈ names ->
        exists col, metrics_df !! x = Some col
                    /\ forall v, v ∈ col -> (lims.1 <= v)%Q)
  /\ ((forall x col v, x ∈ names -> metrics_df !! x = Some col -> v ∈ col ->
         (0 <= v)%Q) ->
      lims0.2 = 0%Q -> lims.2 = 0%Q).
Proof.
  induction names as [|x names IH]; intros lims0 lims; simpl.
  - intros [= <-]. split; [lra|]. split; [lra|].
    split; [by intros x ?%elem_of_nil|done].
  - destruct (Visualization.y_limit_step metrics_df lims0 x) as [lims1|]
      eqn:Hstep.
    2: { intros Hnone. exfalso. clear -Hnone.
         induction names as [|y names IH]; [done|]. by apply IH. }
    intros Hrest.
    destruct (y_limit_step_bounds _ _ _ _ Hstep)
      as (col & Hcol & Hlo & Hhi & Hmin & Hzero).
    destruct (IH lims1 lims Hrest) as (Hlo' & Hhi' & Hmin' & Hzero').
    split; [lra|]. split; [lra|]. split.
    + intros y [->|Hy]%elem_of_cons; [|by apply Hmin'].
      exists col. split; [done|]. intros v Hv. specialize (Hmin v Hv). lra.
    + intros Hpos H0. apply Hzero'.
      * intros y c v Hy. apply Hpos. by right.
      * apply Hzero; [|done]. intros v Hv.
        apply (Hpos x col v); [by left|done..].
Qed.

(** X17: the upper y-limit computed by
    [plot_clip_pred_threshold_experiment_old] never exceeds 0, each
    column maximum replacing the running limit only when it is smaller;
    the lower limit is at most 1 and not above any plotted value.  For
    non-negative metrics the upper limit stays 0, so the axis ends at
    0.02 and every value above 0.02 lies outside it.  With
    [metrics_to_plot] left at its default [None] the loop raises. *)
Theorem y_limits_upper_limit (metrics_df : gmap string (list Q))
    (names : list string) (lims : Q * Q) :
  Visualization.y_limits metrics_df (Some names) = Some lims ->
  (lims.1 <= 1)%Q /\ (lims.2 <= 0)%Q
  /\ (forall x, x ∈ names ->
        exists col, metrics_df !! x = Some col
                    /\ forall v, v ∈ col -> (lims.1 <= v)%Q)
  /\ ((forall x col v, x ∈ names -> metrics_df !! x = Some col -> v ∈ col ->
         (0 <= v)%Q) ->
      lims.2 = 0%Q
      /\ ((Visualization.set_ylim lims).2 == 1 # 50)%Q
      /\ forall x col v, x ∈ names -> metrics_df !! x = Some col -> v ∈ col ->
           (1 # 50 < v)%Q -> ((Visualization.set_ylim lims).2 < v)%Q)
  /\ Visualization.y_limits metrics_df None = None.
Proof.
  unfold Visualization.y_limits. simpl. intros Hrun.
  destruct (y_limits_fold metrics_df names (1, 0)%Q lims Hrun)
    as (Hlo & Hhi & Hmin & Hzero).
  simpl in Hlo, Hhi.
  split; [done|]. split; [done|]. split; [done|]. split; [|done].
  intros Hpos. specialize (Hzero Hpos eq_refl).
  split; [done|]. unfold Visualization.set_ylim. simpl. rewrite Hzero.
  split; [reflexivity|]. intros x col v _ _ _ Hv.
  assert (E : (0 + (2 # 100) == 1 # 50)%Q) by reflexivity. lra.
Qed.

Lemma y_limits_upper_limit_witness :
  let metrics_df : gmap string (list Q) :=
    {[ "accuracy" := [7 # 10; 9 # 10]; "recall" := [6 # 10; 8 # 10] ]} in
  exists lims,
    Visualization.y_limits metrics_df (Some ["accuracy"; "recall"])
    = Some lims
    /\ (lims.2 <= 0)%Q /\ (lims.1 <= 1)%Q.
Proof.
  intros metrics_df.
  destruct (Visualization.y_limits metrics_df (Some ["accuracy"; "recall"]))
    as [lims|] eqn:Hy.
  2: { vm_compute in Hy. discriminate Hy. }
  exists lims. split; [reflexivity|].
  destruct (y_limits_upper_limit metrics_df _ lims Hy) as (Hlo & Hhi & _).
  split; [exact Hhi|exact Hlo].
Defined.

(** ** Grad-CAM over a frame table *)

Section apply_gradcam_facts.
Context {R : Type} `{Num R} {Img : Type} {Picture : Type}.
Variable get_gradcam_plusplus_heatmap :
  GradCAM.Model (R:=R) Img -> Img -> option (list (list (list R))).
Variable colour_map : list (list R) -> Picture.

Lemma gradcam_step_Some mode (model : GradCAM.Model Img) x pic :
  GradCAM.gradcam_step get_gradcam_plusplus_heatmap colour_map mode model x
  = Some pic
  <-> mode = "plusplus"
      /\ exists heatmap,
           GradCAM.postprocess (get_gradcam_plusplus_heatmap model x)
           = Some heatmap
           /\ pic = colour_map heatmap.
Proof.
  unfold GradCAM.gradcam_step, GradCAM.get_heatmap_gen_fn.
  destruct (decide (mode = "plusplus")) as [->|Hpp]; simpl.
  - destruct (GradCAM.postprocess _) as [h|]; simpl.
    + split; [intros [= <-]; split; [done|by exists h]|].
      by intros (_ & h' & [= <-] & ->).
    + split; [done|]. by intros (_ & h' & ? & _).
  - destruct (decide (mode = "normal")); simpl; split; try done;
      by intros [? _].
Qed.

Lemma gradcam_loop_Some mode (model : GradCAM.Model Img) frames :
  forall heatmap result,
  GradCAM.gradcam_loop get_gradcam_plusplus_heatmap colour_map mode model
    heatmap frames = Some result ->
  (frames = [] /\ result = heatmap)
  \/ (exists x pic,
        last frames = Some x /\ result = Some pic
        /\ GradCAM.gradcam_step get_gradcam_plusplus_heatmap colour_map
             mode model x = Some pic).
Proof.
  induction frames as [|x frames IH]; intros heatmap result; simpl.
  - intros [= <-]. by left.
  - destruct (GradCAM.gradcam_step _ _ _ _ x) as [pic|] eqn:Hstep; simpl;
      [|done].
    intros [[-> ->]|(y & pic' & Hlast & -> & Hy)]%IH; right.
    + by exists x, pic.
    + exists y, pic'. split; [|done]. destruct frames; [done|]. done.
Qed.

Lemma gradcam_loop_completes (model : GradCAM.Model Img) frames :
  frames <> [] ->
  Forall (fun x => is_Some (GradCAM.postprocess
                              (get_gradcam_plusplus_heatmap model x)))
         frames ->
  forall heatmap,
  exists pic,
    GradCAM.gradcam_loop get_gradcam_plusplus_heatmap colour_map
      "plusplus" model heatmap frames = Some (Some pic).
Proof.
  intros Hne Hall. induction Hall as [|x frames [h Hh] Hall IH]; [done|].
  intros heatmap. simpl.
  assert (Hstep : GradCAM.gradcam_step get_gradcam_plusplus_heatmap
                    colour_map "plusplus" model x
                  = Some (colour_map h)).
  { apply gradcam_step_Some. split; [done|]. by exists h. }
  rewrite Hstep. simpl. destruct frames as [|y frames].
  - by exists (colour_map h).
  - by apply IH.
Qed.

Lemma gradcam_loop_all (model : GradCAM.Model Img) frames :
  forall heatmap result,
  GradCAM.gradcam_loop get_gradcam_plusplus_heatmap colour_map
    "plusplus" model heatmap frames = Some result ->
  Forall (fun x => is_Some (GradCAM.postprocess
                              (get_gradcam_plusplus_heatmap model x)))
         frames.
Proof.
  induction frames as [|x frames IH]; intros heatmap result; simpl; [done|].
  destruct (GradCAM.gradcam_step _ _ _ _ x) as [pic|] eqn:Hstep; simpl;
    [|done].
  intros Hrest. constructor; [|by eapply IH].
  apply gradcam_step_Some in Hstep as (_ & h & -> & _). by eexists.
Qed.

(** X18: [apply_gradcam] returns a heatmap only in mode [plusplus] and
    on a non-empty frame table, and then the colour-mapped heatmap of
    the last frame; in mode [normal] and in any other mode it raises on
    the first frame, and on an empty table the name it returns is
    unbound; in mode [plusplus] it completes whenever the post-
    processing of every frame does (image input and plotting being taken
    to succeed). *)
Theorem apply_gradcam_needs_plusplus (mode : string)
    (model : GradCAM.Model (R:=R) Img) (frames : list Img) :
  (forall pic,
     GradCAM.apply_gradcam get_gradcam_plusplus_heatmap colour_map mode
       model frames = Some pic ->
     mode = "plusplus"
     /\ exists x heatmap,
          last frames = Some x
          /\ GradCAM.postprocess (get_gradcam_plusplus_heatmap model x)
             = Some heatmap
          /\ pic = colour_map heatmap)
  /\ (mode <> "plusplus" ->
      GradCAM.apply_gradcam get_gradcam_plusplus_heatmap colour_map mode
        model frames = None)
  /\ GradCAM.apply_gradcam get_gradcam_plusplus_heatmap colour_map mode
       model [] = None
  /\ (mode = "plusplus" -> frames <> [] ->
      Forall (fun x => is_Some (GradCAM.postprocess
                                  (get_gradcam_plusplus_heatmap model x)))
             frames ->
      is_Some (GradCAM.apply_gradcam get_gradcam_plusplus_heatmap colour_map
                 mode model frames)).
Proof.
  assert (Hsome : forall pic,
     GradCAM.apply_gradcam get_gradcam_plusplus_heatmap colour_map mode
       model frames = Some pic ->
     mode = "plusplus"
     /\ exists x heatmap,
          last frames = Some x
          /\ GradCAM.postprocess (get_gradcam_plusplus_heatmap model x)
             = Some heatmap
          /\ pic = colour_map heatmap).
  { intros pic. unfold GradCAM.apply_gradcam.
    destruct (GradCAM.gradcam_loop _ _ _ _ _ _) as [result|] eqn:Hloop;
      simpl; [|done].
    intros ->.
    apply gradcam_loop_Some in Hloop as [[_ ?]|(x & pic' & Hlast & [= <-] & Hx)];
      [done|].
    apply gradcam_step_Some in Hx as (Hmode & h & Hh & ->).
    split; [done|]. by exists x, h. }
  split; [exact Hsome|]. split; [|split; [done|]].
  - intros Hmode.
    destruct (GradCAM.apply_gradcam _ _ _ _ _) as [pic|] eqn:E; [|done].
    by destruct (Hsome pic eq_refl).
  - intros -> Hne Hall. unfold GradCAM.apply_gradcam.
    destruct (gradcam_loop_completes model frames Hne Hall None) as [pic ->].
    by eexists.
Qed.
End apply_gradcam_facts.

(** ** Grad-CAM++ *)

Section plusplus_shape.
Context {R : Type} `{Num R}.

Lemma concat_map_map {A B : Type} (f : A -> B) (t : list (list A)) :
  concat (map (map f) t) = map f (concat t).
Proof.
  induction t as [|r t IH]; [done|]. simpl. by rewrite IH, map_app.
Qed.

Lemma plusplus_heatmap_flatten (tapes : GradCAM.Tapes (R:=R)) :
  Np.flatten (GradCAM.relu (GradCAM.plusplus_heatmap tapes)) = []
  <-> concat (GradCAM.last_conv_layer tapes) = [].
Proof.
  unfold Np.flatten, GradCAM.relu, GradCAM.plusplus_heatmap.
  cbn [map concat]. rewrite app_nil_r, !concat_map_map.
  split.
  - intros Hnil. by do 2 apply map_eq_nil in Hnil.
  - intros ->. done.
Qed.

Lemma plusplus_postprocess_is_Some (tapes : GradCAM.Tapes (R:=R)) :
  is_Some (GradCAM.postprocess (Some (GradCAM.plusplus_heatmap tapes)))
  <-> concat (GradCAM.last_conv_layer tapes) <> [].
Proof.
  unfold GradCAM.postprocess, GradCAM.relu_normalize, GradCAM.divisor.
  simpl. rewrite <- plusplus_heatmap_flatten.
  destruct (Np.flatten _) as [|x xs] eqn:Hflat; simpl.
  - split; [by intros [? ?]|done].
  - split; [done|]. intros _. by eexists.
Qed.

Lemma gradients_Some (r : GradCAM.TapeResults (R:=R)) tapes :
  GradCAM.gradients r = Some tapes ->
  GradCAM.last_conv_layer tapes = GradCAM.activations r
  /\ GradCAM.tape_1_gradient r = Some (GradCAM.first_grads tapes)
  /\ GradCAM.tape_2_gradient r = Some (GradCAM.second_grads tapes)
  /\ GradCAM.tape_3_gradient r = Some (GradCAM.third_grads tapes).
Proof.
  unfold GradCAM.gradients.
  destruct (GradCAM.tape_1_gradient r) as [g1|]; [|done].
  destruct (GradCAM.tape_2_gradient r) as [g2|]; [|done].
  destruct (GradCAM.tape_3_gradient r) as [g3|]; [|done].
  by intros [= <-].
Qed.

Lemma gradients_is_Some (r : GradCAM.TapeResults (R:=R)) :
  is_Some (GradCAM.gradients r)
  <-> is_Some (GradCAM.tape_1_gradient r)
      /\ is_Some (GradCAM.tape_2_gradient r)
      /\ is_Some (GradCAM.tape_3_gradient r).
Proof.
  unfold GradCAM.gradients.
  destruct (GradCAM.tape_1_gradient r) as [g1|],
           (GradCAM.tape_2_gradient r) as [g2|],
           (GradCAM.tape_3_gradient r) as [g3|]; simpl;
    (split; [intros [? ?]; try done; by repeat split
            |intros ([? ?] & [? ?] & [? ?]); try done; by eexists]).
Qed.

Lemma plusplus_frame_is_Some (r : GradCAM.TapeResults (R:=R)) :
  is_Some (GradCAM.postprocess (GradCAM.get_gradcam_plusplus_heatmap r))
  <-> is_Some (GradCAM.tape_1_gradient r)
      /\ is_Some (GradCAM.tape_2_gradient r)
      /\ is_Some (GradCAM.tape_3_gradient r)
      /\ concat (GradCAM.activations r) <> [].
Proof.
  unfold GradCAM.get_gradcam_plusplus_heatmap.
  pose proof (gradients_is_Some r) as Hg.
  destruct (GradCAM.gradients r) as [tapes|] eqn:Ht; cbn [mbind option_bind].
  - apply gradients_Some in Ht as (Hact & _).
    rewrite plusplus_postprocess_is_Some, Hact.
    destruct (proj1 Hg) as (H1 & H2 & H3); [by eexists|]. tauto.
  - split; [by intros [? ?]|]. intros (H1 & H2 & H3 & _).
    destruct (proj2 Hg) as [? ?]; done.
Qed.

(** X19: [get_gradcam_plusplus_heatmap] returns a heatmap exactly when
    each of the three tapes returns a gradient (a [None] gradient makes
    it raise); the heatmap then has one entry on the batch axis and the
    rows and columns of the activation map, its post-processing in
    [apply_gradcam] succeeds exactly when the activation map has a
    position, and keeps the rows and columns; so in mode [plusplus],
    [apply_gradcam] completes on a non-empty frame table exactly when for
    every frame the tapes return their gradients and the activation map
    is not empty (image input and plotting being taken to succeed).  On
    the sample, a score that is linear in the activations has no second
    gradient and the routine raises. *)
Theorem gradcam_plusplus_postprocess {Img Picture : Type}
    (run_tapes : GradCAM.Model (R:=R) Img -> Img
                 -> GradCAM.TapeResults (R:=R))
    (colour_map : list (list R) -> Picture)
    (model : GradCAM.Model (R:=R) Img) (frames : list Img) :
  (forall r : GradCAM.TapeResults (R:=R),
     (is_Some (GradCAM.get_gradcam_plusplus_heatmap r)
      <-> is_Some (GradCAM.tape_1_gradient r)
          /\ is_Some (GradCAM.tape_2_gradient r)
          /\ is_Some (GradCAM.tape_3_gradient r))
     /\ forall raw,
          GradCAM.get_gradcam_plusplus_heatmap r = Some raw ->
          (exists heatmap,
             raw = [heatmap]
             /\ Forall2 (fun row row' => length row' = length row)
                        (GradCAM.activations r) heatmap)
          /\ (is_Some (GradCAM.postprocess (Some raw))
              <-> concat (GradCAM.activations r) <> [])
          /\ (forall out,
                GradCAM.postprocess (Some raw) = Some out ->
                Forall2 (fun row row' => length row' = length row)
                        (GradCAM.activations r) out))
  /\ (frames <> [] ->
      (is_Some (GradCAM.apply_gradcam
                  (fun model x =>
                     GradCAM.get_gradcam_plusplus_heatmap
                       (run_tapes model x))
                  colour_map "plusplus" model frames)
       <-> Forall (fun x =>
                     is_Some (GradCAM.tape_1_gradient (run_tapes model x))
                     /\ is_Some (GradCAM.tape_2_gradient (run_tapes model x))
                     /\ is_Some (GradCAM.tape_3_gradient (run_tapes model x))
                     /\ concat (GradCAM.activations (run_tapes model x))
                        <> [])
                  frames))
  /\ (exists heatmap,
        GradCAM.get_gradcam_plusplus_heatmap GradCAM.sample_tape_results
        = Some [[heatmap]]
        /\ length heatmap = 2)
  /\ GradCAM.get_gradcam_plusplus_heatmap GradCAM.linear_score_results
     = None.
Proof.
  assert (Hshape : forall (f : list R -> R) (t : list (list (list R))),
    Forall2 (fun row row' : list _ => length row' = length row)
            t (map (map f) t)).
  { intros f t. induction t as [|r t IH]; constructor; [|done].
    by rewrite length_map. }
  assert (Hshape' : forall (f : R -> R) (t : list (list R)) t0,
    Forall2 (fun (row : list (list R)) (row' : list R) =>
               length row' = length row) t0 t ->
    Forall2 (fun (row : list (list R)) (row' : list R) =>
               length row' = length row) t0 (map (map f) t)).
  { intros f t t0 Ht. induction Ht as [|r r' t0 t Hr _ IH]; constructor;
      [|done]. by rewrite length_map. }
  split; [|split; [|split]].
  - intros r. split.
    + rewrite <- gradients_is_Some.
      unfold GradCAM.get_gradcam_plusplus_heatmap.
      destruct (GradCAM.gradients r); simpl; split; intros [? ?];
        try done; by eexists.
    + intros raw. unfold GradCAM.get_gradcam_plusplus_heatmap.
      destruct (GradCAM.gradients r) as [tapes|] eqn:Ht; simpl; [|done].
      apply gradients_Some in Ht as (<- & _). intros [= <-].
      split; [|split].
      * eexists. split; [reflexivity|]. apply Hshape.
      * apply plusplus_postprocess_is_Some.
      * intros out. unfold GradCAM.postprocess, GradCAM.relu_normalize.
        simpl. destruct (GradCAM.divisor _) as [d|]; simpl; [|done].
        intros [= <-]. do 2 apply Hshape'. apply Hshape.
  - intros Hne.
    set (gen := fun (model : GradCAM.Model (R:=R) Img) (x : Img) =>
                  GradCAM.get_gradcam_plusplus_heatmap (run_tapes model x)).
    split.
    + intros [pic Hpic].
      pose proof (gradcam_loop_all gen colour_map model frames) as Hall.
      unfold GradCAM.apply_gradcam in Hpic.
      destruct (GradCAM.gradcam_loop _ _ _ _ _ _) as [result|] eqn:Hloop;
        [|done].
      specialize (Hall None result Hloop).
      eapply Forall_impl; [exact Hall|]. intros x Hx.
      by apply plusplus_frame_is_Some.
    + intros Hall. unfold GradCAM.apply_gradcam.
      assert (Hpost : Forall (fun x =>
                is_Some (GradCAM.postprocess (gen model x))) frames).
      { eapply Forall_impl; [exact Hall|]. intros x Hx.
        by apply plusplus_frame_is_Some. }
      destruct (gradcam_loop_completes gen colour_map model frames Hne
                  Hpost None) as [pic ->].
      by eexists.
  - eexists. split; reflexivity.
  - reflexivity.
Qed.
End plusplus_shape.

Lemma foldl_Qplus_div (n : Q) (xs : list Q) (a : Q) :
  (foldl Qplus (a / n) ((fun x => x / n) <$> xs) == foldl Qplus a xs / n)%Q.
Proof.
  revert a. induction xs as [|x xs IH]; intros a; [reflexivity|].
  cbn [fmap list_fmap foldl].
  assert (E : (a / n + x / n == (a + x) / n)%Q).
  { unfold Qdiv. ring. }
  assert (Hcomp : forall l (p q : Q), (p == q)%Q ->
                    (foldl Qplus p l == foldl Qplus q l)%Q).
  { clear. induction l as [|y l IH]; intros p q Hpq; [done|].
    simpl. apply IH. by rewrite Hpq. }
  rewrite (Hcomp _ _ _ E). apply IH.
Qed.

Lemma Np_sum_div (n : Q) (xs : list Q) :
  (Np.sum ((fun x => x / n) <$> xs) == Np.sum xs / n)%Q.
Proof.
  unfold Np.sum. simpl.
  assert (Hcomp : forall l (p q : Q), (p == q)%Q ->
                    (foldl Qplus p l == foldl Qplus q l)%Q).
  { clear. induction l as [|y l IH]; intros p q Hpq; [done|].
    simpl. apply IH. by rewrite Hpq. }
  rewrite <- foldl_Qplus_div. apply Hcomp. unfold Qdiv. ring.
Qed.

Lemma zip3_pixels (f : Q -> Q -> Q) (c : nat) (a b : list (list (list Q))) :
  Forall (fun v => length v = c) (concat a) ->
  Forall (fun v => length v = c) (concat b) ->
  Forall (fun v => length v = c) (concat (GradCAM.zip3 f a b)).
Proof.
  unfold GradCAM.zip3. rewrite !Forall_concat.
  revert b. induction a as [|ra a IH]; intros [|rb b] Ha Hb; try constructor.
  - apply Forall_cons in Ha as [Hra Ha]. apply Forall_cons in Hb as [Hrb Hb].
    clear -Hra Hrb. revert rb Hrb.
    induction ra as [|va ra IH]; intros [|vb rb] Hrb; try constructor.
    + apply Forall_cons in Hra as [Hva _]. apply Forall_cons in Hrb as [Hvb _].
      rewrite length_zip_with. lia.
    + apply Forall_cons in Hra as [_ Hra]. apply Forall_cons in Hrb as [_ Hrb].
      by apply IH.
  - apply Forall_cons in Ha as [_ Ha]. apply Forall_cons in Hb as [_ Hb].
    by apply IH.
Qed.

Lemma map3_pixels (f : Q -> Q) (c : nat) (a : list (list (list Q))) :
  Forall (fun v => length v = c) (concat a) ->
  Forall (fun v => length v = c) (concat (GradCAM.map3 f a)).
Proof.
  unfold GradCAM.map3. rewrite concat_map_map. intros Ha.
  apply Forall_forall. intros v Hv. apply list_elem_of_In, in_map_iff in Hv.
  destruct Hv as (v' & <- & Hv'). rewrite length_map.
  rewrite Forall_forall in Ha. apply Ha. by apply list_elem_of_In.
Qed.

Lemma broadcast_pixels (f : Q -> Q -> Q) (c : nat)
    (a : list (list (list Q))) (w : list Q) :
  length w = c ->
  Forall (fun v => length v = c) (concat a) ->
  Forall (fun v => length v = c) (concat (GradCAM.broadcast f a w)).
Proof.
  unfold GradCAM.broadcast. rewrite concat_map_map. intros Hw Ha.
  apply Forall_forall. intros v Hv. apply list_elem_of_In, in_map_iff in Hv.
  destruct Hv as (v' & <- & Hv'). rewrite length_zip_with.
  rewrite Forall_forall in Ha. rewrite (Ha v') by (by apply list_elem_of_In).
  lia.
Qed.

Lemma channels_pixels (c : nat) (a : list (list (list Q))) :
  concat a <> [] ->
  Forall (fun v => length v = c) (concat a) ->
  GradCAM.channels a = c.
Proof.
  unfold GradCAM.channels. destruct (concat a) as [|v vs]; [done|].
  intros _ Hall. by apply Forall_cons in Hall as [? _].
Qed.

Lemma sum_positions_lookup (a : list (list (list Q))) (c0 : nat) (n : Q) :
  GradCAM.sum_positions a !! c0 = Some n ->
  c0 < GradCAM.channels a /\ n = Np.sum (GradCAM.channel c0 a).
Proof.
  unfold GradCAM.sum_positions. rewrite list_lookup_fmap.
  destruct (seq 0 (GradCAM.channels a) !! c0) as [c|] eqn:Hc; [|done].
  apply lookup_seq in Hc as [-> Hlt]. simpl. intros [= <-]. done.
Qed.

Lemma channel_broadcast_div (a : list (list (list Q))) (w : list Q)
    (c0 : nat) (n : Q) :
  Forall (fun v => length v = length w) (concat a) ->
  w !! c0 = Some n ->
  GradCAM.channel c0 (GradCAM.broadcast Qdiv a w)
  = (fun x => x / n)%Q <$> GradCAM.channel c0 a.
Proof.
  intros Hall Hn. unfold GradCAM.channel, GradCAM.broadcast.
  rewrite concat_map_map. change (map ?f ?l) with (f <$> l).
  rewrite <- !list_fmap_compose. apply Forall_fmap_ext.
  eapply Forall_impl; [exact Hall|]. intros v Hv. simpl.
  destruct (lookup_lt_is_Some_2 v c0) as [x Hx].
  { rewrite Hv. by apply lookup_lt_Some in Hn. }
  rewrite Hx. simpl.
  assert (Hz : zip_with Qdiv v w !! c0 = Some (x / n)%Q).
  { apply lookup_zip_with_Some. by exists x, n. }
  by rewrite Hz.
Qed.

(** X20: in exact arithmetic, for activations and second and third
    gradients with [c] channels at every position, the Grad-CAM++
    coefficients [alphas] of a channel whose sum [alpha_norm] is not
    zero add up to 1 over the positions once normalised, and no entry of
    [alpha_denom] is zero after the zeros have been replaced by
    [EPSILON]. *)
Theorem gradcam_plusplus_alphas_normalised (tapes : GradCAM.Tapes (R:=Q))
    (c c0 : nat) (n : Q) :
  concat (GradCAM.last_conv_layer tapes) <> [] ->
  Forall (fun v => length v = c) (concat (GradCAM.last_conv_layer tapes)) ->
  Forall (fun v => length v = c) (concat (GradCAM.second_grads tapes)) ->
  Forall (fun v => length v = c) (concat (GradCAM.third_grads tapes)) ->
  GradCAM.sum_positions (GradCAM.raw_alphas tapes) !! c0 = Some n ->
  ~ (n == 0)%Q ->
  (Np.sum (GradCAM.channel c0 (GradCAM.alphas tapes)) == 1)%Q
  /\ Forall (fun x => ~ (x == 0)%Q)
            (concat (concat (GradCAM.alpha_denom tapes))).
Proof.
  intros Hne Hconv Hsecond Hthird Hn Hn0.
  assert (Hsum : length (GradCAM.sum_positions
                           (GradCAM.last_conv_layer tapes)) = c).
  { unfold GradCAM.sum_positions. rewrite length_fmap, length_seq.
    by apply channels_pixels. }
  assert (Hdenom : Forall (fun v => length v = c)
                          (concat (GradCAM.alpha_denom tapes))).
  { unfold GradCAM.alpha_denom. apply map3_pixels, zip3_pixels.
    - by apply map3_pixels.
    - by apply broadcast_pixels. }
  assert (Hraw : Forall (fun v => length v = c)
                        (concat (GradCAM.raw_alphas tapes))).
  { unfold GradCAM.raw_alphas. by apply zip3_pixels. }
  destruct (sum_positions_lookup _ _ _ Hn) as [Hc0 Hnsum].
  assert (Hpos : concat (GradCAM.raw_alphas tapes) <> []).
  { intros Hnil. unfold GradCAM.channels in Hc0. rewrite Hnil in Hc0. lia. }
  assert (Hnorm : length (GradCAM.sum_positions (GradCAM.raw_alphas tapes))
                  = c).
  { unfold GradCAM.sum_positions. rewrite length_fmap, length_seq.
    by apply channels_pixels. }
  split.
  - unfold GradCAM.alphas.
    change (num_div (R:=Q)) with Qdiv.
    rewrite (channel_broadcast_div _ _ c0 n); [|by rewrite Hnorm|done].
    rewrite Np_sum_div, <- Hnsum. field. exact Hn0.
  - unfold GradCAM.alpha_denom, GradCAM.map3.
    rewrite !concat_map_map. apply Forall_forall.
    intros x Hx. apply list_elem_of_In, in_map_iff in Hx.
    destruct Hx as (y & <- & _). cbv beta.
    change (num_neqb y (num_of_Z 0)) with (negb (Qeq_bool y 0)).
    destruct (Qeq_bool y 0) eqn:Hy; cbn [negb].
    + pose proof EPSILON_pos. lra.
    + intros E. apply Qeq_bool_iff in E. congruence.
Qed.

Lemma gradcam_plusplus_alphas_normalised_witness :
  concat (GradCAM.last_conv_layer GradCAM.sample_tapes) <> []
  /\ Forall (fun v => length v = 2)
            (concat (GradCAM.last_conv_layer GradCAM.sample_tapes))
  /\ Forall (fun v => length v = 2)
            (concat (GradCAM.second_grads GradCAM.sample_tapes))
  /\ Forall (fun v => length v = 2)
            (concat (GradCAM.third_grads GradCAM.sample_tapes))
  /\ GradCAM.sum_positions (GradCAM.raw_alphas GradCAM.sample_tapes) !! 0
     = Some ((1 # 2) + (3 # 10))%Q
  /\ (Np.sum (GradCAM.channel 0 (GradCAM.alphas GradCAM.sample_tapes))
      == 1)%Q.
Proof.
  assert (Hne : concat (GradCAM.last_conv_layer GradCAM.sample_tapes) <> [])
    by discriminate.
  assert (H1 : Forall (fun v => length v = 2)
                 (concat (GradCAM.last_conv_layer GradCAM.sample_tapes))).
  { repeat constructor. }
  assert (H2 : Forall (fun v => length v = 2)
                 (concat (GradCAM.second_grads GradCAM.sample_tapes))).
  { repeat constructor. }
  assert (H3 : Forall (fun v => length v = 2)
                 (concat (GradCAM.third_grads GradCAM.sample_tapes))).
  { repeat constructor. }
  assert (Hn : GradCAM.sum_positions (GradCAM.raw_alphas GradCAM.sample_tapes)
                 !! 0 = Some ((1 # 2) + (3 # 10))%Q).
  { vm_compute. reflexivity. }
  assert (Hn0 : ~ ((1 # 2) + (3 # 10) == 0)%Q) by discriminate.
  split; [exact Hne|]. split; [exact H1|]. split; [exact H2|].
  split; [exact H3|]. split; [exact Hn|].
  exact (proj1 (gradcam_plusplus_alphas_normalised GradCAM.sample_tapes 2 0 _
                  Hne H1 H2 H3 Hn Hn0)).
Defined.
